(** * Text browser and document conversion engine: a shallow embedding

    The development models two Python classes of the repository,
    [SimpleTextBrowser] (kgot/tools/tools_v2_3/Browser.py) and
    [MarkdownConverter] (kgot/tools/tools_v2_3/MdConverter.py), and besides
    them the JSON helpers of [YouTubeConverter] and the tab replacement of
    the retrieval baseline (benchmarks/baselines/RAG/src/utils).

    Conventions.
    - A Python [str] is a [string]; a character is a code point below 256,
      and whitespace, word characters and letter case are Python's on that
      range.
    - A time stamp is a [Z], in seconds.
    - A Python [int] is a [Z]; indexing and slicing follow Python, negative
      positions included.
    - External libraries (requests, the regular-expression engine, the file
      system, the format parsers, the clock) are fields of a [World] record;
      every theorem quantifies over the world, every example fixes one.
    - Exceptions are values of [exn]; code that may raise returns a [comp]
      when it does not touch the browser object and an [outcome] when it
      is a method of it; an [outcome] keeps the object as the call left
      it, and has a third case for a loop that does not end. *)

From Stdlib Require Import ZArith List String Ascii Bool Lia DecimalString.
Import ListNotations.
Open Scope string_scope.
Open Scope Z_scope.

(** ** Python primitives *)

Module Py.

Inductive exn : Type :=
| UnsupportedFormatException (msg : string)
| FileConversionException (msg : string)
| FileNotFoundError (msg : string)
| RequestException (msg : string)
| IsADirectoryError (msg : string)
| PermissionError (msg : string)
| NameError (msg : string)
| AttributeError (msg : string)
| IndexError (msg : string)
| TypeError (msg : string)
| OtherException (name msg : string).

(** Result of a computation without access to the browser object, a
    library call included: a value, or an exception on its way out.
    Library calls are taken to end. *)
Inductive comp (A : Type) : Type :=
| Done (a : A)
| Throw (e : exn).
Arguments Done {A} a.
Arguments Throw {A} e.

(** [str(e)]. *)
Definition exn_str (e : exn) : string :=
  match e with
  | UnsupportedFormatException msg | FileConversionException msg
  | FileNotFoundError msg | RequestException msg | IsADirectoryError msg
  | PermissionError msg | NameError msg | AttributeError msg | IndexError msg
  | TypeError msg | OtherException _ msg => msg
  end.

Definition len (s : string) : Z := Z.of_nat (String.length s).

(** [s[i]]: negative positions count from the end; [None] is IndexError. *)
Definition getitem (s : string) (i : Z) : option ascii :=
  let j := if i <? 0 then i + len s else i in
  if (0 <=? j) && (j <? len s) then String.get (Z.to_nat j) s else None.

(** [s[a:b]]. *)
Definition slice (s : string) (a b : Z) : string :=
  let clamp i := Z.max 0 (Z.min (if i <? 0 then i + len s else i) (len s)) in
  let lo := clamp a in
  let hi := clamp b in
  if lo <? hi then String.substring (Z.to_nat lo) (Z.to_nat (hi - lo)) s
  else EmptyString.

(** [s[a:]]. *)
Definition slice_from (s : string) (a : Z) : string := slice s a (len s).

Definition startswith (s p : string) : bool := String.prefix p s.

(** [range(lo, hi)]. *)
Definition range (lo hi : Z) : list Z :=
  map (fun k => lo + Z.of_nat k) (seq 0 (Z.to_nat (hi - lo))).

(** [l[i]] for a list, with Python's negative positions. *)
Definition list_getitem {A : Type} (l : list A) (i : Z) : option A :=
  let n := Z.of_nat (List.length l) in
  let j := if i <? 0 then i + n else i in
  if (0 <=? j) && (j <? n) then nth_error l (Z.to_nat j) else None.

End Py.

Module PyStr.
Import Py.

Definition LF : ascii := "010"%char.
Definition CR : ascii := "013"%char.
Definition TAB : ascii := "009"%char.
Definition SPACE : ascii := " "%char.
Definition nl : string := String LF EmptyString.

Definition code (c : ascii) : nat := nat_of_ascii c.

Definition between (lo hi : nat) (c : ascii) : bool :=
  (Nat.leb lo (code c) && Nat.leb (code c) hi)%bool.

(** [str.isspace] on code points below 256. *)
Definition isspace (c : ascii) : bool :=
  between 9 13 c || between 28 32 c
  || Nat.eqb (code c) 133 || Nat.eqb (code c) 160.

(** The class [\w] of Python's [re] on [str] patterns, code points below 256. *)
Definition is_word (c : ascii) : bool :=
  between 48 57 c || between 65 90 c || between 97 122 c
  || Nat.eqb (code c) 95
  || existsb (Nat.eqb (code c)) [170; 178; 179; 181; 185; 186; 188; 189; 190]%nat
  || between 192 214 c || between 216 246 c || between 248 255 c.

Definition lower_char (c : ascii) : ascii :=
  if between 65 90 c || between 192 214 c || between 216 222 c
  then ascii_of_nat (code c + 32) else c.

(** [s.lower()]. *)
Fixpoint lower (s : string) : string :=
  match s with
  | EmptyString => EmptyString
  | String c r => String (lower_char c) (lower r)
  end.

(** [s.lstrip()], [s.rstrip()], [s.strip()] with a character class. *)
Fixpoint lstrip_with (p : ascii -> bool) (s : string) : string :=
  match s with
  | EmptyString => EmptyString
  | String c r => if p c then lstrip_with p r else s
  end.

Fixpoint rstrip_with (p : ascii -> bool) (s : string) : string :=
  match s with
  | EmptyString => EmptyString
  | String c r =>
      match rstrip_with p r with
      | EmptyString => if p c then EmptyString else String c EmptyString
      | r' => String c r'
      end
  end.

Definition strip_with (p : ascii -> bool) (s : string) : string :=
  lstrip_with p (rstrip_with p s).

Definition rstrip : string -> string := rstrip_with isspace.
Definition lstrip : string -> string := lstrip_with isspace.
Definition strip : string -> string := strip_with isspace.

(** [needle in s]. *)
Fixpoint contains (needle s : string) : bool :=
  String.prefix needle s ||
  match s with
  | EmptyString => false
  | String _ r => contains needle r
  end.

(** [s.split(sep)[0]] for a one-character separator. *)
Fixpoint before_char (sep : ascii) (s : string) : string :=
  match s with
  | EmptyString => EmptyString
  | String c r => if Ascii.eqb c sep then EmptyString else String c (before_char sep r)
  end.

(** [s.replace(old, new)] for a non-empty [old]: occurrences are replaced
    from the left and do not overlap; [skip] counts the characters of the
    occurrence just replaced that are still to be dropped. *)
Fixpoint replace_from (old new : string) (skip : nat) (s : string) : string :=
  match s with
  | EmptyString => EmptyString
  | String c r =>
      match skip with
      | S k => replace_from old new k r
      | O =>
          if String.prefix old s
          then new ++ replace_from old new (String.length old - 1) r
          else String c (replace_from old new O r)
      end
  end.

Definition replace (old new s : string) : string := replace_from old new O s.

(** [re.split(r"\W+", s)]: the pieces between maximal runs of non-word
    characters; [in_sep] tells that the previous character was one. *)
Fixpoint split_nonword_from (in_sep : bool) (s : string) : list string :=
  match s with
  | EmptyString => [EmptyString]
  | String c r =>
      if is_word c then
        match split_nonword_from false r with
        | h :: t => String c h :: t
        | [] => [String c EmptyString]
        end
      else if in_sep then split_nonword_from true r
      else EmptyString :: split_nonword_from true r
  end.

Definition split_nonword (s : string) : list string :=
  match split_nonword_from false s with
  | h :: t => h :: t
  | [] => [EmptyString]
  end.

(** [re.split(r"\r?\n", s)]. *)
Fixpoint split_lines (s : string) : list string :=
  match s with
  | EmptyString => [EmptyString]
  | String c r =>
      if Ascii.eqb c LF then EmptyString :: split_lines r
      else
        match r with
        | String c2 r2 =>
            if Ascii.eqb c CR && Ascii.eqb c2 LF then EmptyString :: split_lines r2
            else match split_lines r with
                 | h :: t => String c h :: t
                 | [] => [String c EmptyString]
                 end
        | EmptyString => [String c EmptyString]
        end
  end.

Fixpoint newlines (n : nat) : string :=
  match n with
  | O => EmptyString
  | S k => String LF (newlines k)
  end.

(** [re.sub(r"\n{3,}", "\n\n", s)]: [run] newlines have just been read. *)
Fixpoint sub_newlines_from (run : nat) (s : string) : string :=
  let flush := if Nat.leb 3 run then newlines 2 else newlines run in
  match s with
  | EmptyString => flush
  | String c r =>
      if Ascii.eqb c LF then sub_newlines_from (S run) r
      else flush ++ String c (sub_newlines_from O r)
  end.

Definition sub_newlines (s : string) : string := sub_newlines_from O s.

(** [str(n)] for an integer. *)
Definition str_of_int (n : Z) : string :=
  DecimalString.NilZero.string_of_int (Z.to_int n).

End PyStr.

(** ** The conversion engine (MdConverter.py) *)

Module MdConverter.
Import Py PyStr.

(** [DocumentConverterResult]. *)
Record DocumentConverterResult : Type := mkResult {
  title : option string;
  text_content : string
}.

(** A keyword argument: the key is absent, it is bound to [None], or it is
    bound to a value. *)
Inductive kwarg (A : Type) : Type :=
| Absent
| PyNone
| Value (a : A).
Arguments Absent {A}.
Arguments PyNone {A}.
Arguments Value {A} a.

(** The keyword arguments the converters read. *)
Record kwargs : Type := mkKwargs {
  file_extension : kwarg string;
  url : kwarg string;
  encoding : kwarg string
}.

Definition no_kwargs : kwargs := mkKwargs Absent Absent Absent.

(** [kw.get(key, default)]; the result [None] is Python's [None]. *)
Definition kwargs_get {A : Type} (k : kwarg A) (default : A) : option A :=
  match k with
  | Absent => Some default
  | PyNone => None
  | Value a => Some a
  end.

(** [kw.get(key)]. *)
Definition kwargs_get_none {A : Type} (k : kwarg A) : option A :=
  match k with
  | Value a => Some a
  | _ => None
  end.

(** [_kwargs.update({"file_extension": ext})]. *)
Definition with_file_extension (kw : kwargs) (ext : string) : kwargs :=
  mkKwargs (Value ext) (url kw) (encoding kw).

(** A [requests.Response], as far as the code reads it. *)
Record Response : Type := mkResponse {
  response_url : string;
  status_code : Z;
  http_error : option string;          (* what [raise_for_status] raises *)
  content_type : option string;        (* header, if sent *)
  content_disposition : option string; (* header, if sent *)
  response_encoding : option string;
  iter_content : comp string;          (* the streamed body *)
  iter_content_text : comp string      (* the body with [decode_unicode] *)
}.

(** What the engine asks of its libraries and of the file system. *)
Record World : Type := mkWorld {
  files : string -> option string;                 (* regular files: path to bytes *)
  decode : option string -> string -> option string;
    (* text of the bytes under an encoding ([None]: the locale's);
       [None] when they cannot be read as text *)
  splitext : string -> string * string;            (* os.path.splitext *)
  guess_extension : string -> option string;       (* mimetypes *)
  urlparse_path : string -> string;                (* urlparse(u).path *)
  puremagic : string -> option string -> comp (list string);
    (* puremagic.magic_file for a path and the bytes of the regular file
       there ([None]: there is none): the extensions guessed, best first,
       or the exception of the installed version of the library *)
  mkstemp : string;                                (* a fresh temporary path *)
  traceback_body : exn -> string;                  (* format_exc after its first line *)
  repr_list : list string -> string;               (* repr of a list of str *)
  session_get : string -> comp Response;           (* requests: GET *)
  html_to_markdown : string -> comp DocumentConverterResult;
    (* HtmlConverter._convert: BeautifulSoup and markdownify *)
  youtube_page : string -> string -> comp DocumentConverterResult;
  mammoth_to_html : string -> comp string;
  xlsx_markdown : string -> comp string;
  pptx_markdown : string -> comp string;
  pdf_extract_text : string -> comp string;
  xml_markdown : string -> comp (option string);
  transcribe_audio : string -> comp string
}.

(** The world after [path] has been written with [bytes]. *)
Definition write_file (w : World) (path bytes : string) : World :=
  mkWorld (fun p => if String.eqb p path then Some bytes else files w p)
    (decode w) (splitext w) (guess_extension w) (urlparse_path w) (puremagic w)
    (mkstemp w) (traceback_body w) (repr_list w) (session_get w)
    (html_to_markdown w) (youtube_page w) (mammoth_to_html w) (xlsx_markdown w)
    (pptx_markdown w) (pdf_extract_text w) (xml_markdown w) (transcribe_audio w).

Definition bind {A B : Type} (m : comp A) (k : A -> comp B) : comp B :=
  match m with
  | Done a => k a
  | Throw e => Throw e
  end.

Notation "x <- m ;; k" := (bind m (fun x => k))
  (at level 61, m at next level, right associativity).

(** [open(path, "rb").read()]. *)
Definition read_bytes (w : World) (path : string) : comp string :=
  match files w path with
  | Some bytes => Done bytes
  | None => Throw (FileNotFoundError path)
  end.

(** [open(path, "rt", encoding=enc).read()]. *)
Definition read_text (w : World) (path : string) (enc : option string) : comp string :=
  bytes <- read_bytes w path ;;
  match decode w enc bytes with
  | Some text => Done text
  | None => Throw (OtherException "UnicodeDecodeError" path)
  end.

(** *** The format converters

    Each converter first inspects the extension hint and declines with
    [None]; what follows the gate is the library call of the source. *)

(** [extension.lower() in exts], for [extension = kwargs.get("file_extension", "")]. *)
Definition extension_in (kw : kwargs) (exts : list string) : comp bool :=
  match kwargs_get (file_extension kw) EmptyString with
  | None => Throw (AttributeError "'NoneType' object has no attribute 'lower'")
  | Some e => Done (existsb (String.eqb (lower e)) exts)
  end.

Definition AudioConverter_convert (w : World) (local_path : string) (kw : kwargs)
  : comp (option DocumentConverterResult) :=
  ok <- extension_in kw [".wav"; ".mp3"; ".flac"; ".m4a"] ;;
  if negb ok then Done None else
  bytes <- read_bytes w local_path ;;
  result <- transcribe_audio w bytes ;;
  Done (Some (mkResult None result)).

Definition PlainTextConverter_convert (w : World) (local_path : string) (kw : kwargs)
  : comp (option DocumentConverterResult) :=
  let extension := kwargs_get (file_extension kw) EmptyString in
  if match extension with Some e => String.eqb e EmptyString | None => false end
  then Done None else
  text <- read_text w local_path (kwargs_get (encoding kw) "utf-8") ;;
  Done (Some (mkResult None text)).

Definition HtmlConverter_convert (w : World) (local_path : string) (kw : kwargs)
  : comp (option DocumentConverterResult) :=
  ok <- extension_in kw [".html"; ".htm"] ;;
  if negb ok then Done None else
  text <- read_text w local_path (kwargs_get (encoding kw) "utf-8") ;;
  result <- html_to_markdown w text ;;
  Done (Some result).

Definition YouTubeConverter_convert (w : World) (local_path : string) (kw : kwargs)
  : comp (option DocumentConverterResult) :=
  ok <- extension_in kw [".html"; ".htm"] ;;
  if negb ok then Done None else
  match kwargs_get (url kw) EmptyString with
  | None => Throw (AttributeError "'NoneType' object has no attribute 'startswith'")
  | Some u =>
      if negb (startswith u "https://www.youtube.com/watch?") then Done None else
      text <- read_text w local_path (kwargs_get (encoding kw) "utf-8") ;;
      result <- youtube_page w text u ;;
      Done (Some result)
  end.

Definition PdfConverter_convert (w : World) (local_path : string) (kw : kwargs)
  : comp (option DocumentConverterResult) :=
  ok <- extension_in kw [".pdf"] ;;
  if negb ok then Done None else
  bytes <- read_bytes w local_path ;;
  text <- pdf_extract_text w bytes ;;
  Done (Some (mkResult None text)).

Definition DocxConverter_convert (w : World) (local_path : string) (kw : kwargs)
  : comp (option DocumentConverterResult) :=
  ok <- extension_in kw [".docx"] ;;
  if negb ok then Done None else
  bytes <- read_bytes w local_path ;;
  html_content <- mammoth_to_html w bytes ;;
  result <- html_to_markdown w html_content ;;
  Done (Some result).

Definition XlsxConverter_convert (w : World) (local_path : string) (kw : kwargs)
  : comp (option DocumentConverterResult) :=
  ok <- extension_in kw [".xlsx"; ".xls"] ;;
  if negb ok then Done None else
  bytes <- read_bytes w local_path ;;
  md_content <- xlsx_markdown w bytes ;;
  Done (Some (mkResult None (strip md_content))).

(** [xml_markdown] yields the value bound to [markdown]: the text of a
    WordML document, or [None] for any other root, whose extraction
    function returns nothing. *)
Definition XmlConverter_convert (w : World) (local_path : string) (kw : kwargs)
  : comp (option DocumentConverterResult) :=
  ok <- extension_in kw [".xml"] ;;
  if negb ok then Done None else
  xml_string <- read_text w local_path (kwargs_get (encoding kw) "utf-8") ;;
  markdown <- xml_markdown w xml_string ;;
  match markdown with
  | Some m => Done (Some (mkResult None (strip m)))
  | None => Throw (AttributeError "'NoneType' object has no attribute 'strip'")
  end.

Definition PptxConverter_convert (w : World) (local_path : string) (kw : kwargs)
  : comp (option DocumentConverterResult) :=
  ok <- extension_in kw [".pptx"] ;;
  if negb ok then Done None else
  bytes <- read_bytes w local_path ;;
  md_content <- pptx_markdown w bytes ;;
  Done (Some (mkResult None (strip md_content))).

(** The subclasses of [DocumentConverter] and their [convert]. *)
Inductive DocumentConverter : Type :=
| XmlConverter
| YouTubeConverter
| DocxConverter
| XlsxConverter
| PptxConverter
| PdfConverter
| AudioConverter
| HtmlConverter
| PlainTextConverter.

Definition converter_convert (c : DocumentConverter)
  : World -> string -> kwargs -> comp (option DocumentConverterResult) :=
  match c with
  | XmlConverter => XmlConverter_convert
  | YouTubeConverter => YouTubeConverter_convert
  | DocxConverter => DocxConverter_convert
  | XlsxConverter => XlsxConverter_convert
  | PptxConverter => PptxConverter_convert
  | PdfConverter => PdfConverter_convert
  | AudioConverter => AudioConverter_convert
  | HtmlConverter => HtmlConverter_convert
  | PlainTextConverter => PlainTextConverter_convert
  end.

(** *** MarkdownConverter *)

Record MarkdownConverter : Type := mkMarkdownConverter {
  _page_converters : list DocumentConverter
}.

Definition register_page_converter (self : MarkdownConverter) (c : DocumentConverter)
  : MarkdownConverter :=
  mkMarkdownConverter (_page_converters self ++ [c]).

(** [MarkdownConverter.__init__]: the registrations, in the order written. *)
Definition init : MarkdownConverter :=
  fold_left register_page_converter
    [XmlConverter; YouTubeConverter; DocxConverter; XlsxConverter; PptxConverter;
     PdfConverter; AudioConverter; HtmlConverter; PlainTextConverter]
    (mkMarkdownConverter []).

(** [_append_ext]; the list is returned instead of updated in place. *)
Definition _append_ext (extensions : list string) (ext : option string) : list string :=
  match ext with
  | None => extensions
  | Some e =>
      let e := strip e in
      if String.eqb e EmptyString then extensions else extensions ++ [e]
  end.

(** [puremagic.magic_file(path)]: the library looks at the path itself;
    what it raises for a path that holds no file is not the same in all of
    its versions. *)
Definition magic_file (w : World) (path : string) : comp (list string) :=
  puremagic w path (files w path).

Definition _guess_ext_magic (w : World) (path : string) : comp (option string) :=
  match magic_file w path with
  | Done guesses =>
      match guesses with
      | g :: _ =>
          let ext := strip g in
          if 0 <? len ext then Done (Some ext) else Done None
      | [] => Done None
      end
  | Throw (FileNotFoundError _) => Done None
  | Throw (IsADirectoryError _) => Done None
  | Throw (PermissionError _) => Done None
  | Throw e => Throw e
  end.

(** [traceback.format_exc()] inside an [except] block. *)
Definition format_exc (w : World) (e : exn) : string :=
  "Traceback (most recent call last):" ++ nl ++ traceback_body w e.

(** The two statements that normalise [res.text_content]. *)
Definition normalize (text : string) : string :=
  sub_newlines (String.concat nl (map rstrip (split_lines text))).

(** The inner loop of [_convert] for one extension: a normalised result,
    or the error trace after the last converter. *)
Fixpoint try_converters (w : World) (converters : list DocumentConverter)
    (local_path : string) (kw : kwargs) (ext : string) (error_trace : string)
  : comp (DocumentConverterResult + string) :=
  match converters with
  | [] => Done (inr error_trace)
  | converter :: rest =>
      match converter_convert converter w local_path (with_file_extension kw ext) with
      | Done (Some res) =>
          Done (inl (mkResult (title res) (normalize (text_content res))))
      | Done None => try_converters w rest local_path kw ext error_trace
      | Throw e =>
          try_converters w rest local_path kw ext (strip (nl ++ nl ++ format_exc w e))
      end
  end.

(** The outer loop of [_convert]. *)
Fixpoint try_extensions (w : World) (converters : list DocumentConverter)
    (local_path : string) (kw : kwargs) (extensions : list string)
    (error_trace : string) : comp (DocumentConverterResult + string) :=
  match extensions with
  | [] => Done (inr error_trace)
  | ext :: rest =>
      r <- try_converters w converters local_path kw ext error_trace ;;
      match r with
      | inl res => Done (inl res)
      | inr error_trace' => try_extensions w converters local_path kw rest error_trace'
      end
  end.

Definition conversion_error_message (w : World) (local_path : string)
    (extensions : list string) (error_trace : string) : string :=
  "Could not convert '" ++ local_path
  ++ "' to Markdown. File type was recognized as " ++ repr_list w extensions
  ++ ". While converting the file, the following error was encountered:"
  ++ nl ++ nl ++ error_trace.

Definition _convert (self : MarkdownConverter) (w : World) (local_path : string)
    (extensions : list string) (kw : kwargs) : comp (option DocumentConverterResult) :=
  r <- try_extensions w (_page_converters self) local_path kw extensions EmptyString ;;
  match r with
  | inl res => Done (Some res)
  | inr error_trace =>
      if 0 <? len error_trace
      then Throw (FileConversionException
                    (conversion_error_message w local_path extensions error_trace))
      else PlainTextConverter_convert w local_path kw
  end.

(** The list [extensions] that [convert_local] hands to [_convert]. *)
Definition local_extensions (w : World) (path : string) (kw : kwargs)
  : comp (list string) :=
  let extensions :=
    match kwargs_get_none (file_extension kw) with
    | Some ext => [ext]
    | None => []
    end in
  let extensions := _append_ext extensions (Some (snd (splitext w path))) in
  guess <- _guess_ext_magic w path ;;
  Done (_append_ext extensions guess).

Definition convert_local (self : MarkdownConverter) (w : World) (path : string)
    (kw : kwargs) : comp (option DocumentConverterResult) :=
  extensions <- local_extensions w path kw ;;
  _convert self w path extensions kw.

Fixpoint drop (n : nat) (s : string) : string :=
  match n, s with
  | S k, String _ r => drop k r
  | _, _ => s
  end.

(** [re.search(r"filename=([^;]+)", s)]: group 1 of the leftmost match. *)
Fixpoint search_filename (s : string) : option string :=
  let here :=
    if String.prefix "filename=" s
    then before_char ";"%char (drop 9 s)
    else EmptyString in
  if negb (String.eqb here EmptyString) then Some here
  else match s with
       | EmptyString => None
       | String _ r => search_filename r
       end.

Definition is_quote (c : ascii) : bool :=
  Ascii.eqb c "034"%char || Ascii.eqb c "'"%char.

Definition header (h : option string) : string :=
  match h with
  | Some v => v
  | None => EmptyString
  end.

(** The list [extensions] of [convert_response] before the body is saved. *)
Definition response_extensions (w : World) (response : Response) (kw : kwargs)
  : list string :=
  let extensions :=
    match kwargs_get_none (file_extension kw) with
    | Some ext => [ext]
    | None => []
    end in
  let content_type := before_char ";"%char (header (content_type response)) in
  let extensions := _append_ext extensions (guess_extension w content_type) in
  let extensions :=
    match search_filename (header (content_disposition response)) with
    | Some name => _append_ext extensions (Some (snd (splitext w (strip_with is_quote name))))
    | None => extensions
    end in
  _append_ext extensions
    (Some (snd (splitext w (urlparse_path w (response_url response))))).

Definition response_kwargs (response : Response) : kwargs :=
  mkKwargs Absent (Value (response_url response))
    (match response_encoding response with
     | Some e => Value e
     | None => PyNone
     end).

(** [convert_response]: the temporary file exists in the world of the
    conversion only; it is unlinked on every way out. *)
Definition convert_response (self : MarkdownConverter) (w : World)
    (response : Response) (kw : kwargs) : comp (option DocumentConverterResult) :=
  let extensions := response_extensions w response kw in
  let temp_path := mkstemp w in
  body <- iter_content response ;;
  let w' := write_file w temp_path body in
  guess <- _guess_ext_magic w' temp_path ;;
  _convert self w' temp_path (_append_ext extensions guess) (response_kwargs response).

Definition raise_for_status (response : Response) : comp unit :=
  match http_error response with
  | Some msg => Throw (RequestException msg)
  | None => Done tt
  end.

Definition convert_url (self : MarkdownConverter) (w : World) (u : string)
    (kw : kwargs) : comp (option DocumentConverterResult) :=
  response <- session_get w u ;;
  _ <- raise_for_status response ;;
  convert_response self w response kw.

(** The argument [source] of [convert]: a [str], a [requests.Response], or
    any other object, of which only a description is kept. *)
Inductive source : Type :=
| SourceStr (s : string)
| SourceResponse (r : Response)
| SourceOther (description : string).

Definition convert (self : MarkdownConverter) (w : World) (src : source)
    (kw : kwargs) : comp (option DocumentConverterResult) :=
  match src with
  | SourceStr s =>
      if startswith s "http://" || startswith s "https://" || startswith s "file://"
      then convert_url self w s kw
      else convert_local self w s kw
  | SourceResponse r => convert_response self w r kw
  | SourceOther _ => Done None
  end.

End MdConverter.

(** ** The text browser (Browser.py) *)

Module Browser.
Import Py PyStr.

(** [page_title] holds [None], a [str], or the one-element tuple that two
    handlers of [_fetch_page] assign. *)
Inductive title_value : Type :=
| TitleNone
| TitleStr (s : string)
| TitleTuple (s : string).

(** The attributes of a [SimpleTextBrowser].  [constructed] is false while
    [__init__] has not yet assigned [searxng_url], [request_kwargs] and
    [_mdconvert]; until then reading them raises AttributeError.  The
    cookie and header map [request_kwargs] is part of the world's
    [requests_get].  [find_on_page_query] and [find_on_page_viewport] are
    the attributes that [set_address] assigns. *)
Record SimpleTextBrowser : Type := mkBrowser {
  start_page : string;
  viewport_size : Z;
  downloads_folder : option string;
  history : list (string * Z);
  page_title : title_value;
  viewport_current_page : Z;
  viewport_pages : list (Z * Z);
  constructed : bool;
  searxng_url : string;
  _mdconvert : MdConverter.MarkdownConverter;
  _page_content : string;
  _find_on_page_query : option string;
  _find_on_page_last_result : option Z;
  find_on_page_query : option string;
  find_on_page_viewport : option Z
}.

Definition set_history (h : list (string * Z)) (b : SimpleTextBrowser) :=
  mkBrowser (start_page b) (viewport_size b) (downloads_folder b) h (page_title b)
    (viewport_current_page b) (viewport_pages b) (constructed b) (searxng_url b)
    (_mdconvert b) (_page_content b) (_find_on_page_query b)
    (_find_on_page_last_result b) (find_on_page_query b) (find_on_page_viewport b).

Definition set_page_title (t : title_value) (b : SimpleTextBrowser) :=
  mkBrowser (start_page b) (viewport_size b) (downloads_folder b) (history b) t
    (viewport_current_page b) (viewport_pages b) (constructed b) (searxng_url b)
    (_mdconvert b) (_page_content b) (_find_on_page_query b)
    (_find_on_page_last_result b) (find_on_page_query b) (find_on_page_viewport b).

Definition set_viewport_current_page (i : Z) (b : SimpleTextBrowser) :=
  mkBrowser (start_page b) (viewport_size b) (downloads_folder b) (history b)
    (page_title b) i (viewport_pages b) (constructed b) (searxng_url b)
    (_mdconvert b) (_page_content b) (_find_on_page_query b)
    (_find_on_page_last_result b) (find_on_page_query b) (find_on_page_viewport b).

Definition set_viewport_pages (p : list (Z * Z)) (b : SimpleTextBrowser) :=
  mkBrowser (start_page b) (viewport_size b) (downloads_folder b) (history b)
    (page_title b) (viewport_current_page b) p (constructed b) (searxng_url b)
    (_mdconvert b) (_page_content b) (_find_on_page_query b)
    (_find_on_page_last_result b) (find_on_page_query b) (find_on_page_viewport b).

Definition set__page_content (c : string) (b : SimpleTextBrowser) :=
  mkBrowser (start_page b) (viewport_size b) (downloads_folder b) (history b)
    (page_title b) (viewport_current_page b) (viewport_pages b) (constructed b)
    (searxng_url b) (_mdconvert b) c (_find_on_page_query b)
    (_find_on_page_last_result b) (find_on_page_query b) (find_on_page_viewport b).

Definition set__find_on_page_query (q : option string) (b : SimpleTextBrowser) :=
  mkBrowser (start_page b) (viewport_size b) (downloads_folder b) (history b)
    (page_title b) (viewport_current_page b) (viewport_pages b) (constructed b)
    (searxng_url b) (_mdconvert b) (_page_content b) q
    (_find_on_page_last_result b) (find_on_page_query b) (find_on_page_viewport b).

Definition set__find_on_page_last_result (r : option Z) (b : SimpleTextBrowser) :=
  mkBrowser (start_page b) (viewport_size b) (downloads_folder b) (history b)
    (page_title b) (viewport_current_page b) (viewport_pages b) (constructed b)
    (searxng_url b) (_mdconvert b) (_page_content b) (_find_on_page_query b)
    r (find_on_page_query b) (find_on_page_viewport b).

Definition set_find_on_page_query (q : option string) (b : SimpleTextBrowser) :=
  mkBrowser (start_page b) (viewport_size b) (downloads_folder b) (history b)
    (page_title b) (viewport_current_page b) (viewport_pages b) (constructed b)
    (searxng_url b) (_mdconvert b) (_page_content b) (_find_on_page_query b)
    (_find_on_page_last_result b) q (find_on_page_viewport b).

Definition set_find_on_page_viewport (v : option Z) (b : SimpleTextBrowser) :=
  mkBrowser (start_page b) (viewport_size b) (downloads_folder b) (history b)
    (page_title b) (viewport_current_page b) (viewport_pages b) (constructed b)
    (searxng_url b) (_mdconvert b) (_page_content b) (_find_on_page_query b)
    (_find_on_page_last_result b) (find_on_page_query b) v.

(** Outcome of a method call: it returns, it lets an exception out, or it
    never ends; the first two carry the object as the call left it. *)
Inductive outcome (A : Type) : Type :=
| Return (a : A) (self : SimpleTextBrowser)
| Raise (e : exn) (self : SimpleTextBrowser)
| Diverge.
Arguments Return {A} a self.
Arguments Raise {A} e self.
Arguments Diverge {A}.

Definition M (A : Type) : Type := SimpleTextBrowser -> outcome A.

Definition ret {A : Type} (a : A) : M A := fun b => Return a b.
Definition raise {A : Type} (e : exn) : M A := fun b => Raise e b.
Definition diverge {A : Type} : M A := fun _ => Diverge.
Definition modify (f : SimpleTextBrowser -> SimpleTextBrowser) : M unit :=
  fun b => Return tt (f b).
Definition get : M SimpleTextBrowser := fun b => Return b b.

Definition bind {A B : Type} (m : M A) (k : A -> M B) : M B :=
  fun b =>
    match m b with
    | Return a b' => k a b'
    | Raise e b' => Raise e b'
    | Diverge => Diverge
    end.

(** [try: m  except ...: handler]; the handler re-raises what it does not catch. *)
Definition try_except {A : Type} (m : M A) (handler : exn -> M A) : M A :=
  fun b =>
    match m b with
    | Return a b' => Return a b'
    | Raise e b' => handler e b'
    | Diverge => Diverge
    end.

(** A library call inside a method. *)
Definition call {A : Type} (c : comp A) : M A :=
  match c with
  | Done a => ret a
  | Throw e => raise e
  end.

Notation "x <- m ;; k" := (bind m (fun x => k))
  (at level 61, m at next level, right associativity).
Notation "m ;;; k" := (bind m (fun _ => k))
  (at level 61, right associativity).

(** One entry of the search API's [results]; [None] is a missing key. *)
Record search_result : Type := mkSearchResult {
  result_title : option string;
  result_url : option string;
  result_content : option string;
  result_publishedDate : option string
}.

(** What the browser asks of its libraries, of the network and of the clock. *)
Record World : Type := mkWorld {
  md : MdConverter.World;
  time_time : list (string * Z) -> Z;    (* the clock, read when the history is the argument *)
  requests_get : string -> comp MdConverter.Response;
  searxng_request : string -> string -> option string
                    -> comp (option (list search_result));
    (* GET of a search URL with [q] and [time_range], [raise_for_status] and
       [json]: the [results] entry, if the answer has one *)
  re_search : string -> string -> bool;  (* re.search(pattern, text) finds a match *)
  urljoin : string -> string -> string;
  local_path_of : string -> string;      (* normcase(normpath(unquote(s))) *)
  sanitize_filename : string -> string;
  basename : string -> string;
  abs_join : string -> string -> string; (* abspath(join(a, b)) *)
  is_dir : string -> bool;
  open_wb : string -> option exn;        (* what open(path, "wb") raises *)
  path_uri : string -> string            (* Path(p).as_uri() after its "file://" *)
}.

Definition write_file (w : World) (path bytes : string) : World :=
  mkWorld (MdConverter.write_file (md w) path bytes) (time_time w) (requests_get w)
    (searxng_request w) (re_search w) (urljoin w) (local_path_of w)
    (sanitize_filename w) (basename w) (abs_join w) (is_dir w) (open_wb w)
    (path_uri w).

(** [os.path.exists]. *)
Definition path_exists (w : World) (path : string) : bool :=
  is_dir w path || match MdConverter.files (md w) path with Some _ => true | None => false end.

(** *** Pagination *)

(** The property [address]. *)
Definition address : M string :=
  fun b =>
    match list_getitem (history b) (-1) with
    | Some (a, _) => Return a b
    | None => Raise (IndexError "list index out of range") b
    end.

Definition is_boundary_space (c : ascii) : bool :=
  Ascii.eqb c SPACE || Ascii.eqb c TAB || Ascii.eqb c CR || Ascii.eqb c LF.

(** The inner [while] of [_split_pages].  It is entered with
    [k = len(content) - end_idx], the number of rounds after which the
    test [end_idx < len(content)] fails at the latest. *)
Fixpoint extend_end (k : nat) (content : string) (end_idx : Z) : comp Z :=
  match k with
  | O => Done end_idx
  | S k' =>
      if end_idx <? len content then
        match getitem content (end_idx - 1) with
        | None => Throw (IndexError "string index out of range")
        | Some c =>
            if is_boundary_space c then Done end_idx
            else extend_end k' content (end_idx + 1)
        end
      else Done end_idx
  end.

(** The outer [while] of [_split_pages], run for at most [fuel] rounds. *)
Fixpoint split_loop (fuel : nat) (start_idx : Z) : M unit :=
  fun b =>
    let content := _page_content b in
    if start_idx <? len content then
      match fuel with
      | O => Diverge
      | S fuel' =>
          let end_idx := Z.min (start_idx + viewport_size b) (len content) in
          match extend_end (Z.to_nat (len content - end_idx)) content end_idx with
          | Done end_idx' =>
              split_loop fuel' end_idx'
                (set_viewport_pages (viewport_pages b ++ [(start_idx, end_idx')]) b)
          | Throw e => Raise e b
          end
      end
    else Return tt b.

(** Rounds granted to the loop of [_split_pages].  With a positive
    [viewport_size] every round moves [start_idx] forward, so the length
    of the text is enough; the budget is twice that and two. *)
Definition split_fuel (content : string) : nat := 2 * String.length content + 2.

Definition _split_pages : M unit :=
  a <- address ;;
  b <- get ;;
  if startswith a "google:" then
    modify (set_viewport_pages [(0, len (_page_content b))])
  else if len (_page_content b) =? 0 then
    modify (set_viewport_pages [(0, 0)])
  else
    modify (set_viewport_pages []) ;;;
    split_loop (split_fuel (_page_content b)) 0.

Definition _set_page_content (content : string) : M unit :=
  modify (set__page_content content) ;;;
  _split_pages ;;;
  b <- get ;;
  if viewport_current_page b >=? Z.of_nat (List.length (viewport_pages b))
  then modify (set_viewport_current_page (Z.of_nat (List.length (viewport_pages b)) - 1))
  else ret tt.

Definition page_down : M unit :=
  modify (fun b =>
    set_viewport_current_page
      (Z.min (viewport_current_page b + 1) (Z.of_nat (List.length (viewport_pages b)) - 1)) b).

Definition page_up : M unit :=
  modify (fun b => set_viewport_current_page (Z.max (viewport_current_page b - 1) 0) b).

(** The property [viewport]. *)
Definition viewport : M string :=
  fun b =>
    match list_getitem (viewport_pages b) (viewport_current_page b) with
    | Some (lo, hi) => Return (slice (_page_content b) lo hi) b
    | None => Raise (IndexError "list index out of range") b
    end.

(** *** Search inside the page *)

Definition join_words (s : string) : string :=
  strip (String.concat " " (split_nonword s)).

(** The pattern that [_find_next_viewport] builds from a query. *)
Definition normalize_query (query : string) : string :=
  let nquery := replace "*" "__STAR__" query in
  let nquery := " " ++ join_words nquery ++ " " in
  let nquery := replace " __STAR__ " "__STAR__ " nquery in
  lower (replace "__STAR__" ".*" nquery).

(** The text of a viewport as [_find_next_viewport] searches it. *)
Definition normalize_content (content : string) : string :=
  " " ++ lower (join_words content) ++ " ".

(** The [for] loop of [_find_next_viewport]. *)
Fixpoint first_match (w : World) (b : SimpleTextBrowser) (nquery : string)
    (idxs : list Z) : comp (option Z) :=
  match idxs with
  | [] => Done None
  | i :: rest =>
      match list_getitem (viewport_pages b) i with
      | None => Throw (IndexError "list index out of range")
      | Some (lo, hi) =>
          if re_search w nquery (normalize_content (slice (_page_content b) lo hi))
          then Done (Some i)
          else first_match w b nquery rest
      end
  end.

Definition search_order (b : SimpleTextBrowser) (starting_viewport : Z) : list Z :=
  range starting_viewport (Z.of_nat (List.length (viewport_pages b)))
  ++ range 0 starting_viewport.

Definition _find_next_viewport (w : World) (b : SimpleTextBrowser)
    (query : option string) (starting_viewport : Z) : comp (option Z) :=
  match query with
  | None => Done None
  | Some q =>
      let nquery := normalize_query q in
      if String.eqb (strip nquery) EmptyString then Done None
      else first_match w b nquery (search_order b starting_viewport)
  end.

(** The common end of [find_on_page] and [find_next]. *)
Definition goto_match (viewport_match : option Z) : M (option string) :=
  match viewport_match with
  | None => modify (set__find_on_page_last_result None) ;;; ret None
  | Some i =>
      modify (set_viewport_current_page i) ;;;
      modify (set__find_on_page_last_result (Some i)) ;;;
      v <- viewport ;;
      ret (Some v)
  end.

Definition find_next (w : World) : M (option string) :=
  b <- get ;;
  match _find_on_page_query b with
  | None => ret None
  | Some q =>
      let starting_viewport :=
        match _find_on_page_last_result b with
        | None => 0
        | Some r =>
            if r + 1 >=? Z.of_nat (List.length (viewport_pages b)) then 0 else r + 1
        end in
      viewport_match <- call (_find_next_viewport w b (Some q) starting_viewport) ;;
      goto_match viewport_match
  end.

Definition option_eqb {A : Type} (eqb : A -> A -> bool) (x : A) (o : option A) : bool :=
  match o with
  | Some y => eqb x y
  | None => false
  end.

Definition find_on_page (w : World) (query : string) : M (option string) :=
  b <- get ;;
  if option_eqb String.eqb query (_find_on_page_query b)
     && option_eqb Z.eqb (viewport_current_page b) (_find_on_page_last_result b)
  then find_next w
  else
    modify (set__find_on_page_query (Some query)) ;;;
    b <- get ;;
    viewport_match <- call (_find_next_viewport w b (Some query) (viewport_current_page b)) ;;
    goto_match viewport_match.

(** *** The search backend *)

Definition or_default (o : option string) (default : string) : string :=
  match o with
  | Some v => v
  | None => default
  end.

(** [_prev_visit]: the latest visit of [u] in the history. *)
Fixpoint prev_visit_in (now : Z) (u : string) (newest_first : list (string * Z)) : string :=
  match newest_first with
  | [] => EmptyString
  | (a, t) :: rest =>
      if String.eqb a u
      then "You previously visited this page " ++ str_of_int (now - t)
           ++ " seconds ago." ++ nl
      else prev_visit_in now u rest
  end.

Definition _prev_visit (w : World) (b : SimpleTextBrowser) (u : string) : string :=
  prev_visit_in (time_time w (history b)) u (rev (history b)).

(** The body of the [for page in results["results"]] loop. *)
Definition web_snippet (w : World) (b : SimpleTextBrowser) (idx : Z)
    (page : search_result) : string :=
  let t := or_default (result_title page) "No title" in
  let u := or_default (result_url page) EmptyString in
  let content := or_default (result_content page) EmptyString in
  let publishedDate := or_default (result_publishedDate page) EmptyString in
  let date_published :=
    if String.eqb publishedDate EmptyString then EmptyString
    else nl ++ "Date published: " ++ publishedDate in
  let snippet :=
    if String.eqb content EmptyString then EmptyString else nl ++ content in
  replace "Your browser can't play this video." EmptyString
    (str_of_int idx ++ ". [" ++ t ++ "](" ++ u ++ ")" ++ date_published ++ nl
     ++ _prev_visit w b u ++ snippet).

Fixpoint web_snippets (w : World) (b : SimpleTextBrowser) (idx : Z)
    (results : list search_result) : list string :=
  match results with
  | [] => []
  | page :: rest => web_snippet w b (idx + 1) page :: web_snippets w b (idx + 1) rest
  end.

Definition search_error_handler (e : exn) : M unit :=
  modify (set_page_title (TitleStr "Search Error")) ;;;
  match e with
  | RequestException _ =>
      b <- get ;;
      if negb (constructed b)
      then raise (AttributeError "'SimpleTextBrowser' object has no attribute 'searxng_url'")
      else _set_page_content
             ("## Search Error" ++ nl ++ nl ++ "Failed to search using SearxNG: "
              ++ exn_str e ++ nl ++ nl ++ "Please check your SearxNG instance URL: "
              ++ searxng_url b)
  | _ =>
      _set_page_content
        ("## Search Error" ++ nl ++ nl ++ "Unexpected error during search: " ++ exn_str e)
  end.

(** [_searxng_search]; [depth] bounds the nesting of its calls of itself. *)
Fixpoint _searxng_search_n (depth : nat) (w : World) (query : string)
    (filter_year : option Z) (retry : bool) : M unit :=
  match depth with
  | O => diverge
  | S depth' =>
      let time_range :=
        match filter_year with
        | Some y => if retry then None else Some (str_of_int y ++ "-" ++ str_of_int y)
        | None => None
        end in
      try_except
        (b <- get ;;
         if negb (constructed b)
         then raise (AttributeError "'SimpleTextBrowser' object has no attribute 'searxng_url'")
         else
         results <- call (searxng_request w (searxng_url b ++ "/search") query time_range) ;;
         modify (set_page_title (TitleStr (query ++ " - Search"))) ;;;
         match results with
         | None | Some [] =>
             match filter_year, retry with
             | Some _, false => _searxng_search_n depth' w query filter_year true
             | _, _ =>
                 let year_filter_message :=
                   match filter_year with
                   | Some y => " with filter year=" ++ str_of_int y
                   | None => EmptyString
                   end in
                 if retry then
                   _set_page_content
                     ("No results found for '" ++ query ++ "'" ++ year_filter_message
                      ++ ". Already searched removing year limitation, but No result found. Try with a more general query.")
                 else
                   _set_page_content
                     ("No results found for '" ++ query ++ "'" ++ year_filter_message
                      ++ ". Try with a more general query, or remove the year filter.")
             end
         | Some results =>
             b <- get ;;
             let snippets := web_snippets w b 0 results in
             let content :=
               "A search for '" ++ query ++ "' found "
               ++ str_of_int (Z.of_nat (List.length snippets)) ++ " results:" ++ nl ++ nl
               ++ "## Web Results" ++ nl ++ String.concat (nl ++ nl) snippets in
             let content :=
               if retry then
                 "No result were found for filtering year: "
                 ++ match filter_year with Some y => str_of_int y | None => "None" end
                 ++ "." ++ nl ++ "REMOVED YEAR FILTER." ++ nl ++ nl
                 ++ "The following results can be of any year." ++ nl ++ nl ++ content ++ nl
               else content in
             _set_page_content content
         end)
        search_error_handler
  end.

Definition _searxng_search : World -> string -> option Z -> bool -> M unit :=
  _searxng_search_n 2.

(** *** Fetching a page *)

(** Truth value and [str] of the local variable [download_path], which is
    a [str] or [None]. *)
Definition truthy (p : option string) : bool :=
  match p with
  | Some v => negb (String.eqb v EmptyString)
  | None => false
  end.

Definition str_of_path (p : option string) : string := or_default p "None".

Definition title_of (t : option string) : title_value :=
  match t with
  | Some v => TitleStr v
  | None => TitleNone
  end.

(** [self.page_title = res.title; self._set_page_content(res.text_content)]
    for the value [res] a conversion returned. *)
Definition show_result (res : option MdConverter.DocumentConverterResult) : M unit :=
  match res with
  | None => raise (AttributeError "'NoneType' object has no attribute 'title'")
  | Some r =>
      modify (set_page_title (title_of (MdConverter.title r))) ;;;
      _set_page_content (MdConverter.text_content r)
  end.

Definition download_complete (download_path : option string) (e : exn) : M unit :=
  if truthy download_path then
    modify (set_page_title (TitleTuple "Download complete.")) ;;;
    _set_page_content
      ("# Download complete" ++ nl ++ nl ++ "Saved file to '"
       ++ str_of_path download_path ++ "'")
  else
    modify (set_page_title (TitleStr "Error")) ;;;
    _set_page_content ("## Error: " ++ exn_str e).

(** The [except] clauses of [_fetch_page], for the values that the local
    variables [download_path] and [response] have when the exception is
    raised; [response] is [None] while the name is unbound. *)
Definition fetch_handler (w : World) (download_path : option string)
    (response : option MdConverter.Response) (e : exn) : M unit :=
  match e with
  | UnsupportedFormatException _ => download_complete download_path e
  | FileConversionException _ => download_complete download_path e
  | FileNotFoundError _ =>
      modify (set_page_title (TitleStr "Error 404")) ;;;
      _set_page_content
        ("## Error 404" ++ nl ++ nl ++ "File not found: " ++ str_of_path download_path)
  | RequestException _ =>
      let on_name_error :=
        modify (set_page_title (TitleStr "Error")) ;;;
        _set_page_content ("## Error" ++ nl ++ nl ++ exn_str e) in
      match response with
      | None => on_name_error
      | Some r =>
          let error_title :=
            TitleStr ("Error " ++ str_of_int (MdConverter.status_code r)) in
          try_except
            (modify (set_page_title error_title) ;;;
             if contains "text/html" (lower (MdConverter.header (MdConverter.content_type r)))
             then
               b <- get ;;
               res <- call (MdConverter.convert (_mdconvert b) (md w)
                              (MdConverter.SourceResponse r) MdConverter.no_kwargs) ;;
               match res with
               | None => raise (AttributeError "'NoneType' object has no attribute 'text_content'")
               | Some res =>
                   modify (set_page_title error_title) ;;;
                   _set_page_content
                     ("## Error " ++ str_of_int (MdConverter.status_code r) ++ nl ++ nl
                      ++ MdConverter.text_content res)
               end
             else
               text <- call (MdConverter.iter_content_text r) ;;
               modify (set_page_title error_title) ;;;
               _set_page_content
                 ("## Error " ++ str_of_int (MdConverter.status_code r) ++ nl ++ nl ++ text))
            (fun e' =>
               match e' with
               | NameError _ => on_name_error
               | _ => raise e'
               end)
      end
  | _ => raise e
  end.

(** A part of the [try] block during which the local variables keep the
    values the handler was built from. *)
Definition guard {A : Type} (handler : exn -> M unit) (m : M A) (k : A -> M unit)
  : M unit :=
  fun b =>
    match m b with
    | Return a b' => k a b'
    | Raise e b' => handler e b'
    | Diverge => Diverge
    end.

(** The [while os.path.exists(download_path) and suffix < 1000] loop. *)
Fixpoint next_free_path (rounds : nat) (w : World) (folder fname : string)
    (suffix : Z) (download_path : string) : string :=
  match rounds with
  | O => download_path
  | S rounds' =>
      if path_exists w download_path && (suffix <? 1000) then
        let suffix := suffix + 1 in
        let '(base, ext) := MdConverter.splitext (md w) fname in
        next_free_path rounds' w folder fname suffix
          (abs_join w folder (base ++ "__" ++ str_of_int suffix ++ ext))
      else download_path
  end.

(** [_fetch_page]; [set_address_rec] is the method [set_address], called on
    the file just downloaded, in the world that holds that file.  The
    branch [if fname is None] is left out: the statements before it bind
    [fname] or raise an exception other than NameError. *)
Definition _fetch_page (set_address_rec : World -> string -> M unit) (w : World)
    (u : string) : M unit :=
  if startswith u "file://" then
    let download_path := local_path_of w (slice_from u 7) in
    try_except
      (b <- get ;;
       if negb (constructed b)
       then raise (AttributeError "'SimpleTextBrowser' object has no attribute '_mdconvert'")
       else
       res <- call (MdConverter.convert_local (_mdconvert b) (md w) download_path
                      MdConverter.no_kwargs) ;;
       show_result res)
      (fetch_handler w (Some download_path) None)
  else
    guard (fetch_handler w (Some EmptyString) None)
      (b <- get ;;
       if negb (constructed b)
       then raise (AttributeError "'SimpleTextBrowser' object has no attribute 'request_kwargs'")
       else call (requests_get w u))
      (fun response =>
    let handler := fetch_handler w (Some EmptyString) (Some response) in
    guard handler (call (MdConverter.raise_for_status response)) (fun _ =>
    let content_type := MdConverter.header (MdConverter.content_type response) in
    if contains "text/" (lower content_type) then
      try_except
        (b <- get ;;
         res <- call (MdConverter.convert_response (_mdconvert b) (md w) response
                        MdConverter.no_kwargs) ;;
         show_result res)
        handler
    else
      let fname :=
        strip (sanitize_filename w (basename w (MdConverter.urlparse_path (md w) u))) in
      guard (fetch_handler w None (Some response))
        (b <- get ;;
         match downloads_folder b with
         | Some folder => ret folder
         | None => raise (TypeError "expected str, bytes or os.PathLike object, not NoneType")
         end)
        (fun folder =>
      let download_path := next_free_path 1000 w folder fname 0 (abs_join w folder fname) in
      try_except
        (call (match open_wb w download_path with
               | Some e => Throw e
               | None => Done tt
               end) ;;;
         body <- call (MdConverter.iter_content response) ;;
         set_address_rec (write_file w download_path body)
           ("file://" ++ path_uri w download_path))
        (fetch_handler w (Some download_path) (Some response))))).

(** *** Navigation *)

Definition has_scheme (u : string) : bool :=
  startswith u "http:" || startswith u "https:" || startswith u "file:".

(** [set_address]; [depth] bounds the nesting of its calls of itself
    through [_fetch_page]. *)
Fixpoint set_address_n (depth : nat) (w : World) (uri_or_path : string)
    (filter_year : option Z) : M unit :=
  match depth with
  | O => diverge
  | S depth' =>
      (b <- get ;;
       modify (set_history (history b ++ [(uri_or_path, time_time w (history b))]))) ;;;
      (if String.eqb uri_or_path "about:blank" then _set_page_content EmptyString
       else if startswith uri_or_path "google:" then
         _searxng_search w (strip (slice_from uri_or_path 7)) filter_year false
       else
         b <- get ;;
         uri <-
           (if negb (has_scheme uri_or_path) && (1 <? Z.of_nat (List.length (history b)))
            then
              match list_getitem (history b) (-2), list_getitem (history b) (-1) with
              | Some (prior_address, _), Some (_, t) =>
                  let uri := urljoin w prior_address uri_or_path in
                  modify (set_history (removelast (history b) ++ [(uri, t)])) ;;;
                  ret uri
              | _, _ => raise (IndexError "list index out of range")
              end
            else ret uri_or_path) ;;
         _fetch_page (fun w' u => set_address_n depth' w' u None) w uri) ;;;
      modify (set_viewport_current_page 0) ;;;
      modify (set_find_on_page_query None) ;;;
      modify (set_find_on_page_viewport None)
  end.

(** A download makes one nested call, on a [file://] address, which makes none. *)
Definition set_address : World -> string -> option Z -> M unit := set_address_n 2.

Definition visit_page (w : World) (path_or_uri : string) (filter_year : option Z)
  : M string :=
  set_address w path_or_uri filter_year ;;;
  viewport.

(** [SimpleTextBrowser.__init__]. *)
Definition init (w : World) (start_page : option string) (viewport_size : Z)
    (downloads_folder : option string) (searxng_url : option string)
  : outcome unit :=
  let start_page := if truthy start_page then or_default start_page EmptyString
                    else "about:blank" in
  (set_address w start_page None ;;;
   modify (fun b =>
     mkBrowser (Browser.start_page b) (Browser.viewport_size b)
       (Browser.downloads_folder b) (history b) (page_title b)
       (viewport_current_page b) (viewport_pages b) true
       (if truthy searxng_url then or_default searxng_url EmptyString
        else "https://searx.be")
       MdConverter.init EmptyString None None
       (find_on_page_query b) (find_on_page_viewport b)))
    (mkBrowser start_page viewport_size downloads_folder [] TitleNone 0 [] false
       EmptyString MdConverter.init EmptyString None None None None).

End Browser.

(** ** Properties stated about the model *)

Module Props.
Import Py PyStr Browser.

(** The viewports follow one another from [start]: each begins where the
    previous one ended and none is reversed. *)
Fixpoint contiguous (start : Z) (pages : list (Z * Z)) : bool :=
  match pages with
  | [] => true
  | (lo, hi) :: rest => (lo =? start) && (lo <=? hi) && contiguous hi rest
  end.

(** The viewports cut the positions [0 .. n] into consecutive pieces. *)
Definition partition_of (n : Z) (pages : list (Z * Z)) : bool :=
  match pages with
  | [] => false
  | _ => contiguous 0 pages && (snd (last pages (0, 0)) =? n)
  end.

(** A viewport ends at the end of the text or just after a space, a tab, a
    carriage return or a line feed. *)
Definition ends_at_space (content : string) (page : Z * Z) : bool :=
  (snd page =? len content)
  || match getitem content (snd page - 1) with
     | Some c => is_boundary_space c
     | None => false
     end.

(** The state invariant of the browser: there is a viewport and the current
    index designates one. *)
Definition viewport_in_range (b : SimpleTextBrowser) : Prop :=
  viewport_pages b <> [] /\
  0 <= viewport_current_page b < Z.of_nat (List.length (viewport_pages b)).

(** What [_split_pages] leaves in [viewport_pages]. *)
Definition pages_after_split (b : SimpleTextBrowser) (pages : list (Z * Z)) : Prop :=
  _split_pages b = Return tt (set_viewport_pages pages b).

(** A browser on the blank page with viewports of four characters. *)
Definition small_browser : SimpleTextBrowser :=
  mkBrowser "about:blank" 4 None [("about:blank", 0)] TitleNone 0 [(0, 0)] true
    "https://searx.be" MdConverter.init EmptyString None None None None.

(** Hoare triples over the methods: from a state in [P] the method ends;
    it returns [a] in a state of [Q a] or lets an exception out in a state
    of [E]. *)
Definition triple {A : Type} (P : SimpleTextBrowser -> Prop) (m : M A)
    (Q : A -> SimpleTextBrowser -> Prop) (E : SimpleTextBrowser -> Prop) : Prop :=
  forall b, P b ->
    match m b with
    | Return a b' => Q a b'
    | Raise _ b' => E b'
    | Diverge => False
    end.

(** The attributes that no method but [__init__] and the two searches assigns. *)
Record frame (b0 b : SimpleTextBrowser) : Prop := mkFrame {
  frame_viewport_size : viewport_size b = viewport_size b0;
  frame_constructed : constructed b = constructed b0;
  frame_query : _find_on_page_query b = _find_on_page_query b0;
  frame_last_result : _find_on_page_last_result b = _find_on_page_last_result b0;
  frame_mdconvert : _mdconvert b = _mdconvert b0;
  frame_downloads_folder : downloads_folder b = downloads_folder b0;
  frame_searxng_url : searxng_url b = searxng_url b0
}.

(** The current index is not negative and designates a viewport if there
    is one; with [k] there is one. *)
Definition range_ok (k : bool) (b : SimpleTextBrowser) : Prop :=
  0 <= viewport_current_page b
  /\ (viewport_pages b <> [] ->
      viewport_current_page b < Z.of_nat (List.length (viewport_pages b)))
  /\ (k = true -> viewport_pages b <> []).

(** The invariant carried through [set_address], relative to the state
    [b0] in which it was entered. *)
Definition Inv (b0 : SimpleTextBrowser) (k : bool) (b : SimpleTextBrowser) : Prop :=
  frame b0 b /\ 0 < viewport_size b0 /\ range_ok k b.

Definition InvH (b0 : SimpleTextBrowser) (k : bool) (b : SimpleTextBrowser) : Prop :=
  Inv b0 k b /\ history b <> [].

(** The public operations of the browser after its construction. *)
Inductive operation : Type :=
| SetAddress (uri : string) (filter_year : option Z)
| VisitPage (uri : string) (filter_year : option Z)
| PageUp
| PageDown
| FindOnPage (query : string)
| FindNext.

Definition perform (w : World) (op : operation) : M unit :=
  match op with
  | SetAddress uri filter_year => set_address w uri filter_year
  | VisitPage uri filter_year => visit_page w uri filter_year ;;; ret tt
  | PageUp => page_up
  | PageDown => page_down
  | FindOnPage query => find_on_page w query ;;; ret tt
  | FindNext => find_next w ;;; ret tt
  end.

(** The call ended, by a return or by an exception, and left the object [b']. *)
Definition ends_in {A : Type} (o : outcome A) (b' : SimpleTextBrowser) : Prop :=
  match o with
  | Return _ b => b = b'
  | Raise _ b => b = b'
  | Diverge => False
  end.

(** The states of a browser built by [__init__] with a positive viewport
    size and then driven through public operations, in any worlds. *)
Inductive reachable : SimpleTextBrowser -> Prop :=
| reachable_init (w : World) (start : option string) (size : Z)
    (folder url : option string) (b : SimpleTextBrowser) :
    0 < size -> init w start size folder url = Return tt b -> reachable b
| reachable_step (w : World) (op : operation) (b b' : SimpleTextBrowser) :
    reachable b -> ends_in (perform w op b) b' -> reachable b'.

(** The states of a browser built by [__init__] with the viewport size
    [size], which [__init__] takes as it is given, and then driven through
    public operations, in any worlds. *)
Inductive built_with (size : Z) : SimpleTextBrowser -> Prop :=
| built_init (w : World) (start : option string) (folder url : option string)
    (b : SimpleTextBrowser) :
    init w start size folder url = Return tt b -> built_with size b
| built_step (w : World) (op : operation) (b b' : SimpleTextBrowser) :
    built_with size b -> ends_in (perform w op b) b' -> built_with size b'.

(** The claim about the viewport index, in the words of the
    specification: after construction and after every public operation
    there is a viewport and the current index designates one. *)
Definition viewport_always_in_range : Prop :=
  forall (size : Z) (b : SimpleTextBrowser), built_with size b -> viewport_in_range b.

(** The claim about the pagination, in the words of the specification:
    every text set on an address that is not a search is cut into
    contiguous viewports that end at whitespace or at the end of the
    text. *)
Definition every_text_is_partitioned : Prop :=
  forall (b : SimpleTextBrowser) (content a : string) (t : Z) (h : list (string * Z)),
    history b = (h ++ [(a, t)])%list -> startswith a "google:" = false ->
    exists b',
      _set_page_content content b = Return tt b'
      /\ partition_of (len content) (viewport_pages b') = true
      /\ forallb (ends_at_space content) (viewport_pages b') = true.

(** [SimpleTextBrowser(viewport_size=-1)], as [__init__] leaves it. *)
Definition narrow_browser : SimpleTextBrowser :=
  mkBrowser "about:blank" (-1) None [("about:blank", 0)] TitleNone 0 [(0, 0)] true
    "https://searx.be" MdConverter.init EmptyString None None None None.

(** The invariant of the reachable states. *)
Definition well_paged (b : SimpleTextBrowser) : Prop :=
  0 < viewport_size b /\ viewport_in_range b
  /\ forall r, _find_on_page_last_result b = Some r -> 0 <= r.

(** *** Notions for the search inside a page *)

(** The viewport [i] of the page matches the query. *)
Definition viewport_matches (w : World) (b : SimpleTextBrowser) (q : string) (i : Z)
  : bool :=
  match list_getitem (viewport_pages b) i with
  | Some (lo, hi) =>
      re_search w (normalize_query q) (normalize_content (slice (_page_content b) lo hi))
  | None => false
  end.

(** The matching viewports in the order in which a search from [start]
    meets them: forward to the last viewport, then from the first one. *)
Definition matching_from (w : World) (b : SimpleTextBrowser) (q : string) (start : Z)
  : list Z :=
  filter (viewport_matches w b q) (search_order b start).

(** The viewport after [r], the first one after the last. *)
Definition wrap_next (b : SimpleTextBrowser) (r : Z) : Z :=
  if r + 1 >=? Z.of_nat (List.length (viewport_pages b)) then 0 else r + 1.

(** The viewport from which [find_on_page] searches: the current one, or
    the one after it when the call continues the search of the same query. *)
Definition find_start (b : SimpleTextBrowser) (q : string) : Z :=
  if option_eqb String.eqb q (_find_on_page_query b)
     && option_eqb Z.eqb (viewport_current_page b) (_find_on_page_last_result b)
  then wrap_next b (viewport_current_page b)
  else viewport_current_page b.

(** [find_on_page(q)] followed by [m] calls of [find_next()]. *)
Fixpoint find_then_next (w : World) (q : string) (m : nat) : M (option string) :=
  match m with
  | O => find_on_page w q
  | S m' => find_then_next w q m' ;;; find_next w
  end.

(** The browser positioned by a search for [q] on its match [v]. *)
Definition at_match (q : string) (v : Z) (b : SimpleTextBrowser) : SimpleTextBrowser :=
  set__find_on_page_last_result (Some v)
    (set_viewport_current_page v (set__find_on_page_query (Some q) b)).

Definition rotate_left {A : Type} (l : list A) : list A :=
  match l with
  | [] => []
  | x :: t => t ++ [x]
  end.

(** *** Notions for the failures of a visit *)

(** The postcondition of a method that lets no exception out. *)
Definition nothing : SimpleTextBrowser -> Prop := fun _ => False.

(** The exception classes that the handlers of [_fetch_page] turn into a
    page without looking at a response. *)
Definition rendered_directly (e : exn) : bool :=
  match e with
  | UnsupportedFormatException _ => true
  | FileConversionException _ => true
  | FileNotFoundError _ => true
  | _ => false
  end.

(** The exception classes that [_fetch_page] names in an [except] clause. *)
Definition caught (e : exn) : bool :=
  match e with
  | RequestException _ => true
  | _ => rendered_directly e
  end.


End Props.

(** ** Properties stated about the conversion engine *)

Module MdProps.
Import Py PyStr MdConverter.

(** The caller's explicit extension, kept as it is given. *)
Definition explicit (kw : kwargs) : list string :=
  match file_extension kw with
  | Value ext => [ext]
  | _ => []
  end.

(** What [_append_ext] adds for a hint: its stripped text, unless the hint
    is missing or blank. *)
Definition present (hint : option string) : list string :=
  match hint with
  | Some e => if String.eqb (strip e) EmptyString then [] else [strip e]
  | None => []
  end.

(** The four hints that [convert_response] reads from a response. *)
Definition content_type_hint (w : World) (r : Response) : option string :=
  guess_extension w (before_char ";"%char (header (content_type r))).

Definition content_disposition_hint (w : World) (r : Response) : option string :=
  match search_filename (header (content_disposition r)) with
  | Some name => Some (snd (splitext w (strip_with is_quote name)))
  | None => None
  end.

Definition url_path_hint (w : World) (r : Response) : option string :=
  Some (snd (splitext w (urlparse_path w (response_url r)))).

(** The candidate list of a response in the order of the specification:
    explicit extension, path, content-disposition, content-type, content
    signature. *)
Definition claimed_response_candidates (w : World) (r : Response) (kw : kwargs)
    (guess : option string) : list string :=
  explicit kw ++ present (url_path_hint w r) ++ present (content_disposition_hint w r)
  ++ present (content_type_hint w r) ++ present guess.

(** The claim about the candidate list of a response, in those words. *)
Definition candidates_in_claimed_order : Prop :=
  forall (w : World) (r : Response) (kw : kwargs) (guess : option string),
    _append_ext (response_extensions w r kw) guess
    = claimed_response_candidates w r kw guess.

(** An HTML page served under a path that ends in [.pdf]. *)
Definition html_at_pdf_path : Response :=
  mkResponse "http://example.org/report.pdf" 200 None (Some "text/html; charset=utf-8")
    None (Some "utf-8") (Done "<p>moved</p>") (Done "<p>moved</p>").

(** *** Notions for the trials of [_convert] *)

(** What each converter/extension pair answers, in the order of the two
    loops: extension by extension, and for each the converters in the
    order of the registry. *)
Definition trial_outcomes (w : World) (converters : list DocumentConverter)
    (path : string) (kw : kwargs) (extensions : list string)
  : list (comp (option DocumentConverterResult)) :=
  flat_map
    (fun ext => map (fun c => converter_convert c w path (with_file_extension kw ext))
                  converters)
    extensions.

(** The first result among the answers. *)
Fixpoint first_result (outcomes : list (comp (option DocumentConverterResult)))
  : option DocumentConverterResult :=
  match outcomes with
  | [] => None
  | Done (Some res) :: _ => Some res
  | _ :: rest => first_result rest
  end.

(** The error trace after the answers: that of the last one that raised. *)
Fixpoint last_trace (w : World) (trace : string)
    (outcomes : list (comp (option DocumentConverterResult))) : string :=
  match outcomes with
  | [] => trace
  | Throw e :: rest => last_trace w (strip (nl ++ nl ++ format_exc w e)) rest
  | _ :: rest => last_trace w trace rest
  end.

Definition normalized (res : DocumentConverterResult) : DocumentConverterResult :=
  mkResult (title res) (normalize (text_content res)).

(** The file can be read as text under the encoding of the call. *)
Definition readable (w : World) (path : string) (kw : kwargs) : Prop :=
  exists text, read_text w path (kwargs_get (encoding kw) "utf-8") = Done text.

(** *** Notions for the normalised text *)

(** [text.split("\n")]. *)
Fixpoint lines (s : string) : list string :=
  match s with
  | EmptyString => [EmptyString]
  | String c r =>
      if Ascii.eqb c LF then EmptyString :: lines r
      else match lines r with
           | h :: t => String c h :: t
           | [] => [String c EmptyString]
           end
  end.

(** No line ends in whitespace. *)
Definition no_trailing_whitespace (text : string) : Prop :=
  Forall (fun line => rstrip line = line) (lines text).

(** The text has no three line feeds in a row, that is, no two blank
    lines in a row between two lines. *)
Definition no_three_newlines (text : string) : Prop :=
  contains (newlines 3) text = false.

Fixpoint has_lf (s : string) : bool :=
  match s with
  | EmptyString => false
  | String c r => Ascii.eqb c LF || has_lf r
  end.

(** A scan for a line that ends in whitespace; [prev_space] tells that the
    character before [s] is whitespace other than a line feed. *)
Fixpoint clean_from (prev_space : bool) (s : string) : bool :=
  match s with
  | EmptyString => negb prev_space
  | String c r =>
      if Ascii.eqb c LF then negb prev_space && clean_from false r
      else clean_from (isspace c) r
  end.

Definition starts_without_lf (s : string) : Prop :=
  match s with
  | EmptyString => True
  | String c _ => Ascii.eqb c LF = false
  end.

End MdProps.

(** ** A small world for the examples *)

Module Demo.
Import Py PyStr.

(** Three text files; [/docs/notes] has no extension and lines that end in
    spaces. *)
Definition files (p : string) : option string :=
  if String.eqb p "/docs/a.txt" then Some "alpha beta"
  else if String.eqb p "/docs/b.txt" then Some "alpha gamma"
  else if String.eqb p "/docs/notes" then Some ("hello  " ++ nl ++ "world")
  else None.

(** [posixpath.splitext]: the extension starts at the last dot of the last
    component, unless only dots precede it there. *)
Fixpoint splitext_from (leading : bool) (s : string) : string * string :=
  match s with
  | EmptyString => (EmptyString, EmptyString)
  | String c r =>
      let leading' :=
        if Ascii.eqb c "/"%char then true
        else if Ascii.eqb c "."%char then leading else false in
      let '(base, ext) := splitext_from leading' r in
      if negb (String.eqb ext EmptyString) then (String c base, ext)
      else if Ascii.eqb c "."%char && negb leading && negb (contains "/" r)
           then (EmptyString, s)
           else (String c base, EmptyString)
  end.

Definition splitext (s : string) : string * string := splitext_from true s.

Definition guess_extension (content_type : string) : option string :=
  if String.eqb content_type "text/html" then Some ".html"
  else if String.eqb content_type "text/plain" then Some ".txt"
  else if String.eqb content_type "application/pdf" then Some ".pdf"
  else None.

(** The text after the first occurrence of [sep]. *)
Fixpoint after (sep s : string) : option string :=
  if String.prefix sep s then Some (MdConverter.drop (String.length sep) s)
  else match s with
       | EmptyString => None
       | String _ r => after sep r
       end.

(** The text from the first [c] on. *)
Fixpoint from_char (c : ascii) (s : string) : string :=
  match s with
  | EmptyString => EmptyString
  | String c' r => if Ascii.eqb c c' then s else from_char c r
  end.

(** [urlparse(u).path] for addresses without query or fragment. *)
Definition urlparse_path (u : string) : string :=
  match after "://" u with
  | Some rest => from_char "/"%char rest
  | None => u
  end.

Definition repr_list (l : list string) : string :=
  "[" ++ String.concat ", " (map (fun e => "'" ++ e ++ "'") l) ++ "]".

Definition unsupported {A : Type} : comp A :=
  Throw (OtherException "ValueError" "not a document of this format").

(** [puremagic.magic_file] of version 1.30: a path that holds no regular
    file raises PureError and an empty file ValueError; no content signature
    is recognised. *)
Definition puremagic (path : string) (bytes : option string) : comp (list string) :=
  match bytes with
  | Some EmptyString => Throw (OtherException "ValueError" "Input was empty")
  | Some _ => Done []
  | None => Throw (OtherException "PureError" "Not a regular file")
  end.

(** Files are read as they are; no content signature is recognised; HTML
    is kept as it is; the other parsers reject what they get; there is no
    network. *)
Definition md_world : MdConverter.World :=
  MdConverter.mkWorld files (fun _ bytes => Some bytes) splitext guess_extension
    urlparse_path puremagic "/tmp/tmpq1w2e3" exn_str repr_list
    (fun _ => Throw (RequestException "connection refused"))
    (fun html => Done (MdConverter.mkResult None html))
    (fun _ _ => unsupported) (fun _ => unsupported) (fun _ => unsupported)
    (fun _ => unsupported) (fun _ => unsupported) (fun _ => unsupported)
    (fun _ => unsupported).

Definition pdf_response : MdConverter.Response :=
  MdConverter.mkResponse "http://example.org/report.pdf" 200 None
    (Some "application/pdf") None None (Done "%PDF-1.4") (Done "%PDF-1.4").

Definition requests_get (u : string) : comp MdConverter.Response :=
  if String.eqb u "http://example.org/report.pdf" then Done pdf_response
  else Throw (RequestException "connection refused").

(** The last component of a path. *)
Fixpoint basename (s : string) : string :=
  match s with
  | EmptyString => EmptyString
  | String c r => if contains "/" s then basename r else s
  end.

(** The clock counts the visits; the search service has no results; a
    pattern is searched as a literal text, which is what [re.search] does
    for a pattern of word characters and spaces. *)
Definition world : Browser.World :=
  Browser.mkWorld md_world (fun h => Z.of_nat (List.length h)) requests_get
    (fun _ _ _ => Done None) (fun pattern text => contains pattern text)
    (fun _ u => u) (fun p => p) (fun n => n) basename
    (fun folder name => folder ++ "/" ++ name) (fun _ => false) (fun _ => None)
    (fun p => p).

(** [SimpleTextBrowser()] in this world. *)
Definition browser : Browser.SimpleTextBrowser :=
  Browser.mkBrowser "about:blank" 8192 None [("about:blank", 0)] Browser.TitleNone 0
    [(0, 0)] true "https://searx.be" MdConverter.init EmptyString None None None None.

(** The object a call leaves behind. *)
Definition state_of {A : Type} (o : Browser.outcome A)
    (default : Browser.SimpleTextBrowser) : Browser.SimpleTextBrowser :=
  match o with
  | Browser.Return _ b => b
  | Browser.Raise _ b => b
  | Browser.Diverge => default
  end.

(** The browser after [visit_page("file:///docs/a.txt")], then after
    [find_on_page("alpha")], then after [set_address("file:///docs/b.txt")],
    then after [find_next()]. *)
Definition on_page_a : Browser.SimpleTextBrowser :=
  Eval vm_compute in
    state_of (Browser.visit_page world "file:///docs/a.txt" None browser) browser.

Definition found_alpha : Browser.SimpleTextBrowser :=
  Eval vm_compute in state_of (Browser.find_on_page world "alpha" on_page_a) browser.

Definition on_page_b : Browser.SimpleTextBrowser :=
  Eval vm_compute in
    state_of (Browser.set_address world "file:///docs/b.txt" None found_alpha) browser.

Definition found_next : Browser.SimpleTextBrowser :=
  Eval vm_compute in state_of (Browser.find_next world on_page_b) browser.

(** A page of three viewports, two of which hold the word "ab"; the
    browser stands on the second one. *)
Definition paged : Browser.SimpleTextBrowser :=
  Eval vm_compute in
    Browser.set_viewport_current_page 1
      (state_of (Browser._set_page_content "ab cd xy ef ab gh" Props.small_browser)
         Props.small_browser).

End Demo.

(** ** Further notions about the browser *)

Module BrowserNotions.
Import Py PyStr Browser Props.

(** The texts of the viewports, in their order. *)
Definition viewport_texts (content : string) (pages : list (Z * Z)) : list string :=
  map (fun p => slice content (fst p) (snd p)) pages.

(** A viewport holds at least [size] characters, or it ends the text. *)
Definition wide (size n : Z) (page : Z * Z) : bool :=
  (size <=? snd page - fst page) || (snd page =? n).

(** None of the positions [lo .. hi - 1] comes just after a space, a tab,
    a carriage return or a line feed. *)
Definition no_boundary_before (content : string) (lo hi : Z) : bool :=
  forallb (fun i => match getitem content (i - 1) with
                    | Some c => negb (is_boundary_space c)
                    | None => false
                    end)
    (range lo hi).

(** The viewport is not longer than it has to be: no position between its
    nominal end and its end would have been a boundary. *)
Definition cut_at_first_boundary (content : string) (size : Z) (page : Z * Z) : bool :=
  no_boundary_before content (fst page + size) (snd page).

(** [m] called [k] times in a row. *)
Fixpoint times (k : nat) (m : M unit) : M unit :=
  match k with
  | O => ret tt
  | S k' => m ;;; times k' m
  end.

(** The text holds a space, a tab, a carriage return or a line feed. *)
Fixpoint has_boundary (s : string) : bool :=
  match s with
  | EmptyString => false
  | String c r => is_boundary_space c || has_boundary r
  end.

(** The query has no word character and no star. *)
Fixpoint wordless (q : string) : bool :=
  match q with
  | EmptyString => true
  | String c r => negb (is_word c) && negb (Ascii.eqb c "*"%char) && wordless r
  end.

(** What a search leaves behind when it finds nothing: the query is
    recorded and there is no last result. *)
Definition after_failed_search (q : string) (b : SimpleTextBrowser) : SimpleTextBrowser :=
  set__find_on_page_last_result None (set__find_on_page_query (Some q) b).

(** The [k]-th path that a download of [fname] tries: the name itself,
    then the name with [__1], [__2], ... before its extension. *)
Definition numbered_path (w : World) (folder fname : string) (k : Z) : string :=
  if k =? 0 then abs_join w folder fname
  else
    let '(base, ext) := MdConverter.splitext (md w) fname in
    abs_join w folder (base ++ "__" ++ str_of_int k ++ ext).

(** The three kinds of start page that [__init__] meets. *)
Inductive start_kind : Type :=
| StartBlank
| StartSearch
| StartPage.

Definition kind_of_start (start : option string) : start_kind :=
  if negb (truthy start) then StartBlank
  else if String.eqb (or_default start EmptyString) "about:blank" then StartBlank
  else if startswith (or_default start EmptyString) "google:" then StartSearch
  else StartPage.

(** The object that [__init__] builds around the blank page. *)
Definition blank_browser (w : World) (size : Z) (folder url : option string)
  : SimpleTextBrowser :=
  mkBrowser "about:blank" size folder [("about:blank", time_time w [])] TitleNone 0
    [(0, 0)] true
    (if truthy url then or_default url EmptyString else "https://searx.be")
    MdConverter.init EmptyString None None None None.

(** The object after the first statement of [set_address]. *)
Definition enter (w : World) (uri : string) (b : SimpleTextBrowser) : SimpleTextBrowser :=
  set_history (history b ++ [(uri, time_time w (history b))]) b.

(** The three assignments that end [set_address]. *)
Definition finish : M unit :=
  modify (set_viewport_current_page 0) ;;;
  modify (set_find_on_page_query None) ;;;
  modify (set_find_on_page_viewport None).

(** A constructed browser whose history is [h]. *)
Definition searching (h : list (string * Z)) (b : SimpleTextBrowser) : Prop :=
  history b = h /\ constructed b = true.

(** The two titles that a search leaves. *)
Definition search_title (query : string) (t : title_value) : Prop :=
  t = TitleStr (query ++ " - Search") \/ t = TitleStr "Search Error".

(** The browser shows the page of a search: one viewport spans the whole
    content. *)
Definition on_search_page (h : list (string * Z)) (query : string)
    (b : SimpleTextBrowser) : Prop :=
  searching h b
  /\ viewport_pages b = [(0, len (_page_content b))]
  /\ search_title query (page_title b).

(** Partial correctness of a method: if it ends from a state in [P], it
    returns [a] in a state of [Q a] or lets an exception out in a state
    of [E]. *)
Definition partial {A : Type} (P : SimpleTextBrowser -> Prop) (m : M A)
    (Q : A -> SimpleTextBrowser -> Prop) (E : SimpleTextBrowser -> Prop) : Prop :=
  forall b, P b ->
    match m b with
    | Return a b' => Q a b'
    | Raise _ b' => E b'
    | Diverge => True
    end.

(** The method keeps [J], by a return and by an exception alike. *)
Definition keeps {A : Type} (J : SimpleTextBrowser -> Prop) (m : M A) : Prop :=
  partial J m (fun _ => J) J.

(** The address that [set_address] records for [uri]: the address itself
    when it is special or has a scheme or is the first one visited, else
    the address joined to the current one. *)
Definition recorded_address (w : World) (b : SimpleTextBrowser) (uri : string) : string :=
  if String.eqb uri "about:blank" || startswith uri "google:" || has_scheme uri then uri
  else match list_getitem (history b) (-1) with
       | Some (prior, _) => urljoin w prior uri
       | None => uri
       end.

(** The history [h] with one more entry for a downloaded file, or none. *)
Definition with_download (h h' : list (string * Z)) : Prop :=
  h' = h \/ exists p t, h' = (h ++ [(("file://" ++ p)%string, t)])%list.

(** The history after [set_address(uri)] on [b]: that of [b], the entry of
    the call and, after a download, the entry of the saved file. *)
Definition history_grown (w : World) (uri : string) (b b' : SimpleTextBrowser) : Prop :=
  with_download (history b ++ [(recorded_address w b uri, time_time w (history b))])
    (history b').

(** An answer with the status 404 and a plain body, and the world of the
    examples with a server that gives it to every request. *)
Definition not_found : MdConverter.Response :=
  MdConverter.mkResponse "http://example.org/gone" 404
    (Some "404 Client Error: Not Found for url: http://example.org/gone")
    (Some "text/plain") None None (Done "gone") (Done "gone").

Definition error_world : World :=
  mkWorld Demo.md_world (fun h => Z.of_nat (List.length h)) (fun _ => Done not_found)
    (fun _ _ _ => Done None) (fun pattern text => contains pattern text)
    (fun _ u => u) (fun p => p) (fun n => n) Demo.basename
    (fun folder name => folder ++ "/" ++ name) (fun _ => false) (fun _ => None)
    (fun p => p).

(** The answer of the search service has no result. *)
Definition no_results (answer : comp (option (list search_result))) : Prop :=
  answer = Done None \/ answer = Done (Some []).

(** *** What a visit comes to

    The way [visit_page] ends, told from the answers of the world alone,
    without the browser object. *)









(** The world of the examples with one more file, of a single character. *)
Definition tiny_world : World := write_file Demo.world "/docs/x.txt" "a".

(** The world of the examples with an older puremagic, which opens the
    path and so raises FileNotFoundError where there is no file. *)
Definition legacy_world : World :=
  mkWorld
    (MdConverter.mkWorld Demo.files (fun _ bytes => Some bytes) Demo.splitext
       Demo.guess_extension Demo.urlparse_path
       (fun path bytes =>
          match bytes with
          | Some _ => Done []
          | None => Throw (FileNotFoundError path)
          end)
       "/tmp/tmpq1w2e3" exn_str Demo.repr_list
       (fun _ => Throw (RequestException "connection refused"))
       (fun html => Done (MdConverter.mkResult None html))
       (fun _ _ => Demo.unsupported) (fun _ => Demo.unsupported)
       (fun _ => Demo.unsupported) (fun _ => Demo.unsupported)
       (fun _ => Demo.unsupported) (fun _ => Demo.unsupported)
       (fun _ => Demo.unsupported))
    (fun h => Z.of_nat (List.length h)) Demo.requests_get
    (fun _ _ _ => Done None) (fun pattern text => contains pattern text)
    (fun _ u => u) (fun p => p) (fun n => n) Demo.basename
    (fun folder name => folder ++ "/" ++ name) (fun _ => false) (fun _ => None)
    (fun p => p).


End BrowserNotions.

(** ** Further notions about the conversion engine *)

Module EngineNotions.
Import Py PyStr MdConverter MdProps.

(** The extensions, in lower case, for which a converter opens the file;
    the plain-text converter has no such list. *)
Definition accepted_extensions (c : DocumentConverter) : list string :=
  match c with
  | XmlConverter => [".xml"]
  | YouTubeConverter => [".html"; ".htm"]
  | DocxConverter => [".docx"]
  | XlsxConverter => [".xlsx"; ".xls"]
  | PptxConverter => [".pptx"]
  | PdfConverter => [".pdf"]
  | AudioConverter => [".wav"; ".mp3"; ".flac"; ".m4a"]
  | HtmlConverter => [".html"; ".htm"]
  | PlainTextConverter => []
  end.

(** The converter does not decline the extension at once. *)
Definition accepts (c : DocumentConverter) (ext : string) : bool :=
  match c with
  | PlainTextConverter => negb (String.eqb ext EmptyString)
  | _ => existsb (String.eqb (lower ext)) (accepted_extensions c)
  end.

(** The converters of one format each, which [__init__] registers before
    the two generic ones. *)
Definition specialised (c : DocumentConverter) : bool :=
  match c with
  | HtmlConverter | PlainTextConverter => false
  | _ => true
  end.

(** One of the answers is an exception. *)
Definition some_raised (outcomes : list (comp (option DocumentConverterResult))) : bool :=
  existsb (fun o => match o with Throw _ => true | Done _ => false end) outcomes.

(** What a call of [_convert] comes to, told from the answers of the
    pairs: the first result, normalised; without a result the
    FileConversionException with the list of extensions and the last trace
    when a pair raised; else the answer of one more plain-text conversion
    under the keyword arguments of the call. *)
Definition scan_outcome (w : World) (converters : list DocumentConverter)
    (path : string) (extensions : list string) (kw : kwargs)
  : comp (option DocumentConverterResult) :=
  let outcomes := trial_outcomes w converters path kw extensions in
  match first_result outcomes with
  | Some res => Done (Some (normalized res))
  | None =>
      if some_raised outcomes
      then Throw (FileConversionException
                    (conversion_error_message w path extensions
                       (last_trace w EmptyString outcomes)))
      else PlainTextConverter_convert w path kw
  end.

(** The claim about a call that fails, in the words of the specification:
    every pair has been tried, the file cannot be read as text, and the
    error carries the list of extensions and the last trace. *)
Definition failure_carries_trace : Prop :=
  forall (w : World) (path : string) (extensions : list string) (kw : kwargs) (e : exn),
    _convert init w path extensions kw = Throw e ->
    let outcomes := trial_outcomes w (_page_converters init) path kw extensions in
    first_result outcomes = None
    /\ ~ readable w path kw
    /\ e = FileConversionException
             (conversion_error_message w path extensions
                (last_trace w EmptyString outcomes)).

(** The world of the examples with a PDF parser that accepts every file. *)
Definition pdf_world : World :=
  mkWorld Demo.files (fun _ bytes => Some bytes) Demo.splitext Demo.guess_extension
    Demo.urlparse_path Demo.puremagic "/tmp/tmpq1w2e3" exn_str Demo.repr_list
    (fun _ => Throw (RequestException "connection refused"))
    (fun html => Done (mkResult None html))
    (fun _ _ => Demo.unsupported) (fun _ => Demo.unsupported) (fun _ => Demo.unsupported)
    (fun _ => Demo.unsupported) (fun bytes => Done ("PDF  " ++ nl ++ bytes))
    (fun _ => Demo.unsupported) (fun _ => Demo.unsupported).

(** The exceptions that [_guess_ext_magic] catches. *)
Definition swallowed (e : exn) : bool :=
  match e with
  | FileNotFoundError _ | IsADirectoryError _ | PermissionError _ => true
  | _ => false
  end.

(** What [convert_local] lets out when it is called without keyword
    arguments: the failure of the conversion, or an error of the content
    sniffing that [_guess_ext_magic] does not catch. *)
Definition local_failure (w : World) (path : string) (e : exn) : Prop :=
  (exists msg, e = FileConversionException msg)
  \/ (magic_file w path = Throw e /\ swallowed e = false).

End EngineNotions.

(** ** The JSON helpers of YouTubeConverter (MdConverter.py) *)

Module YouTube.

(** A decoded JSON value.  A dict is the list of its entries in the order
    of insertion, with distinct keys. *)
#[warnings="-register-all"]
Inductive json : Type :=
| JNull
| JBool (b : bool)
| JNumber (n : Z)
| JString (s : string)
| JList (items : list json)
| JDict (entries : list (string * json)).

(** [k in d] and [d[k]] for a dict. *)
Fixpoint lookup {V : Type} (d : list (string * V)) (k : string) : option V :=
  match d with
  | [] => None
  | (k', v) :: rest => if String.eqb k' k then Some v else lookup rest k
  end.

(** [YouTubeConverter._get]. *)
Fixpoint _get {V : Type} (json : list (string * V)) (keys : list string) (default : V)
  : V :=
  match keys with
  | [] => default
  | k :: rest =>
      match lookup json k with
      | Some v => v
      | None => _get json rest default
      end
  end.

(** [YouTubeConverter._findKey]; [JNull] is Python's [None]. *)
Fixpoint _findKey (j : json) (key : string) : json :=
  match j with
  | JList items =>
      (fix scan (l : list json) : json :=
         match l with
         | [] => JNull
         | elm :: rest =>
             match _findKey elm key with
             | JNull => scan rest
             | ret => ret
             end
         end) items
  | JDict entries =>
      (fix scan (l : list (string * json)) : json :=
         match l with
         | [] => JNull
         | (k, v) :: rest =>
             if String.eqb k key then v
             else match _findKey v key with
                  | JNull => scan rest
                  | ret => ret
                  end
         end) entries
  | _ => JNull
  end.

(** The value [v] is held under [key] by a dict somewhere inside [j]. *)
Inductive stored (key : string) (v : json) : json -> Prop :=
| stored_here (entries : list (string * json)) :
    In (key, v) entries -> stored key v (JDict entries)
| stored_in_dict (entries : list (string * json)) (k : string) (j : json) :
    In (k, j) entries -> stored key v j -> stored key v (JDict entries)
| stored_in_list (items : list json) (j : json) :
    In j items -> stored key v j -> stored key v (JList items).

(** The player data of the examples. *)
Definition player_data : json :=
  JDict [("contents", JList [JDict [("videoId", JString "a1")];
                             JDict [("attributedDescriptionBodyText",
                                     JDict [("content", JString "about")])]]);
         ("header", JNull)].

End YouTube.

(** ** Helpers of the retrieval baseline (benchmarks/baselines/RAG/src/utils) *)

Module RagUtils.
Import PyStr.

(** The [page_content] of each document after [replace_t_with_space]; the
    documents are updated in place and the same list is returned. *)
Definition replace_t_with_space (list_of_documents : list string) : list string :=
  map (replace (String TAB EmptyString) " ") list_of_documents.

(** The text with every tab turned into a space. *)
Fixpoint untabbed (s : string) : string :=
  match s with
  | EmptyString => EmptyString
  | String c r => String (if Ascii.eqb c TAB then SPACE else c) (untabbed r)
  end.

Fixpoint has_tab (s : string) : bool :=
  match s with
  | EmptyString => false
  | String c r => Ascii.eqb c TAB || has_tab r
  end.

End RagUtils.

(** ** Theorems *)

Module PaginationFacts.
Import Py PyStr Browser Props.

Lemma get_in_range (s : string) (n : nat) :
  (n < String.length s)%nat -> exists c, String.get n s = Some c.
Proof.
  revert n; induction s as [|a s IH]; simpl; intros n Hn; [lia|].
  destruct n as [|n]; [eauto|]. apply IH; lia.
Qed.

Lemma getitem_in_range (s : string) (i : Z) :
  0 <= i < len s -> exists c, getitem s i = Some c.
Proof.
  intros Hi. unfold getitem.
  destruct (i <? 0) eqn:E; [apply Z.ltb_lt in E; lia|].
  replace ((0 <=? i) && (i <? len s)) with true
    by (symmetry; apply andb_true_iff; split; [apply Z.leb_le | apply Z.ltb_lt]; lia).
  apply get_in_range. unfold len in Hi. lia.
Qed.

(** The inner loop ends, at or after its start, at the end of the text or
    after a space. *)
Lemma extend_end_spec (content : string) (k : nat) (e : Z) :
  1 <= e <= len content -> k = Z.to_nat (len content - e) ->
  exists e', extend_end k content e = Done e' /\ e <= e' <= len content
             /\ ends_at_space content (0, e') = true.
Proof.
  revert e; induction k as [|k IH]; intros e He Hk.
  - assert (e = len content) by lia. subst e.
    exists (len content). simpl.
    unfold ends_at_space; simpl. rewrite Z.eqb_refl. repeat split; lia.
  - cbn [extend_end]. destruct (e <? len content) eqn:E.
    + apply Z.ltb_lt in E.
      destruct (getitem_in_range content (e - 1)) as [c Hc]; [lia|].
      rewrite Hc. destruct (is_boundary_space c) eqn:Hs.
      * exists e. unfold ends_at_space; simpl. rewrite Hc, Hs, orb_true_r.
        repeat split; lia.
      * destruct (IH (e + 1)) as (e' & H1 & H2 & H3); [lia|lia|].
        exists e'. repeat split; try assumption; lia.
    + apply Z.ltb_ge in E. exists e. unfold ends_at_space; simpl.
      replace (e =? len content) with true by (symmetry; apply Z.eqb_eq; lia).
      repeat split; lia.
Qed.

Lemma last_cons_nonempty {A : Type} (x d : A) (l : list A) :
  l <> [] -> last (x :: l) d = last l d.
Proof. destruct l; [congruence | reflexivity]. Qed.

(** The outer loop, started inside the text with enough rounds, appends
    viewports that lead from [start] to the end of the text. *)
Lemma split_loop_spec (fuel : nat) :
  forall (start : Z) (b : SimpleTextBrowser),
    0 < viewport_size b ->
    0 <= start <= len (_page_content b) ->
    (Z.to_nat (len (_page_content b) - start) <= fuel)%nat ->
    exists new,
      split_loop fuel start b
        = Return tt (set_viewport_pages (viewport_pages b ++ new)%list b)
      /\ contiguous start new = true
      /\ forallb (ends_at_space (_page_content b)) new = true
      /\ forallb (fun p => fst p <? snd p) new = true
      /\ (start < len (_page_content b) ->
          new <> [] /\ snd (last new (0, 0)) = len (_page_content b))
      /\ (start = len (_page_content b) -> new = []).
Proof.
  induction fuel as [|fuel IH]; intros start b Hvs Hstart Hfuel.
  - assert (start = len (_page_content b)) by lia.
    exists []. cbn [split_loop]. replace (start <? len (_page_content b)) with false
      by (symmetry; apply Z.ltb_ge; lia).
    rewrite app_nil_r. destruct b; repeat split; try reflexivity; lia.
  - cbn [split_loop]. destruct (start <? len (_page_content b)) eqn:E.
    + apply Z.ltb_lt in E.
      set (content := _page_content b) in *.
      set (e0 := Z.min (start + viewport_size b) (len content)).
      destruct (extend_end_spec content (Z.to_nat (len content - e0)) e0)
        as (e & He & Hrange & Hspace); [lia | reflexivity |].
      rewrite He.
      set (b1 := set_viewport_pages (viewport_pages b ++ [(start, e)]) b).
      destruct (IH e b1) as (new & Hrun & Hc & Hs & Hlt & Hne & Hnil);
        [exact Hvs | change (_page_content b1) with content; lia
        | change (_page_content b1) with content; lia |].
      change (_page_content b1) with content in *.
      exists ((start, e) :: new). split; [|split; [|split; [|split; [|split]]]].
      * rewrite Hrun. unfold b1, set_viewport_pages; simpl.
        rewrite <- app_assoc. reflexivity.
      * cbn [contiguous]. rewrite Z.eqb_refl, Hc.
        replace (start <=? e) with true by (symmetry; apply Z.leb_le; lia).
        reflexivity.
      * cbn [forallb]. rewrite Hs, andb_true_r. exact Hspace.
      * cbn [forallb fst snd]. rewrite Hlt, andb_true_r. apply Z.ltb_lt. lia.
      * intros _. split; [discriminate|].
        destruct (Z.eq_dec e (len content)) as [Heq|Hneq].
        -- rewrite (Hnil Heq). simpl. exact Heq.
        -- destruct Hne as [Hne1 Hne2]; [lia|].
           rewrite last_cons_nonempty by exact Hne1. exact Hne2.
      * intros ->. lia.
    + apply Z.ltb_ge in E. exists []. rewrite app_nil_r.
      destruct b; repeat split; try reflexivity; simpl in *; lia.
Qed.

Lemma split_fuel_enough (content : string) :
  (Z.to_nat (len content - 0) <= split_fuel content)%nat.
Proof. unfold split_fuel, len. lia. Qed.

Lemma list_getitem_nonneg {A : Type} (l : list A) (i : Z) :
  0 <= i < Z.of_nat (List.length l) -> list_getitem l i = nth_error l (Z.to_nat i).
Proof.
  intros Hi. unfold list_getitem.
  destruct (i <? 0) eqn:E; [apply Z.ltb_lt in E; lia|].
  destruct (0 <=? i) eqn:E1; [|apply Z.leb_gt in E1; lia].
  destruct (i <? Z.of_nat (List.length l)) eqn:E2; [|apply Z.ltb_ge in E2; lia].
  reflexivity.
Qed.

Lemma list_getitem_negative {A : Type} (l : list A) (i : Z) :
  - Z.of_nat (List.length l) <= i < 0 ->
  list_getitem l i = nth_error l (Z.to_nat (i + Z.of_nat (List.length l))).
Proof.
  intros Hi. unfold list_getitem.
  destruct (i <? 0) eqn:E; [|apply Z.ltb_ge in E; lia].
  destruct (0 <=? i + Z.of_nat (List.length l)) eqn:E1; [|apply Z.leb_gt in E1; lia].
  destruct (i + Z.of_nat (List.length l) <? Z.of_nat (List.length l)) eqn:E2;
    [|apply Z.ltb_ge in E2; lia].
  reflexivity.
Qed.

Lemma list_getitem_last {A : Type} (l : list A) (x : A) :
  list_getitem (l ++ [x]) (-1) = Some x.
Proof.
  rewrite list_getitem_negative by (rewrite length_app; simpl List.length; lia).
  rewrite length_app. simpl List.length.
  replace (Z.to_nat (-1 + Z.of_nat (List.length l + 1))) with (List.length l) by lia.
  rewrite nth_error_app2 by lia. rewrite Nat.sub_diag. reflexivity.
Qed.

Lemma address_of_history (b : SimpleTextBrowser) (a : string) (t : Z)
    (h : list (string * Z)) :
  history b = (h ++ [(a, t)])%list -> address b = Return a b.
Proof.
  intros Hh. unfold address. rewrite Hh, list_getitem_last. reflexivity.
Qed.

(** [_split_pages] on an address that is not a search. *)
Lemma split_pages_spec (b : SimpleTextBrowser) (a : string) (t : Z)
    (h : list (string * Z)) :
  history b = (h ++ [(a, t)])%list -> startswith a "google:" = false ->
  0 < viewport_size b ->
  exists pages,
    pages_after_split b pages
    /\ partition_of (len (_page_content b)) pages = true
    /\ forallb (ends_at_space (_page_content b)) pages = true
    /\ (len (_page_content b) = 0 -> pages = [(0, 0)]).
Proof.
  intros Hh Hg Hvs. unfold pages_after_split, _split_pages, bind.
  rewrite (address_of_history b a t h Hh). unfold get. rewrite Hg.
  destruct (len (_page_content b) =? 0) eqn:E.
  - apply Z.eqb_eq in E. exists [(0, 0)]. unfold modify.
    repeat split.
    + unfold partition_of; simpl. rewrite E. reflexivity.
    + simpl. unfold ends_at_space; simpl. rewrite E. reflexivity.
  - apply Z.eqb_neq in E. unfold modify.
    set (b0 := set_viewport_pages [] b).
    assert (Hlen : 0 <= len (_page_content b)) by (unfold len; lia).
    destruct (split_loop_spec (split_fuel (_page_content b)) 0 b0)
      as (new & Hrun & Hc & Hs & _ & Hne & _);
      [exact Hvs | change (_page_content b0) with (_page_content b); lia
      | apply split_fuel_enough |].
    change (_page_content b0) with (_page_content b) in *.
    destruct Hne as [Hne Hlast]; [lia|].
    exists new. repeat split.
    + rewrite Hrun. reflexivity.
    + unfold partition_of. destruct new; [congruence|]. rewrite Hc, Hlast, Z.eqb_refl.
      reflexivity.
    + exact Hs.
    + intros; lia.
Qed.

Lemma set_page_content_spec (b : SimpleTextBrowser) (content : string)
    (pages : list (Z * Z)) :
  pages_after_split (set__page_content content b) pages ->
  _set_page_content content b
  = Return tt
      (let b1 := set_viewport_pages pages (set__page_content content b) in
       if viewport_current_page b >=? Z.of_nat (List.length pages)
       then set_viewport_current_page (Z.of_nat (List.length pages) - 1) b1
       else b1).
Proof.
  unfold pages_after_split, _set_page_content, bind, modify, get, ret.
  intros ->. simpl.
  destruct (viewport_current_page b >=? Z.of_nat (List.length pages)); reflexivity.
Qed.

(** C6, as the code has it. Pagination of a page that is not a search
    result, under a positive viewport size, which [__init__] does not ask
    for: for every text the viewports are a contiguous,
    non-overlapping partition of the text (the first starts at 0, each
    next one starts where the previous ended, the last ends at the length
    of the text); every viewport end other than the end of the text comes
    just after a space, tab, carriage return or line feed; the empty text
    gets exactly the one empty viewport. *)
Theorem viewports_partition_text (b : SimpleTextBrowser) (content a : string)
    (t : Z) (h : list (string * Z)) :
  history b = (h ++ [(a, t)])%list -> startswith a "google:" = false ->
  0 < viewport_size b ->
  exists b',
    _set_page_content content b = Return tt b'
    /\ _page_content b' = content
    /\ partition_of (len content) (viewport_pages b') = true
    /\ forallb (ends_at_space content) (viewport_pages b') = true
    /\ (content = EmptyString -> viewport_pages b' = [(0, 0)]).
Proof.
  intros Hh Hg Hvs.
  destruct (split_pages_spec (set__page_content content b) a t h Hh Hg Hvs)
    as (pages & Hrun & Hpart & Hspace & Hempty).
  change (_page_content (set__page_content content b)) with content in *.
  rewrite (set_page_content_spec b content pages Hrun).
  eexists; split; [reflexivity|].
  destruct (viewport_current_page b >=? Z.of_nat (List.length pages));
    (repeat split; [exact Hpart | exact Hspace | intros ->; apply Hempty; reflexivity]).
Qed.

(** The theorem at a text of twelve characters and viewports of four. *)
Lemma viewports_partition_text_witness :
  exists b',
    _set_page_content "ab cdefg hij" small_browser = Return tt b'
    /\ _page_content b' = "ab cdefg hij"
    /\ partition_of (len "ab cdefg hij") (viewport_pages b') = true
    /\ forallb (ends_at_space "ab cdefg hij") (viewport_pages b') = true
    /\ ("ab cdefg hij" = EmptyString -> viewport_pages b' = [(0, 0)]).
Proof.
  apply (viewports_partition_text small_browser "ab cdefg hij" "about:blank" 0 []);
    reflexivity.
Defined.

(** [SimpleTextBrowser(viewport_size=-1)] is what [__init__] builds for
    that size. *)
Example init_narrow : init Demo.world None (-1) None None = Return tt narrow_browser.
Proof. reflexivity. Qed.

(** With the viewport size -1 the first viewport of a text of one
    character would end at -1, and the test of the inner loop reads
    [content[-2]]. *)
Example one_character_is_not_paged :
  exists b',
    _set_page_content "a" narrow_browser
    = Raise (IndexError "string index out of range") b'
    /\ viewport_pages b' = [].
Proof. eexists. split; reflexivity. Qed.

(** C6 as the specification words it, for every text and so for every
    browser, does not hold. *)
Lemma narrow_viewport_is_not_partitioned : ~ every_text_is_partitioned.
Proof.
  intros H.
  destruct (H narrow_browser "a" "about:blank" 0 [] eq_refl eq_refl)
    as (b' & Hrun & _).
  destruct one_character_is_not_paged as (b'' & Hraise & _).
  rewrite Hraise in Hrun. discriminate Hrun.
Qed.

End PaginationFacts.

(** ** Triples *)

Module Triples.
Import Py PyStr Browser Props.

Section Rules.
Context {A B : Type}.
Implicit Types (P E : SimpleTextBrowser -> Prop).

Lemma triple_ret P (Q : A -> SimpleTextBrowser -> Prop) E (a : A) :
  (forall b, P b -> Q a b) -> triple P (ret a) Q E.
Proof. intros H b Hb. apply H, Hb. Qed.

Lemma triple_raise P (Q : A -> SimpleTextBrowser -> Prop) E (e : exn) :
  (forall b, P b -> E b) -> triple P (raise e) Q E.
Proof. intros H b Hb. apply H, Hb. Qed.

Lemma triple_modify P (Q : unit -> SimpleTextBrowser -> Prop) E f :
  (forall b, P b -> Q tt (f b)) -> triple P (modify f) Q E.
Proof. intros H b Hb. apply H, Hb. Qed.

Lemma triple_call P (c : comp A) : triple P (call c) (fun _ => P) P.
Proof. intros b Hb. destruct c; exact Hb. Qed.

Lemma triple_bind P (R : A -> SimpleTextBrowser -> Prop)
    (Q : B -> SimpleTextBrowser -> Prop) E (m : M A) (k : A -> M B) :
  triple P m R E -> (forall a, triple (R a) (k a) Q E) -> triple P (bind m k) Q E.
Proof.
  intros Hm Hk b Hb. unfold bind. specialize (Hm b Hb).
  destruct (m b) as [a b'|e b'|]; [apply Hk, Hm | exact Hm | exact Hm].
Qed.

Lemma triple_get P (Q : B -> SimpleTextBrowser -> Prop) E
    (k : SimpleTextBrowser -> M B) :
  (forall b0, triple (fun b => P b /\ b = b0) (k b0) Q E) -> triple P (bind get k) Q E.
Proof. intros H b Hb. unfold bind, get. apply (H b b). split; [exact Hb | reflexivity]. Qed.

Lemma triple_try P (Q : A -> SimpleTextBrowser -> Prop) E1 E (m : M A)
    (h : exn -> M A) :
  triple P m Q E1 -> (forall e, triple E1 (h e) Q E) -> triple P (try_except m h) Q E.
Proof.
  intros Hm Hh b Hb. unfold try_except. specialize (Hm b Hb).
  destruct (m b) as [a b'|e b'|]; [exact Hm | apply Hh, Hm | exact Hm].
Qed.

Lemma triple_conseq (P P' : SimpleTextBrowser -> Prop)
    (Q Q' : A -> SimpleTextBrowser -> Prop) (E E' : SimpleTextBrowser -> Prop)
    (m : M A) :
  triple P' m Q' E' -> (forall b, P b -> P' b) -> (forall a b, Q' a b -> Q a b) ->
  (forall b, E' b -> E b) -> triple P m Q E.
Proof.
  intros Hm HP HQ HE b Hb. specialize (Hm b (HP b Hb)).
  destruct (m b); [apply HQ, Hm | apply HE, Hm | exact Hm].
Qed.

Lemma triple_get_inv P (Q : B -> SimpleTextBrowser -> Prop) E
    (k : SimpleTextBrowser -> M B) :
  (forall b1, P b1 -> triple P (k b1) Q E) -> triple P (bind get k) Q E.
Proof. intros H b Hb. unfold bind, get. apply (H b Hb b Hb). Qed.

End Rules.

Lemma triple_guard {A : Type} (P : SimpleTextBrowser -> Prop)
    (R : A -> SimpleTextBrowser -> Prop) (Q : unit -> SimpleTextBrowser -> Prop)
    (E1 E : SimpleTextBrowser -> Prop) (h : exn -> M unit) (m : M A)
    (k : A -> M unit) :
  triple P m R E1 -> (forall e, triple E1 (h e) Q E) ->
  (forall a, triple (R a) (k a) Q E) -> triple P (guard h m k) Q E.
Proof.
  intros Hm Hh Hk b Hb. unfold guard. specialize (Hm b Hb).
  destruct (m b) as [a b'|e b'|]; [apply Hk, Hm | apply Hh, Hm | exact Hm].
Qed.

End Triples.

(** ** The invariant through the methods *)

Module InvariantFacts.
Import Py PyStr Browser Props Triples PaginationFacts.

Lemma frame_refl (b : SimpleTextBrowser) : frame b b.
Proof. constructor; reflexivity. Qed.

Lemma frame_trans (b0 b1 b2 : SimpleTextBrowser) :
  frame b0 b1 -> frame b1 b2 -> frame b0 b2.
Proof. intros [] []; constructor; congruence. Qed.

Lemma frame_set_history b0 b h : frame b0 b -> frame b0 (set_history h b).
Proof. intros []; constructor; assumption. Qed.

Lemma frame_set_page_title b0 b t : frame b0 b -> frame b0 (set_page_title t b).
Proof. intros []; constructor; assumption. Qed.

Lemma frame_set_viewport_current_page b0 b i :
  frame b0 b -> frame b0 (set_viewport_current_page i b).
Proof. intros []; constructor; assumption. Qed.

Lemma frame_set_viewport_pages b0 b p : frame b0 b -> frame b0 (set_viewport_pages p b).
Proof. intros []; constructor; assumption. Qed.

Lemma frame_set__page_content b0 b c : frame b0 b -> frame b0 (set__page_content c b).
Proof. intros []; constructor; assumption. Qed.

Lemma frame_set_find_on_page_query b0 b q :
  frame b0 b -> frame b0 (set_find_on_page_query q b).
Proof. intros []; constructor; assumption. Qed.

Lemma frame_set_find_on_page_viewport b0 b v :
  frame b0 b -> frame b0 (set_find_on_page_viewport v b).
Proof. intros []; constructor; assumption. Qed.

Create HintDb frame.

#[export] Hint Resolve frame_set_history frame_set_page_title
  frame_set_viewport_current_page frame_set_viewport_pages
  frame_set__page_content frame_set_find_on_page_query
  frame_set_find_on_page_viewport : frame.

(** [_split_pages] ends and leaves at least one viewport. *)
Lemma split_pages_total (b : SimpleTextBrowser) :
  0 < viewport_size b -> history b <> [] ->
  exists pages, pages_after_split b pages /\ pages <> [].
Proof.
  intros Hvs Hh.
  destruct (exists_last Hh) as (h & [a t] & Hlast).
  destruct (startswith a "google:") eqn:Hg.
  - exists [(0, len (_page_content b))]. split; [|discriminate].
    unfold pages_after_split, _split_pages, bind.
    rewrite (address_of_history b a t h Hlast). unfold get. rewrite Hg. reflexivity.
  - destruct (split_pages_spec b a t h Hlast Hg Hvs) as (pages & Hrun & Hpart & _).
    exists pages. split; [exact Hrun|]. intros ->. discriminate.
Qed.

(** [_set_page_content] returns, with a viewport under the current index. *)
Lemma set_page_content_triple (b0 : SimpleTextBrowser) (k : bool) (content : string) :
  triple (InvH b0 k) (_set_page_content content) (fun _ => InvH b0 true)
    (fun _ => False).
Proof.
  intros b [(Hf & Hvs & Hcur & Hlt & Hk) Hh].
  destruct (split_pages_total (set__page_content content b)) as (pages & Hrun & Hne).
  { change (viewport_size (set__page_content content b)) with (viewport_size b).
    rewrite (frame_viewport_size _ _ Hf). exact Hvs. }
  { exact Hh. }
  rewrite (set_page_content_spec b content pages Hrun). cbv zeta.
  assert (Hn : 0 < Z.of_nat (List.length pages))
    by (destruct pages; [congruence | simpl List.length; lia]).
  destruct (viewport_current_page b >=? Z.of_nat (List.length pages)) eqn:E.
  - split; [split; [auto with frame | split; [exact Hvs|]] | exact Hh].
    unfold range_ok; simpl. repeat split; intros; try lia; exact Hne.
  - rewrite Z.geb_leb in E. apply Z.leb_gt in E.
    split; [split; [auto with frame | split; [exact Hvs|]] | exact Hh].
    unfold range_ok; simpl. repeat split; intros; try lia; exact Hne.
Qed.

(** Use a triple already proved under a stronger precondition or for
    weaker postconditions. *)
Ltac weaken_with L :=
  eapply triple_conseq; [apply L | | | ]; cbv beta; intros;
  try eassumption; try tauto.

Lemma InvH_set_page_title b0 k t b : InvH b0 k b -> InvH b0 k (set_page_title t b).
Proof. intros [(Hf & Hvs & Hr) Hh]. split; [split; [auto with frame | split]|]; assumption. Qed.

Lemma InvH_weaken b0 k b : InvH b0 true b -> InvH b0 k b.
Proof.
  intros [(Hf & Hvs & Hcur & Hlt & Hk) Hh].
  split; [split; [exact Hf | split; [exact Hvs|]] | exact Hh].
  repeat split; auto.
Qed.

(** Assigning the title and then the content returns. *)
Lemma title_content_triple b0 k t content (E : SimpleTextBrowser -> Prop) :
  triple (InvH b0 k) (modify (set_page_title t) ;;; _set_page_content content)
    (fun _ => InvH b0 true) E.
Proof.
  eapply triple_bind with (R := fun _ => InvH b0 k).
  - apply triple_modify. intros b Hb. apply InvH_set_page_title, Hb.
  - intros _. weaken_with set_page_content_triple.
Qed.

Lemma set_page_content_triple' b0 k content (E : SimpleTextBrowser -> Prop) :
  triple (InvH b0 k) (_set_page_content content) (fun _ => InvH b0 true) E.
Proof.
  weaken_with set_page_content_triple.
Qed.

(** The handlers of [_searxng_search] return unless the object is still
    under construction. *)
Lemma search_error_handler_triple b0 k e :
  triple (InvH b0 k) (search_error_handler e) (fun _ => InvH b0 true)
    (fun b => InvH b0 k b /\ constructed b0 = false).
Proof.
  unfold search_error_handler.
  eapply triple_bind with (R := fun _ => InvH b0 k).
  { apply triple_modify. intros b Hb. apply InvH_set_page_title, Hb. }
  intros _.
  destruct e; try apply set_page_content_triple'.
  apply triple_get_inv. intros b1 Hb1.
  destruct (constructed b1) eqn:Hc; simpl.
  - apply set_page_content_triple'.
  - apply triple_raise. intros b Hb. split; [exact Hb|].
    destruct Hb1 as [(Hf & _) _]. rewrite <- (frame_constructed _ _ Hf). exact Hc.
Qed.

Lemma searxng_search_retry_triple b0 k w query filter_year (depth : nat) :
  triple (InvH b0 k) (_searxng_search_n (S depth) w query filter_year true)
    (fun _ => InvH b0 true) (fun b => InvH b0 k b /\ constructed b0 = false).
Proof.
  cbn [_searxng_search_n].
  eapply triple_try with (E1 := InvH b0 k); [|intros e; apply search_error_handler_triple].
  apply triple_get_inv. intros b1 Hb1.
  destruct (constructed b1); simpl; [|apply triple_raise; auto].
  eapply triple_bind with (R := fun _ => InvH b0 k); [apply triple_call|].
  intros results.
  eapply triple_bind with (R := fun _ => InvH b0 k).
  { apply triple_modify. intros b Hb. apply InvH_set_page_title, Hb. }
  intros _.
  destruct results as [[|r rs]|]; try (destruct filter_year);
    try apply set_page_content_triple';
    (apply triple_get_inv; intros b2 _; apply set_page_content_triple').
Qed.

Lemma searxng_search_triple b0 k w query filter_year retry :
  triple (InvH b0 k) (_searxng_search w query filter_year retry)
    (fun _ => InvH b0 true) (fun b => InvH b0 k b /\ constructed b0 = false).
Proof.
  destruct retry; [apply searxng_search_retry_triple|].
  unfold _searxng_search. cbn [_searxng_search_n].
  eapply triple_try with (E1 := InvH b0 k); [|intros e; apply search_error_handler_triple].
  apply triple_get_inv. intros b1 Hb1.
  destruct (constructed b1); simpl; [|apply triple_raise; auto].
  eapply triple_bind with (R := fun _ => InvH b0 k); [apply triple_call|].
  intros results.
  eapply triple_bind with (R := fun _ => InvH b0 k).
  { apply triple_modify. intros b Hb. apply InvH_set_page_title, Hb. }
  intros _.
  assert (Hretry : triple (InvH b0 k) (_searxng_search_n 1 w query filter_year true)
                     (fun _ => InvH b0 true) (InvH b0 k)).
  { weaken_with searxng_search_retry_triple. }
  destruct results as [[|r rs]|]; try (destruct filter_year);
    try exact Hretry; try apply set_page_content_triple';
    (apply triple_get_inv; intros b2 _; apply set_page_content_triple').
Qed.

Lemma show_result_triple b0 k res :
  triple (InvH b0 k) (show_result res) (fun _ => InvH b0 true) (InvH b0 k).
Proof.
  destruct res as [r|]; simpl.
  - apply title_content_triple.
  - apply triple_raise. auto.
Qed.

Lemma download_complete_triple b0 k download_path e :
  triple (InvH b0 k) (download_complete download_path e) (fun _ => InvH b0 true)
    (InvH b0 k).
Proof.
  unfold download_complete. destruct (truthy download_path); apply title_content_triple.
Qed.

(** Every handler of [_fetch_page] returns with a page set, or lets the
    exception go on. *)
Lemma fetch_handler_triple b0 k w download_path response e :
  triple (InvH b0 k) (fetch_handler w download_path response e)
    (fun _ => InvH b0 true) (InvH b0 k).
Proof.
  destruct e; simpl; try (apply triple_raise; auto; fail);
    try apply download_complete_triple; try apply title_content_triple.
  destruct response as [r|]; [|apply title_content_triple].
  eapply triple_try with (E1 := InvH b0 k).
  - eapply triple_bind with (R := fun _ => InvH b0 k).
    { apply triple_modify. intros b Hb. apply InvH_set_page_title, Hb. }
    intros _.
    destruct (contains "text/html" _).
    + apply triple_get_inv. intros b1 _.
      eapply triple_bind with (R := fun _ => InvH b0 k); [apply triple_call|].
      intros [res|]; [apply title_content_triple | apply triple_raise; auto].
    + eapply triple_bind with (R := fun _ => InvH b0 k); [apply triple_call|].
      intros text. apply title_content_triple.
  - intros e'. destruct e'; try (apply triple_raise; auto; fail).
    apply title_content_triple.
Qed.

(** [_fetch_page] on a [file://] address makes no nested call. *)
Lemma fetch_page_file_triple b0 k rec w u :
  startswith u "file://" = true ->
  triple (InvH b0 k) (_fetch_page rec w u) (fun _ => InvH b0 true) (InvH b0 k).
Proof.
  intros Hu. unfold _fetch_page. rewrite Hu.
  eapply triple_try with (E1 := InvH b0 k); [|intros e; apply fetch_handler_triple].
  apply triple_get_inv. intros b1 _.
  destruct (constructed b1); simpl; [|apply triple_raise; auto].
  eapply triple_bind with (R := fun _ => InvH b0 k); [apply triple_call|].
  intros res. apply show_result_triple.
Qed.

(** [_fetch_page], when its nested call keeps the invariant. *)
Lemma fetch_page_triple b0 k (rec : World -> string -> M unit) w u :
  (forall w' p, triple (InvH b0 k) (rec w' ("file://" ++ p))
                  (fun _ => InvH b0 true) (InvH b0 k)) ->
  triple (InvH b0 k) (_fetch_page rec w u) (fun _ => InvH b0 true) (InvH b0 k).
Proof.
  intros Hrec.
  destruct (startswith u "file://") eqn:Hu; [apply fetch_page_file_triple, Hu|].
  unfold _fetch_page. rewrite Hu.
  eapply triple_guard with (R := fun _ => InvH b0 k) (E1 := InvH b0 k);
    [|intros e; apply fetch_handler_triple|].
  { apply triple_get_inv. intros b1 _.
    destruct (constructed b1); simpl; [apply triple_call | apply triple_raise; auto]. }
  intros response.
  eapply triple_guard with (R := fun _ => InvH b0 k) (E1 := InvH b0 k);
    [apply triple_call | intros e; apply fetch_handler_triple|].
  intros _. destruct (contains "text/" _).
  - eapply triple_try with (E1 := InvH b0 k); [|intros e; apply fetch_handler_triple].
    apply triple_get_inv. intros b1 _.
    eapply triple_bind with (R := fun _ => InvH b0 k); [apply triple_call|].
    intros res. apply show_result_triple.
  - eapply triple_guard with (R := fun _ => InvH b0 k) (E1 := InvH b0 k);
      [|intros e; apply fetch_handler_triple|].
    { apply triple_get_inv. intros b1 _.
      destruct (downloads_folder b1); [apply triple_ret | apply triple_raise]; auto. }
    intros folder.
    eapply triple_try with (E1 := InvH b0 k); [|intros e; apply fetch_handler_triple].
    eapply triple_bind with (R := fun _ => InvH b0 k); [apply triple_call|].
    intros _.
    eapply triple_bind with (R := fun _ => InvH b0 k); [apply triple_call|].
    intros body. apply Hrec.
Qed.

Lemma prefix_of_append (p q u : string) :
  String.prefix (p ++ q) u = true -> String.prefix p u = true.
Proof.
  revert u; induction p as [|c p IH]; intros u; [destruct u; reflexivity|].
  destruct u as [|c' u]; simpl; [discriminate|].
  destruct (ascii_dec c c'); [apply IH | discriminate].
Qed.

Lemma prefix_append (p q : string) : String.prefix p (p ++ q) = true.
Proof.
  induction p as [|c p IH]; simpl; [destruct q; reflexivity|].
  destruct (ascii_dec c c); [exact IH | congruence].
Qed.

Lemma file_uri_has_scheme (u : string) :
  startswith u "file://" = true -> has_scheme u = true.
Proof.
  intros H. unfold has_scheme, startswith in *.
  rewrite (prefix_of_append "file:" "//" u H). rewrite !orb_true_r. reflexivity.
Qed.

Lemma file_uri_not_special (u : string) :
  startswith u "file://" = true ->
  String.eqb u "about:blank" = false /\ startswith u "google:" = false.
Proof.
  unfold startswith. destruct u as [|c u]; [discriminate|].
  cbn [String.prefix].
  destruct (ascii_dec "f" c) as [<-|]; [|intros H; discriminate H]. intros _.
  split; reflexivity.
Qed.

Lemma InvH_append_history b0 k b entry :
  Inv b0 k b -> InvH b0 k (set_history (history b ++ [entry]) b).
Proof.
  intros (Hf & Hvs & Hr). split; [split; [auto with frame | split; assumption]|].
  simpl. intros H. apply app_eq_nil in H. destruct H; discriminate.
Qed.

Lemma InvH_replace_history b0 k b h entry :
  InvH b0 k b -> InvH b0 k (set_history (h ++ [entry]) b).
Proof.
  intros [(Hf & Hvs & Hr) _]. split; [split; [auto with frame | split; assumption]|].
  simpl. intros H. apply app_eq_nil in H. destruct H; discriminate.
Qed.

(** One level of [set_address]: on a [file://] address, or when the nested
    level keeps the invariant on [file://] addresses, the call ends; when
    it returns the current index is 0 and designates a viewport. *)
Lemma set_address_step b0 k depth w uri filter_year :
  (startswith uri "file://" = true \/
   forall w' p, triple (InvH b0 k) (set_address_n depth w' ("file://" ++ p) None)
                  (fun _ => InvH b0 true) (InvH b0 k)) ->
  triple (Inv b0 k) (set_address_n (S depth) w uri filter_year)
    (fun _ b => InvH b0 true b /\ viewport_current_page b = 0) (InvH b0 k).
Proof.
  intros Hrec. cbn [set_address_n].
  eapply triple_bind with (R := fun _ => InvH b0 k).
  { intros b Hb. unfold bind, get, modify. apply InvH_append_history, Hb. }
  intros _.
  eapply triple_bind with (R := fun _ => InvH b0 true).
  - destruct (String.eqb uri "about:blank") eqn:Hblank;
      [apply set_page_content_triple'|].
    destruct (startswith uri "google:") eqn:Hgoogle;
      [weaken_with searxng_search_triple|].
    apply triple_get_inv. intros b1 Hb1.
    eapply triple_bind
      with (R := fun uri' b => InvH b0 k b /\ (has_scheme uri = true -> uri' = uri)).
    + destruct (has_scheme uri); simpl; [apply triple_ret; auto|].
      destruct (1 <? _); [|apply triple_ret; intros; split; [assumption | discriminate]].
      destruct (list_getitem (history b1) (-2)) as [[prior t0]|];
        [|apply triple_raise; auto].
      destruct (list_getitem (history b1) (-1)) as [[a t]|];
        [|apply triple_raise; auto].
      eapply triple_bind with (R := fun _ => InvH b0 k).
      * apply triple_modify. intros b Hb. apply InvH_replace_history, Hb.
      * intros _. apply triple_ret. intros; split; [assumption | discriminate].
    + intros uri'. destruct Hrec as [Hfile|Hrec].
      * intros b [Hb Huri]. rewrite (Huri (file_uri_has_scheme uri Hfile)).
        apply (fetch_page_file_triple b0 k _ w uri Hfile b Hb).
      * weaken_with (fetch_page_triple b0 k (fun w' u => set_address_n depth w' u None)
                       w uri' Hrec).
  - intros _. intros b [(Hf & Hvs & Hcur & Hlt & Hk) Hh].
    unfold bind, modify. simpl. split; [|reflexivity].
    split; [split; [auto with frame | split; [exact Hvs|]] | exact Hh].
    specialize (Hk eq_refl).
    assert (0 < Z.of_nat (List.length (viewport_pages b)))
      by (destruct (viewport_pages b); [congruence | simpl List.length; lia]).
    unfold range_ok; simpl. repeat split; intros; try lia; assumption.
Qed.

(** [set_address] ends; it leaves the attributes of [frame] as they were,
    and when it returns the current index is 0 and designates a viewport. *)
Lemma set_address_triple b0 k w uri filter_year :
  triple (Inv b0 k) (set_address w uri filter_year)
    (fun _ b => InvH b0 true b /\ viewport_current_page b = 0) (InvH b0 k).
Proof.
  apply set_address_step. right. intros w' p.
  eapply triple_conseq;
    [apply (set_address_step b0 k 0 w' ("file://" ++ p) None); left;
     apply prefix_append
    | intros b Hb; apply Hb | cbv beta; intros _ b Hb; apply Hb | auto].
Qed.

Lemma range_bounds (lo hi i : Z) : In i (range lo hi) -> lo <= i < hi.
Proof.
  unfold range. rewrite in_map_iff. intros (k & <- & Hk). apply in_seq in Hk. lia.
Qed.

Lemma first_match_in (w : World) (b : SimpleTextBrowser) (nquery : string)
    (idxs : list Z) (i : Z) :
  first_match w b nquery idxs = Done (Some i) ->
  In i idxs /\ exists p, list_getitem (viewport_pages b) i = Some p.
Proof.
  induction idxs as [|j rest IH]; simpl; [discriminate|].
  destruct (list_getitem (viewport_pages b) j) as [[lo hi]|] eqn:Hj; [|discriminate].
  destruct (re_search w nquery _).
  - intros [= <-]. split; [left; reflexivity | eauto].
  - intros H. destruct (IH H) as [Hin Hp]. split; [right; exact Hin | exact Hp].
Qed.

Lemma list_getitem_some_bound {A : Type} (l : list A) (i : Z) (x : A) :
  list_getitem l i = Some x -> i < Z.of_nat (List.length l).
Proof.
  unfold list_getitem. destruct (i <? 0) eqn:E.
  - apply Z.ltb_lt in E. intros _. lia.
  - destruct (0 <=? i); simpl; [|discriminate].
    destruct (i <? Z.of_nat (List.length l)) eqn:E2; [|discriminate].
    apply Z.ltb_lt in E2. intros _. exact E2.
Qed.

(** A viewport found from a start that is not negative has an index in range. *)
Lemma find_next_viewport_range (w : World) (b : SimpleTextBrowser)
    (query : option string) (start i : Z) :
  0 <= start -> _find_next_viewport w b query start = Done (Some i) ->
  0 <= i < Z.of_nat (List.length (viewport_pages b)).
Proof.
  intros Hs. unfold _find_next_viewport. destruct query as [q|]; [|discriminate].
  destruct (String.eqb _ _); [discriminate|]. intros H.
  apply first_match_in in H. destruct H as [Hin [p Hp]].
  split; [|eapply list_getitem_some_bound, Hp].
  unfold search_order in Hin. apply in_app_or in Hin.
  destruct Hin as [Hin|Hin]; apply range_bounds in Hin; lia.
Qed.

Lemma viewport_readable (b : SimpleTextBrowser) :
  viewport_in_range b -> exists v, viewport b = Return v b.
Proof.
  intros [Hne Hr]. unfold viewport. rewrite list_getitem_nonneg by exact Hr.
  destruct (nth_error (viewport_pages b) (Z.to_nat (viewport_current_page b)))
    as [[lo hi]|] eqn:E; [eauto|].
  apply nth_error_None in E. lia.
Qed.

Lemma goto_match_triple (m : option Z) :
  triple (fun b => well_paged b /\
            forall i, m = Some i -> 0 <= i < Z.of_nat (List.length (viewport_pages b)))
    (goto_match m) (fun _ => well_paged) well_paged.
Proof.
  intros b [(Hvs & [Hne Hr] & Hlast) Hm]. destruct m as [i|].
  - specialize (Hm i eq_refl).
    set (b2 := set__find_on_page_last_result (Some i) (set_viewport_current_page i b)).
    assert (Hb2 : well_paged b2).
    { split; [exact Hvs|]. split; [split; [exact Hne | exact Hm]|].
      simpl. intros r [= <-]. lia. }
    destruct (viewport_readable b2 (proj1 (proj2 Hb2))) as [v Hv].
    unfold goto_match, bind, modify, ret. fold b2. rewrite Hv. exact Hb2.
  - unfold goto_match, bind, modify, ret. simpl.
    split; [exact Hvs|]. split; [split; assumption|]. simpl. discriminate.
Qed.

Lemma find_next_triple (w : World) :
  triple well_paged (find_next w) (fun _ => well_paged) well_paged.
Proof.
  intros b Hb. unfold find_next, bind, get.
  destruct (_find_on_page_query b) as [q|]; [|exact Hb].
  set (start := match _find_on_page_last_result b with
                | Some r => if r + 1 >=? Z.of_nat (List.length (viewport_pages b))
                            then 0 else r + 1
                | None => 0
                end).
  assert (Hstart : 0 <= start).
  { unfold start. destruct (_find_on_page_last_result b) as [r|] eqn:E; [|lia].
    destruct (r + 1 >=? _); [lia|]. destruct Hb as (_ & _ & Hlast).
    specialize (Hlast r E). lia. }
  destruct (_find_next_viewport w b (Some q) start) as [m|e] eqn:Hfind;
    unfold call, ret, raise; [|exact Hb].
  apply (goto_match_triple m b). split; [exact Hb|].
  intros i ->. eapply find_next_viewport_range; eassumption.
Qed.

Lemma find_on_page_triple (w : World) (query : string) :
  triple well_paged (find_on_page w query) (fun _ => well_paged) well_paged.
Proof.
  intros b Hb. unfold find_on_page. unfold bind at 1. unfold get at 1.
  destruct (option_eqb String.eqb query (_find_on_page_query b)
            && option_eqb Z.eqb (viewport_current_page b) (_find_on_page_last_result b)).
  - apply find_next_triple, Hb.
  - unfold bind, modify, get.
    set (b1 := set__find_on_page_query (Some query) b).
    assert (Hb1 : well_paged b1) by exact Hb.
    destruct (_find_next_viewport w b1 (Some query) (viewport_current_page b1))
      as [m|e] eqn:Hfind; unfold call, ret, raise; [|exact Hb1].
    apply (goto_match_triple m b1). split; [exact Hb1|].
    intros i ->. eapply find_next_viewport_range; [|eassumption].
    destruct Hb as (_ & [_ Hr] & _). apply Hr.
Qed.

Lemma page_up_triple : triple well_paged page_up (fun _ => well_paged) well_paged.
Proof.
  intros b (Hvs & [Hne Hr] & Hlast). unfold page_up, modify.
  split; [exact Hvs|]. split; [|exact Hlast]. split; [exact Hne|]. simpl. lia.
Qed.

Lemma page_down_triple : triple well_paged page_down (fun _ => well_paged) well_paged.
Proof.
  intros b (Hvs & [Hne Hr] & Hlast). unfold page_down, modify.
  split; [exact Hvs|]. split; [|exact Hlast]. split; [exact Hne|]. simpl. lia.
Qed.

Lemma well_paged_of_InvH (b0 b : SimpleTextBrowser) :
  well_paged b0 -> InvH b0 true b -> well_paged b.
Proof.
  intros (Hvs & _ & Hlast) [(Hf & _ & Hcur & Hlt & Hk) _].
  specialize (Hk eq_refl).
  split; [rewrite (frame_viewport_size _ _ Hf); exact Hvs|].
  split; [split; [exact Hk | split; [exact Hcur | apply Hlt, Hk]]|].
  rewrite (frame_last_result _ _ Hf). exact Hlast.
Qed.

Lemma Inv_of_well_paged (b : SimpleTextBrowser) : well_paged b -> Inv b true b.
Proof.
  intros (Hvs & [Hne Hr] & _). split; [apply frame_refl | split; [exact Hvs|]].
  repeat split; intros; try lia; exact Hne.
Qed.

Lemma set_address_well_paged (w : World) (uri : string) (filter_year : option Z) :
  triple well_paged (set_address w uri filter_year)
    (fun _ b => well_paged b /\ viewport_current_page b = 0) well_paged.
Proof.
  intros b Hb.
  pose proof (set_address_triple b true w uri filter_year b (Inv_of_well_paged b Hb)) as H.
  destruct (set_address w uri filter_year b) as [[] b'|e b'|]; [| |exact H].
  - destruct H as [H H0]. split; [eapply well_paged_of_InvH; eassumption | exact H0].
  - eapply well_paged_of_InvH; eassumption.
Qed.

Lemma visit_page_triple (w : World) (uri : string) (filter_year : option Z) :
  triple well_paged (visit_page w uri filter_year) (fun _ => well_paged) well_paged.
Proof.
  unfold visit_page.
  eapply triple_bind with (R := fun _ => well_paged).
  - weaken_with (set_address_well_paged w uri filter_year).
  - intros _ b Hb. destruct (viewport_readable b (proj1 (proj2 Hb))) as [v ->]. exact Hb.
Qed.

(** Every public operation ends and keeps the invariant. *)
Lemma perform_triple (w : World) (op : operation) :
  triple well_paged (perform w op) (fun _ => well_paged) well_paged.
Proof.
  destruct op; simpl.
  - weaken_with (set_address_well_paged w uri filter_year).
  - eapply triple_bind; [apply visit_page_triple | intros; apply triple_ret; auto].
  - apply page_up_triple.
  - apply page_down_triple.
  - eapply triple_bind; [apply find_on_page_triple | intros; apply triple_ret; auto].
  - eapply triple_bind; [apply find_next_triple | intros; apply triple_ret; auto].
Qed.

(** The constructor ends; the object it returns satisfies the invariant. *)
Lemma init_well_paged (w : World) (start : option string) (size : Z)
    (folder url : option string) :
  0 < size ->
  match init w start size folder url with
  | Return _ b => well_paged b
  | Raise _ _ => True
  | Diverge => False
  end.
Proof.
  intros Hsize. unfold init. unfold bind at 1.
  set (sp := if truthy start then or_default start EmptyString else "about:blank").
  set (b0 := mkBrowser sp size folder [] TitleNone 0 [] false EmptyString
               MdConverter.init EmptyString None None None None).
  assert (H0 : Inv b0 false b0).
  { split; [apply frame_refl | split; [exact Hsize|]].
    repeat split; simpl; intros; try lia; congruence. }
  pose proof (set_address_triple b0 false w sp None b0 H0) as H.
  destruct (set_address w sp None b0) as [[] b'|e b'|]; [|exact I|exact H].
  destruct H as [[(Hf & _ & Hcur & Hlt & Hk) _] Hzero]. specialize (Hk eq_refl).
  unfold modify. split; [|split; [split|]]; simpl.
  - rewrite (frame_viewport_size _ _ Hf). exact Hsize.
  - exact Hk.
  - split; [exact Hcur | apply Hlt, Hk].
  - discriminate.
Qed.

Lemma reachable_well_paged (b : SimpleTextBrowser) : reachable b -> well_paged b.
Proof.
  induction 1 as [w start size folder url b Hsize Hinit | w op b b' _ IH Hend].
  - pose proof (init_well_paged w start size folder url Hsize) as H.
    rewrite Hinit in H. exact H.
  - pose proof (perform_triple w op b IH) as H. unfold ends_in in Hend.
    destruct (perform w op b); [subst; exact H | subst; exact H | contradiction].
Qed.

Example init_demo : init Demo.world None 8192 None None = Return tt Demo.browser.
Proof. reflexivity. Qed.

Lemma built_positive_reachable (size : Z) (b : SimpleTextBrowser) :
  0 < size -> built_with size b -> reachable b.
Proof.
  intros Hsize. induction 1 as [w start folder url b Hinit | w op b b' _ IH Hend].
  - exact (reachable_init w start size folder url b Hsize Hinit).
  - exact (reachable_step w op b b' IH Hend).
Qed.

(** C9, as the code has it. For a browser built with a positive
    [viewport_size], which the claim leaves out and [__init__] does not ask
    for: after construction and after every public operation (set_address,
    visit_page, page_up, page_down, find_on_page, find_next), whether it
    returned or raised, the list of viewports is not empty and the current
    index lies between 0 and the number of viewports minus one, so that
    reading the current viewport succeeds; and the next operation ends. *)
Theorem viewport_index_in_range_for_positive_size (size : Z) (b : SimpleTextBrowser) :
  0 < size -> built_with size b ->
  viewport_pages b <> []
  /\ 0 <= viewport_current_page b <= Z.of_nat (List.length (viewport_pages b)) - 1
  /\ (exists v, viewport b = Return v b)
  /\ (forall w op, perform w op b <> Diverge).
Proof.
  intros Hsize Hbuilt.
  pose proof (reachable_well_paged b (built_positive_reachable size b Hsize Hbuilt)) as Hb.
  destruct Hb as (Hvs & [Hne Hr] & Hlast).
  split; [exact Hne|]. split; [lia|]. split.
  - apply viewport_readable. split; assumption.
  - intros w op Hdiv.
    pose proof (perform_triple w op b (conj Hvs (conj (conj Hne Hr) Hlast))) as H.
    rewrite Hdiv in H. exact H.
Qed.

(** The theorem at the browser that two operations leave after its
    construction in the demonstration world. *)
Lemma viewport_index_in_range_for_positive_size_witness :
  let b := set_viewport_current_page 0 Demo.browser in
  viewport_pages b <> []
  /\ 0 <= viewport_current_page b <= Z.of_nat (List.length (viewport_pages b)) - 1
  /\ (exists v, viewport b = Return v b)
  /\ (forall w op, perform w op b <> Diverge).
Proof.
  apply (viewport_index_in_range_for_positive_size 8192); [reflexivity|].
  apply (built_step 8192 Demo.world PageDown Demo.browser); [|reflexivity].
  apply (built_init 8192 Demo.world None None None); reflexivity.
Defined.

End InvariantFacts.

(** ** The search state across a change of address *)

Module SearchStateFacts.
Import Py PyStr Browser Props Triples InvariantFacts.

Lemma bind_return_inv {A B : Type} (m : M A) (k : A -> M B) (b b' : SimpleTextBrowser)
    (y : B) :
  bind m k b = Return y b' -> exists x b1, m b = Return x b1 /\ k x b1 = Return y b'.
Proof.
  unfold bind. destruct (m b) as [x b1|e b1|]; [eauto | discriminate | discriminate].
Qed.

(** [set_address] assigns [find_on_page_query] and [find_on_page_viewport];
    the attributes that [find_on_page] and [find_next] read,
    [_find_on_page_query] and [_find_on_page_last_result], keep their
    values on every branch. *)
Lemma set_address_keeps_search_state (w : World) (uri : string)
    (filter_year : option Z) (b b' : SimpleTextBrowser) :
  0 < viewport_size b -> viewport_in_range b ->
  set_address w uri filter_year b = Return tt b' ->
  viewport_current_page b' = 0
  /\ _find_on_page_query b' = _find_on_page_query b
  /\ _find_on_page_last_result b' = _find_on_page_last_result b
  /\ find_on_page_query b' = None /\ find_on_page_viewport b' = None.
Proof.
  intros Hvs [Hne Hr] Hrun.
  assert (H0 : Inv b true b).
  { split; [apply frame_refl | split; [exact Hvs|]].
    repeat split; intros; try lia; exact Hne. }
  pose proof (set_address_triple b true w uri filter_year b H0) as H.
  rewrite Hrun in H. destruct H as [[(Hf & _) _] Hzero].
  split; [exact Hzero|]. split; [apply (frame_query _ _ Hf)|].
  split; [apply (frame_last_result _ _ Hf)|].
  unfold set_address in Hrun. cbn [set_address_n] in Hrun.
  apply bind_return_inv in Hrun. destruct Hrun as (_ & b1 & _ & Hrun).
  apply bind_return_inv in Hrun. destruct Hrun as (_ & b2 & _ & Hrun).
  unfold bind, modify in Hrun. injection Hrun as <-. split; reflexivity.
Qed.

(** C1. A search started on one page goes on after [set_address] has moved
    to another: in the demonstration world the browser visits
    [file:///docs/a.txt] and finds "alpha" there; [set_address] to
    [file:///docs/b.txt] returns with the current index 0 but with the
    query and the last result still set, and [find_next] then returns the
    viewport of the new page instead of nothing. *)
Example search_state_survives_set_address :
  visit_page Demo.world "file:///docs/a.txt" None Demo.browser
    = Return "alpha beta" Demo.on_page_a
  /\ find_on_page Demo.world "alpha" Demo.on_page_a
      = Return (Some "alpha beta") Demo.found_alpha
  /\ set_address Demo.world "file:///docs/b.txt" None Demo.found_alpha
      = Return tt Demo.on_page_b
  /\ viewport_current_page Demo.on_page_b = 0
  /\ _find_on_page_query Demo.on_page_b = Some "alpha"
  /\ _find_on_page_last_result Demo.on_page_b = Some 0
  /\ find_next Demo.world Demo.on_page_b = Return (Some "alpha gamma") Demo.found_next.
Proof.
  split; [vm_compute; reflexivity|]. split; [vm_compute; reflexivity|].
  split; [vm_compute; reflexivity|]. split; [reflexivity|]. split; [reflexivity|].
  split; [reflexivity|]. vm_compute; reflexivity.
Qed.

End SearchStateFacts.

(** ** The search inside a page *)

Module FindFacts.
Import Py PyStr Browser Props Triples PaginationFacts InvariantFacts.

Lemma range_nil (lo hi : Z) : hi <= lo -> range lo hi = [].
Proof. intros H. unfold range. replace (Z.to_nat (hi - lo)) with O by lia. reflexivity. Qed.

Lemma range_cons (lo hi : Z) : lo < hi -> range lo hi = lo :: range (lo + 1) hi.
Proof.
  intros H. unfold range.
  replace (Z.to_nat (hi - lo)) with (S (Z.to_nat (hi - (lo + 1)))) by lia.
  cbn [seq map]. f_equal; [lia|].
  rewrite <- seq_shift, map_map. apply map_ext. intros k. lia.
Qed.

Lemma range_split (lo mid hi : Z) :
  lo <= mid <= hi -> range lo hi = (range lo mid ++ range mid hi)%list.
Proof.
  intros H. remember (Z.to_nat (mid - lo)) as k eqn:Hk. revert lo H Hk.
  induction k as [|k IH]; intros lo H Hk.
  - assert (lo = mid) by lia. subst lo. rewrite (range_nil mid mid) by lia. reflexivity.
  - rewrite (range_cons lo hi) by lia. rewrite (range_cons lo mid) by lia.
    simpl. f_equal. apply IH; lia.
Qed.

Lemma range_in (lo hi i : Z) : In i (range lo hi) <-> lo <= i < hi.
Proof.
  split; [apply range_bounds|]. intros H. unfold range. apply in_map_iff.
  exists (Z.to_nat (i - lo)). split; [lia|]. apply in_seq. lia.
Qed.

Lemma range_NoDup (lo hi : Z) : NoDup (range lo hi).
Proof.
  remember (Z.to_nat (hi - lo)) as k eqn:Hk. revert lo Hk.
  induction k as [|k IH]; intros lo Hk.
  - rewrite range_nil by lia. constructor.
  - rewrite range_cons by lia. constructor; [|apply IH; lia].
    rewrite range_in. lia.
Qed.

Section Order.
Variable b : SimpleTextBrowser.
Let n := Z.of_nat (List.length (viewport_pages b)).

Lemma search_order_in (s i : Z) : 0 <= s <= n -> In i (search_order b s) <-> 0 <= i < n.
Proof.
  intros Hs. unfold search_order. fold n. rewrite in_app_iff, !range_in. lia.
Qed.

Lemma search_order_NoDup (s : Z) : NoDup (search_order b s).
Proof.
  unfold search_order. fold n. apply NoDup_app; [apply range_NoDup | apply range_NoDup |].
  intros x H1 H2. apply range_in in H1, H2. lia.
Qed.

(** The order of search from the viewport after [v] is the order from [s],
    turned so that [v] comes last. *)
Lemma search_order_rotate (s v : Z) :
  0 <= s < n -> 0 <= v < n ->
  exists A B,
    search_order b s = (A ++ v :: B)%list
    /\ search_order b (wrap_next b v) = (B ++ A ++ [v])%list
    /\ ~ In v A.
Proof.
  intros Hs Hv. unfold search_order, wrap_next. fold n.
  destruct (Z_lt_le_dec v s) as [Hlt|Hge].
  - (* v is met after the wraparound *)
    exists (range s n ++ range 0 v)%list, (range (v + 1) s).
    destruct (v + 1 >=? n) eqn:E; [rewrite Z.geb_leb in E; apply Z.leb_le in E; lia|].
    split; [|split].
    + rewrite (range_split 0 v s) by lia. rewrite (range_cons v s) by lia.
      rewrite <- app_assoc. reflexivity.
    + rewrite (range_split (v + 1) s n) by lia.
      rewrite (range_split 0 v (v + 1)) by lia.
      rewrite (range_cons v (v + 1)) by lia. rewrite (range_nil (v + 1) (v + 1)) by lia.
      rewrite <- !app_assoc. reflexivity.
    + rewrite in_app_iff, !range_in. lia.
  - exists (range s v), (range (v + 1) n ++ range 0 s)%list.
    split; [|split].
    + rewrite (range_split s v n) by lia. rewrite (range_cons v n) by lia.
      rewrite <- app_assoc. reflexivity.
    + destruct (v + 1 >=? n) eqn:E.
      * rewrite Z.geb_leb in E; apply Z.leb_le in E.
        rewrite (range_nil (v + 1) n) by lia. rewrite (range_nil 0 0) by lia.
        rewrite app_nil_r. simpl.
        rewrite (range_split 0 s n) by lia. rewrite (range_split s v n) by lia.
        rewrite (range_cons v n) by lia. rewrite (range_nil (v + 1) n) by lia.
        reflexivity.
      * rewrite Z.geb_leb in E; apply Z.leb_gt in E.
        rewrite (range_split 0 s (v + 1)) by lia.
        rewrite (range_split s v (v + 1)) by lia.
        rewrite (range_cons v (v + 1)) by lia. rewrite (range_nil (v + 1) (v + 1)) by lia.
        rewrite <- !app_assoc. reflexivity.
    + rewrite range_in. lia.
Qed.

End Order.

(** On indices in range the loop of [_find_next_viewport] returns the
    first one that matches. *)
Lemma first_match_filter (w : World) (b : SimpleTextBrowser) (q : string)
    (idxs : list Z) :
  (forall i, In i idxs -> 0 <= i < Z.of_nat (List.length (viewport_pages b))) ->
  first_match w b (normalize_query q) idxs
  = Done (hd_error (filter (viewport_matches w b q) idxs)).
Proof.
  induction idxs as [|i rest IH]; intros Hin; [reflexivity|].
  cbn [first_match filter]. unfold viewport_matches at 1.
  assert (Hi := Hin i (or_introl eq_refl)).
  rewrite list_getitem_nonneg by exact Hi.
  destruct (nth_error (viewport_pages b) (Z.to_nat i)) as [[lo hi]|] eqn:E.
  - destruct (re_search w _ _); [reflexivity|]. apply IH. intros j Hj. apply Hin. right. exact Hj.
  - apply nth_error_None in E. lia.
Qed.

Lemma find_next_viewport_spec (w : World) (b : SimpleTextBrowser) (q : string) (s : Z) :
  String.eqb (strip (normalize_query q)) EmptyString = false ->
  0 <= s <= Z.of_nat (List.length (viewport_pages b)) ->
  _find_next_viewport w b (Some q) s = Done (hd_error (matching_from w b q s)).
Proof.
  intros Hq Hs. unfold _find_next_viewport. rewrite Hq.
  apply first_match_filter. intros i Hi. apply (search_order_in b s i Hs). exact Hi.
Qed.

(** *** Rotations of a list *)

Lemma skipn_nth {A : Type} (d : A) (l : list A) (j : nat) :
  (j < List.length l)%nat -> skipn j l = nth j l d :: skipn (S j) l.
Proof.
  revert j; induction l as [|x l IH]; intros j Hj; simpl in Hj; [lia|].
  destruct j as [|j]; [reflexivity|]. simpl. apply IH. lia.
Qed.

Lemma firstn_nth {A : Type} (d : A) (l : list A) (j : nat) :
  (j < List.length l)%nat -> firstn (S j) l = (firstn j l ++ [nth j l d])%list.
Proof.
  revert j; induction l as [|x l IH]; intros j Hj; simpl in Hj; [lia|].
  destruct j as [|j]; [reflexivity|]. cbn [firstn nth app]. f_equal. apply IH. lia.
Qed.

Lemma iter_rotate_left {A : Type} (l : list A) (j : nat) :
  (j <= List.length l)%nat ->
  Nat.iter j rotate_left l = (skipn j l ++ firstn j l)%list.
Proof.
  induction j as [|j IH]; intros Hj; [simpl; rewrite app_nil_r; reflexivity|].
  cbn [Nat.iter nat_rect]. fold (Nat.iter j (@rotate_left A) l). rewrite IH by lia.
  destruct l as [|d l']; [simpl in Hj; lia|].
  rewrite (skipn_nth d (d :: l') j) by lia. rewrite (firstn_nth d (d :: l') j) by lia.
  cbn [rotate_left app]. rewrite <- app_assoc. reflexivity.
Qed.

Lemma iter_rotate_left_full {A : Type} (l : list A) (c : nat) :
  Nat.iter (c * List.length l) rotate_left l = l.
Proof.
  induction c as [|c IH]; [reflexivity|].
  replace (S c * List.length l)%nat with (List.length l + c * List.length l)%nat by lia.
  rewrite Nat.iter_add, IH. rewrite iter_rotate_left by lia.
  rewrite skipn_all, firstn_all. reflexivity.
Qed.

(** After [m] rotations the head of a list is its element [m mod length]. *)
Lemma iter_rotate_left_hd {A : Type} (d : A) (l : list A) (m : nat) :
  l <> [] ->
  hd d (Nat.iter m rotate_left l) = nth (m mod List.length l) l d.
Proof.
  intros Hl.
  assert (Hk : List.length l <> O) by (destruct l; [congruence | discriminate]).
  pose proof (Nat.mod_upper_bound m (List.length l) Hk) as Hlt.
  pose proof (Nat.div_mod_eq m (List.length l)) as Hm.
  remember (m mod List.length l)%nat as j eqn:Hj.
  remember (m / List.length l)%nat as c eqn:Hc.
  replace m with (j + c * List.length l)%nat by lia.
  rewrite Nat.iter_add, iter_rotate_left_full.
  rewrite iter_rotate_left by lia.
  rewrite (skipn_nth d l _ Hlt). reflexivity.
Qed.

(** *** One step of the search *)

Section Steps.
Variable w : World.
Variable q : string.
Hypothesis query_not_empty : String.eqb (strip (normalize_query q)) EmptyString = false.

Lemma matching_rotate (b : SimpleTextBrowser) (s v : Z) (rest : list Z) :
  0 <= s < Z.of_nat (List.length (viewport_pages b)) ->
  matching_from w b q s = v :: rest ->
  matching_from w b q (wrap_next b v) = (rest ++ [v])%list
  /\ 0 <= v < Z.of_nat (List.length (viewport_pages b))
  /\ 0 <= wrap_next b v < Z.of_nat (List.length (viewport_pages b)).
Proof.
  intros Hs Hm. unfold matching_from in *.
  assert (Hin : In v (filter (viewport_matches w b q) (search_order b s)))
    by (rewrite Hm; left; reflexivity).
  apply filter_In in Hin. destruct Hin as [Hin Hmatch].
  apply (search_order_in b s v) in Hin; [|lia].
  destruct (search_order_rotate b s v Hs Hin) as (A & B & HA & HB & Hnot).
  rewrite HA in Hm. rewrite filter_app in Hm. cbn [filter] in Hm. rewrite Hmatch in Hm.
  assert (HfA : filter (viewport_matches w b q) A = []).
  { destruct (filter (viewport_matches w b q) A) as [|x t] eqn:E; [reflexivity|].
    exfalso. apply Hnot. injection Hm as -> _.
    assert (Hx : In v (filter (viewport_matches w b q) A)) by (rewrite E; left; reflexivity).
    apply filter_In in Hx. apply Hx. }
  rewrite HfA in Hm. injection Hm as Hrest.
  split; [|split; [exact Hin|]].
  - rewrite HB, !filter_app, HfA, Hrest. cbn [filter]. rewrite Hmatch. reflexivity.
  - unfold wrap_next. destruct (v + 1 >=? _) eqn:E; [lia|].
    rewrite Z.geb_leb in E. apply Z.leb_gt in E. lia.
Qed.

Lemma set_query_same (b : SimpleTextBrowser) :
  _find_on_page_query b = Some q -> set__find_on_page_query (Some q) b = b.
Proof. destruct b; simpl. intros ->. reflexivity. Qed.

Lemma goto_match_at (b : SimpleTextBrowser) (v : Z) :
  0 <= v < Z.of_nat (List.length (viewport_pages b)) ->
  exists text,
    viewport (at_match q v b) = Return text (at_match q v b)
    /\ goto_match (Some v) (set__find_on_page_query (Some q) b)
       = Return (Some text) (at_match q v b).
Proof.
  intros Hv.
  destruct (viewport_readable (at_match q v b)) as [text Htext].
  { split; [|exact Hv]. simpl. intros E. rewrite E in Hv. simpl in Hv. lia. }
  exists text. split; [exact Htext|]. unfold goto_match, bind, modify, ret.
  change (set__find_on_page_last_result (Some v)
            (set_viewport_current_page v (set__find_on_page_query (Some q) b)))
    with (at_match q v b).
  rewrite Htext. reflexivity.
Qed.

(** [find_next] from a state whose last result is [r] goes to the first
    match met from the viewport after [r]. *)
Lemma find_next_at (b : SimpleTextBrowser) (r v : Z) (rest : list Z) :
  _find_on_page_query b = Some q -> _find_on_page_last_result b = Some r ->
  0 <= r < Z.of_nat (List.length (viewport_pages b)) ->
  matching_from w b q (wrap_next b r) = v :: rest ->
  exists text,
    viewport (at_match q v b) = Return text (at_match q v b)
    /\ find_next w b = Return (Some text) (at_match q v b).
Proof.
  intros Hq Hr Hrange Hm. unfold find_next. unfold bind at 1. unfold get at 1.
  rewrite Hq, Hr. fold (wrap_next b r).
  assert (Hw : 0 <= wrap_next b r < Z.of_nat (List.length (viewport_pages b))).
  { unfold wrap_next. destruct (r + 1 >=? _) eqn:E; [lia|].
    rewrite Z.geb_leb in E. apply Z.leb_gt in E. lia. }
  unfold bind. rewrite (find_next_viewport_spec w b q _ query_not_empty) by lia.
  rewrite Hm. cbn [hd_error call ret].
  destruct (matching_rotate b (wrap_next b r) v rest Hw Hm) as (_ & Hv & _).
  destruct (goto_match_at b v Hv) as [text [Hview Htext]].
  rewrite (set_query_same b Hq) in Htext. exists text. split; assumption.
Qed.

Lemma find_start_range (b : SimpleTextBrowser) :
  viewport_in_range b ->
  0 <= find_start b q < Z.of_nat (List.length (viewport_pages b)).
Proof.
  intros [_ Hr]. unfold find_start, wrap_next.
  destruct (_ && _); [|exact Hr].
  destruct (viewport_current_page b + 1 >=? _) eqn:E; [lia|].
  rewrite Z.geb_leb in E. apply Z.leb_gt in E. lia.
Qed.

Lemma option_eqb_string (x : string) (o : option string) :
  option_eqb String.eqb x o = true -> o = Some x.
Proof. destruct o; simpl; [|discriminate]. intros H. apply String.eqb_eq in H. congruence. Qed.

Lemma option_eqb_Z (x : Z) (o : option Z) : option_eqb Z.eqb x o = true -> o = Some x.
Proof. destruct o; simpl; [|discriminate]. intros H. apply Z.eqb_eq in H. congruence. Qed.

(** [find_on_page] goes to the first match met from [find_start]. *)
Lemma find_on_page_at (b : SimpleTextBrowser) (v : Z) (rest : list Z) :
  viewport_in_range b ->
  matching_from w b q (find_start b q) = v :: rest ->
  exists text,
    viewport (at_match q v b) = Return text (at_match q v b)
    /\ find_on_page w q b = Return (Some text) (at_match q v b).
Proof.
  intros Hb Hm. pose proof (find_start_range b Hb) as Hs.
  unfold find_start in *. unfold find_on_page. unfold bind at 1. unfold get at 1.
  destruct (option_eqb String.eqb q (_find_on_page_query b)
            && option_eqb Z.eqb (viewport_current_page b) (_find_on_page_last_result b))
    eqn:E.
  - apply andb_true_iff in E. destruct E as [E1 E2].
    apply option_eqb_string in E1. apply option_eqb_Z in E2.
    apply (find_next_at b (viewport_current_page b) v rest E1 E2 (proj2 Hb) Hm).
  - unfold bind, modify, get.
    set (b1 := set__find_on_page_query (Some q) b).
    change (viewport_current_page b1) with (viewport_current_page b).
    rewrite (find_next_viewport_spec w b1 q _ query_not_empty)
      by (change (viewport_pages b1) with (viewport_pages b); lia).
    change (matching_from w b1 q (viewport_current_page b))
      with (matching_from w b q (viewport_current_page b)).
    rewrite Hm. cbn [hd_error call ret].
    destruct (matching_rotate b _ v rest Hs Hm) as (_ & Hv & _).
    apply (goto_match_at b v Hv).
Qed.

(** After [find_on_page] and [m] calls of [find_next] the browser stands
    on the head of the list of matches rotated [m] times. *)
Lemma find_then_next_at (b : SimpleTextBrowser) (m : nat) :
  viewport_in_range b ->
  matching_from w b q (find_start b q) <> [] ->
  exists s v rest text,
    0 <= s < Z.of_nat (List.length (viewport_pages b))
    /\ matching_from w b q s = v :: rest
    /\ Nat.iter m rotate_left (matching_from w b q (find_start b q)) = v :: rest
    /\ viewport (at_match q v b) = Return text (at_match q v b)
    /\ find_then_next w q m b = Return (Some text) (at_match q v b).
Proof.
  intros Hb Hne. induction m as [|m IH].
  - destruct (matching_from w b q (find_start b q)) as [|v rest] eqn:Hm; [congruence|].
    destruct (find_on_page_at b v rest Hb Hm) as [text Htext].
    exists (find_start b q), v, rest, text.
    split; [apply find_start_range, Hb|]. split; [exact Hm|]. split; [reflexivity|].
    exact Htext.
  - destruct IH as (s & v & rest & text & Hs & Hm & Hiter & _ & Hrun).
    destruct (matching_rotate b s v rest Hs Hm) as (Hrot & Hv & Hw).
    destruct (rest ++ [v])%list as [|v' rest'] eqn:Hnext;
      [destruct rest; discriminate|].
    destruct (find_next_at (at_match q v b) v v' rest' eq_refl eq_refl Hv Hrot)
      as [text' [Hview Htext']].
    exists (wrap_next b v), v', rest', text'.
    split; [exact Hw|]. split; [exact Hrot|]. split; [|split].
    + cbn [Nat.iter nat_rect].
      fold (Nat.iter m (@rotate_left Z) (matching_from w b q (find_start b q))).
      rewrite Hiter. exact Hnext.
    + exact Hview.
    + cbn [find_then_next]. unfold bind. rewrite Hrun. exact Htext'.
Qed.

End Steps.

(** C7. On a page where some viewport matches the query [q], whose
    normalised form is not empty: the viewports that [find_on_page(q)] and
    the [find_next()] after it stand on are, call after call, the matching
    viewports in the order of a forward walk with wraparound from the
    viewport where the search starts; each matching viewport occurs once
    in that list, so [find_on_page] and the first [k - 1] calls of
    [find_next] visit each of the [k] matching viewports exactly once, and
    only then does a viewport repeat; each call returns the text of the
    viewport it stands on.  [find_next()] without a query returns nothing
    and leaves the object as it is. *)
Theorem find_visits_each_match_once (w : World) (b : SimpleTextBrowser) (q : string) :
  viewport_in_range b ->
  String.eqb (strip (normalize_query q)) EmptyString = false ->
  (exists i, 0 <= i < Z.of_nat (List.length (viewport_pages b))
             /\ viewport_matches w b q i = true) ->
  let ms := matching_from w b q (find_start b q) in
  NoDup ms
  /\ (forall i, In i ms <->
                0 <= i < Z.of_nat (List.length (viewport_pages b))
                /\ viewport_matches w b q i = true)
  /\ (forall m : nat,
        let v := nth (m mod List.length ms) ms 0 in
        exists text,
          find_then_next w q m b = Return (Some text) (at_match q v b)
          /\ viewport (at_match q v b) = Return text (at_match q v b)
          /\ viewport_current_page (at_match q v b) = v)
  /\ (forall b0, _find_on_page_query b0 = None -> find_next w b0 = Return None b0).
Proof.
  intros Hb Hq [i0 [Hi0 Hmatch0]] ms.
  pose proof (find_start_range q b Hb) as Hs.
  assert (Hin : forall i, In i ms <->
            0 <= i < Z.of_nat (List.length (viewport_pages b))
            /\ viewport_matches w b q i = true).
  { intros i. unfold ms, matching_from. rewrite filter_In.
    rewrite (search_order_in b (find_start b q) i) by lia. tauto. }
  assert (Hne : ms <> []).
  { intros E. assert (H : In i0 ms) by (apply Hin; tauto). rewrite E in H. exact H. }
  split; [apply NoDup_filter, search_order_NoDup|]. split; [exact Hin|]. split.
  - intros m v.
    destruct (find_then_next_at w q Hq b m Hb Hne)
      as (s & v' & rest & text & _ & _ & Hiter & Hview & Hrun).
    assert (Hv : v' = v).
    { unfold v. rewrite <- (iter_rotate_left_hd 0 ms m Hne). fold ms in Hiter.
      rewrite Hiter. reflexivity. }
    subst v'. exists text. repeat split; assumption.
  - intros b0 H0. unfold find_next, bind, get. rewrite H0. reflexivity.
Qed.

Example paged_viewports : viewport_pages Demo.paged = [(0, 6); (6, 12); (12, 17)].
Proof. reflexivity. Qed.

Example paged_search :
  matching_from Demo.world Demo.paged "AB!" (find_start Demo.paged "AB!") = [2; 0].
Proof. vm_compute. reflexivity. Qed.

(** The theorem on the page of three viewports, searched for "AB!" from
    the second viewport. *)
Lemma find_visits_each_match_once_witness :
  let b := Demo.paged in
  let ms := matching_from Demo.world b "AB!" (find_start b "AB!") in
  NoDup ms
  /\ (forall i, In i ms <->
                0 <= i < Z.of_nat (List.length (viewport_pages b))
                /\ viewport_matches Demo.world b "AB!" i = true)
  /\ (forall m : nat,
        let v := nth (m mod List.length ms) ms 0 in
        exists text,
          find_then_next Demo.world "AB!" m b = Return (Some text) (at_match "AB!" v b)
          /\ viewport (at_match "AB!" v b) = Return text (at_match "AB!" v b)
          /\ viewport_current_page (at_match "AB!" v b) = v)
  /\ (forall b0, _find_on_page_query b0 = None ->
                 find_next Demo.world b0 = Return None b0).
Proof.
  apply (find_visits_each_match_once Demo.world Demo.paged "AB!").
  - split; [discriminate | simpl; lia].
  - reflexivity.
  - exists 0. split; [simpl; lia | vm_compute; reflexivity].
Defined.

End FindFacts.

(** ** Failures of a visit *)

Module VisitFacts.
Import Py PyStr Browser Props Triples PaginationFacts InvariantFacts.



(** A local text file without extension: the conversion returns [None] and
    reading [res.title] raises. *)
Example visit_page_raises_on_plain_file :
  exists b',
    visit_page Demo.world "file:///docs/notes" None Demo.browser
    = Raise (AttributeError "'NoneType' object has no attribute 'title'") b'.
Proof. eexists. vm_compute. reflexivity. Qed.


End VisitFacts.

(** ** The conversion engine *)

Module EngineFacts.
Import Py PyStr MdConverter MdProps.

(** C10. [convert] on a source that is neither a [str] nor a
    [requests.Response] returns [None]: nothing is raised and no conversion
    is attempted, whatever the registry, the world and the keyword
    arguments. *)
Theorem convert_other_source_is_none (self : MarkdownConverter) (w : World)
    (description : string) (kw : kwargs) :
  convert self w (SourceOther description) kw = Done None.
Proof. reflexivity. Qed.

Lemma append_ext_present (extensions : list string) (hint : option string) :
  _append_ext extensions hint = (extensions ++ present hint)%list.
Proof.
  destruct hint as [e|]; simpl; [|rewrite app_nil_r; reflexivity].
  destruct (String.eqb (strip e) EmptyString); [rewrite app_nil_r|]; reflexivity.
Qed.

Lemma explicit_kwargs (kw : kwargs) :
  match kwargs_get_none (file_extension kw) with
  | Some ext => [ext]
  | None => []
  end = explicit kw.
Proof. unfold explicit. destruct (file_extension kw); reflexivity. Qed.

(** C5, as the code has it. The candidate list of a local path is the
    explicit extension, the extension of the path, the extension guessed
    from the content signature; the candidate list of a response is the
    explicit extension, the extension guessed from the content type, the
    extension of the content-disposition file name, the extension of the
    URL path, the extension guessed from the content signature.  Each hint
    but the explicit one is stripped and left out when missing or blank;
    an extension that is already in the list is appended again;
    [convert_response] hands exactly this list to [_convert]. *)
Theorem candidate_extensions_in_code_order (w : World) :
  (forall path kw,
      local_extensions w path kw
      = (guess <- _guess_ext_magic w path ;;
         Done (explicit kw ++ present (Some (snd (splitext w path))) ++ present guess)%list))
  /\ (forall r kw guess,
        _append_ext (response_extensions w r kw) guess
        = (explicit kw ++ present (content_type_hint w r)
           ++ present (content_disposition_hint w r) ++ present (url_path_hint w r)
           ++ present guess)%list)
  /\ (forall extensions e,
        String.eqb (strip e) EmptyString = false ->
        _append_ext extensions (Some e) = (extensions ++ [strip e])%list)
  /\ (forall self r kw,
        convert_response self w r kw
        = (body <- iter_content r ;;
           let w' := write_file w (mkstemp w) body in
           guess <- _guess_ext_magic w' (mkstemp w) ;;
           _convert self w' (mkstemp w)
             (explicit kw ++ present (content_type_hint w r)
              ++ present (content_disposition_hint w r) ++ present (url_path_hint w r)
              ++ present guess)%list
             (response_kwargs r))).
Proof.
  assert (Hresp : forall r kw guess,
            _append_ext (response_extensions w r kw) guess
            = (explicit kw ++ present (content_type_hint w r)
               ++ present (content_disposition_hint w r) ++ present (url_path_hint w r)
               ++ present guess)%list).
  { intros r kw guess. unfold response_extensions. rewrite explicit_kwargs.
    unfold content_disposition_hint, url_path_hint, content_type_hint.
    destruct (search_filename (header (content_disposition r))) as [name|];
      rewrite !append_ext_present, <- ?app_assoc; reflexivity. }
  split; [|split; [exact Hresp|split]].
  - intros path kw. unfold local_extensions. rewrite explicit_kwargs.
    destruct (_guess_ext_magic w path) as [guess|e]; cbn [bind]; [|reflexivity].
    rewrite !append_ext_present, <- ?app_assoc. reflexivity.
  - intros extensions e He. unfold _append_ext. rewrite He. reflexivity.
  - intros self r kw. unfold convert_response.
    destruct (iter_content r) as [body|e]; cbn [bind]; [|reflexivity].
    destruct (_guess_ext_magic _ _) as [guess|e]; cbn [bind]; [|reflexivity].
    rewrite Hresp. reflexivity.
Qed.

(** The theorem's third part at an extension that is in the list already. *)
Lemma candidate_extensions_in_code_order_witness :
  _append_ext [".pdf"] (Some " .pdf ") = [".pdf"; ".pdf"].
Proof.
  apply (proj1 (proj2 (proj2 (candidate_extensions_in_code_order Demo.md_world)))
           [".pdf"] " .pdf ").
  reflexivity.
Defined.

Example html_at_pdf_path_candidates :
  _append_ext (response_extensions Demo.md_world html_at_pdf_path no_kwargs) None
  = [".html"; ".pdf"]
  /\ claimed_response_candidates Demo.md_world html_at_pdf_path no_kwargs None
     = [".pdf"; ".html"].
Proof. split; vm_compute; reflexivity. Qed.

(** C5 as the specification words it does not hold: for a response the
    content type is consulted before the content-disposition file name and
    the URL path. *)
Lemma candidates_not_in_claimed_order : ~ candidates_in_claimed_order.
Proof.
  intros H. specialize (H Demo.md_world html_at_pdf_path no_kwargs None).
  destruct html_at_pdf_path_candidates as [H1 H2]. rewrite H1, H2 in H. discriminate H.
Qed.

(** *** The trials of [_convert] *)

Lemma first_result_app (os1 os2 : list (comp (option DocumentConverterResult))) :
  first_result (os1 ++ os2)
  = match first_result os1 with
    | Some res => Some res
    | None => first_result os2
    end.
Proof.
  induction os1 as [|[[res|]|e] os1 IH]; simpl; try reflexivity; exact IH.
Qed.

Lemma last_trace_app (w : World) (os1 os2 : list (comp (option DocumentConverterResult)))
    (trace : string) :
  last_trace w trace (os1 ++ os2) = last_trace w (last_trace w trace os1) os2.
Proof.
  revert trace; induction os1 as [|[[res|]|e] os1 IH]; intros trace; simpl;
    try reflexivity; apply IH.
Qed.

(** The inner loop stops at the first result; an error only replaces the trace. *)
Lemma try_converters_spec (w : World) (converters : list DocumentConverter)
    (path : string) (kw : kwargs) (ext trace : string) :
  let outcomes :=
    map (fun c => converter_convert c w path (with_file_extension kw ext)) converters in
  try_converters w converters path kw ext trace
  = Done (match first_result outcomes with
          | Some res => inl (normalized res)
          | None => inr (last_trace w trace outcomes)
          end).
Proof.
  revert trace; induction converters as [|c rest IH]; intros trace; [reflexivity|].
  cbn [try_converters map first_result last_trace].
  destruct (converter_convert c w path (with_file_extension kw ext)) as [[res|]|e];
    [reflexivity | apply IH | apply IH].
Qed.

Lemma try_extensions_spec (w : World) (converters : list DocumentConverter)
    (path : string) (kw : kwargs) (extensions : list string) (trace : string) :
  let outcomes := trial_outcomes w converters path kw extensions in
  try_extensions w converters path kw extensions trace
  = Done (match first_result outcomes with
          | Some res => inl (normalized res)
          | None => inr (last_trace w trace outcomes)
          end).
Proof.
  revert trace; induction extensions as [|ext rest IH]; intros trace; [reflexivity|].
  cbn [try_extensions trial_outcomes flat_map].
  rewrite try_converters_spec. cbn [bind].
  rewrite first_result_app, last_trace_app.
  destruct (first_result (map _ converters)); [reflexivity|]. apply IH.
Qed.

(** Every converter of the registry declines the blank extension. *)
Lemma blank_extension_declined (w : World) (path : string) (kw : kwargs)
    (c : DocumentConverter) :
  converter_convert c w path (with_file_extension kw EmptyString) = Done None.
Proof. destruct c; reflexivity. Qed.

(** The plain-text converter accepts every other extension and reads the file. *)
Lemma plain_text_accepts (w : World) (path : string) (kw : kwargs) (ext : string) :
  String.eqb ext EmptyString = false ->
  PlainTextConverter_convert w path (with_file_extension kw ext)
  = (text <- read_text w path (kwargs_get (encoding kw) "utf-8") ;;
     Done (Some (mkResult None text))).
Proof.
  intros Hext. unfold PlainTextConverter_convert. cbn [file_extension with_file_extension
    kwargs_get encoding]. rewrite Hext. reflexivity.
Qed.

Lemma all_decline (f : DocumentConverter -> comp (option DocumentConverterResult))
    (converters : list DocumentConverter) (w : World) (trace : string) :
  (forall c, f c = Done None) ->
  first_result (map f converters) = None
  /\ last_trace w trace (map f converters) = trace.
Proof.
  intros Hf. induction converters as [|c rest [IH1 IH2]]; [split; reflexivity|].
  cbn [map first_result last_trace]. rewrite Hf. split; assumption.
Qed.

(** On a readable file the trials of the standard registry end without a
    result only if every candidate extension is blank, and then without
    an error. *)
Lemma readable_trials (w : World) (path : string) (kw : kwargs)
    (extensions : list string) (trace : string) :
  readable w path kw ->
  first_result (trial_outcomes w (_page_converters init) path kw extensions) = None ->
  last_trace w trace (trial_outcomes w (_page_converters init) path kw extensions) = trace.
Proof.
  intros [text Htext]. revert trace.
  induction extensions as [|ext rest IH]; intros trace Hnone; [reflexivity|].
  cbn [trial_outcomes flat_map] in *.
  rewrite first_result_app in Hnone. rewrite last_trace_app.
  destruct (String.eqb ext EmptyString) eqn:Hext.
  - apply String.eqb_eq in Hext. subst ext.
    destruct (all_decline
                (fun c => converter_convert c w path (with_file_extension kw EmptyString))
                (_page_converters init) w trace (blank_extension_declined w path kw))
      as [H1 H2].
    rewrite H1 in Hnone. rewrite H2. apply IH, Hnone.
  - exfalso.
    change (_page_converters init)
      with ([XmlConverter; YouTubeConverter; DocxConverter; XlsxConverter;
             PptxConverter; PdfConverter; AudioConverter; HtmlConverter]
            ++ [PlainTextConverter])%list in Hnone.
    rewrite map_app, first_result_app in Hnone.
    destruct (first_result (map _ [XmlConverter; YouTubeConverter; DocxConverter;
                                   XlsxConverter; PptxConverter; PdfConverter;
                                   AudioConverter; HtmlConverter]));
      [discriminate|].
    cbn [map converter_convert] in Hnone.
    rewrite (plain_text_accepts w path kw ext Hext), Htext in Hnone.
    cbn [bind first_result] in Hnone. discriminate.
Qed.

Lemma len_zero (s : string) : (0 <? len s) = false -> s = EmptyString.
Proof. destruct s; [reflexivity|]. unfold len. simpl String.length. intros H.
  apply Z.ltb_ge in H. lia. Qed.

Example pdf_error_is_recovered :
  converter_convert PdfConverter Demo.md_world "/docs/a.txt"
    (with_file_extension no_kwargs ".pdf")
  = Throw (OtherException "ValueError" "not a document of this format")
  /\ _convert init Demo.md_world "/docs/a.txt" [".pdf"] no_kwargs
     = Done (Some (mkResult None "alpha beta")).
Proof. split; vm_compute; reflexivity. Qed.

End EngineFacts.

(** ** The normalisation of a result *)

Module NormalizeFacts.
Import Py PyStr MdConverter MdProps.

Lemma rstrip_with_fixed (p : ascii -> bool) (l : string) :
  rstrip_with p (rstrip_with p l) = rstrip_with p l.
Proof.
  induction l as [|c r IH]; [reflexivity|]. cbn [rstrip_with].
  destruct (rstrip_with p r) as [|d r'] eqn:E.
  - destruct (p c) eqn:Hc; [reflexivity|]. cbn [rstrip_with]. rewrite Hc. reflexivity.
  - cbn [rstrip_with]. cbn [rstrip_with] in IH. rewrite IH. reflexivity.
Qed.

Lemma rstrip_with_no_lf (p : ascii -> bool) (l : string) :
  has_lf l = false -> has_lf (rstrip_with p l) = false.
Proof.
  induction l as [|c r IH]; [reflexivity|]. cbn [has_lf rstrip_with].
  intros H. apply orb_false_iff in H. destruct H as [Hc Hr].
  specialize (IH Hr).
  destruct (rstrip_with p r) as [|d r'].
  - destruct (p c); [reflexivity|]. cbn [has_lf]. rewrite Hc. reflexivity.
  - cbn [has_lf] in *. rewrite Hc. exact IH.
Qed.

(** The pieces of [re.split(r"\r?\n", s)] hold no line feed. *)
Lemma split_lines_no_lf (s : string) :
  Forall (fun l => has_lf l = false) (split_lines s)
  /\ forall c, Forall (fun l => has_lf l = false) (split_lines (String c s)).
Proof.
  induction s as [|c2 r2 [IH1 IH2]].
  - split; [repeat constructor|]. intros c. cbn [split_lines].
    destruct (Ascii.eqb c LF) eqn:Hc; repeat constructor.
    cbn [has_lf]. rewrite Hc. reflexivity.
  - assert (H1 : Forall (fun l => has_lf l = false) (split_lines (String c2 r2)))
      by apply IH2.
    split; [exact H1|]. intros c.
    change (split_lines (String c (String c2 r2)))
      with (if Ascii.eqb c LF then EmptyString :: split_lines (String c2 r2)
            else if Ascii.eqb c CR && Ascii.eqb c2 LF then EmptyString :: split_lines r2
                 else match split_lines (String c2 r2) with
                      | h :: t => String c h :: t
                      | [] => [String c EmptyString]
                      end).
    destruct (Ascii.eqb c LF) eqn:Hc; [constructor; [reflexivity | exact H1]|].
    destruct (Ascii.eqb c CR && Ascii.eqb c2 LF);
      [constructor; [reflexivity | exact IH1]|].
    destruct (split_lines (String c2 r2)) as [|h t].
    + repeat constructor. cbn [has_lf]. rewrite Hc. reflexivity.
    + inversion H1; subst. constructor; [|assumption].
      cbn [has_lf]. rewrite Hc. assumption.
Qed.

Lemma clean_from_newlines (p : bool) (j : nat) (s : string) :
  clean_from p (newlines j ++ s)
  = match j with
    | O => clean_from p s
    | S _ => negb p && clean_from false s
    end.
Proof.
  revert p; induction j as [|j IH]; intros p; [reflexivity|].
  cbn [newlines append clean_from]. change (Ascii.eqb LF LF) with true. cbv iota.
  rewrite IH. destruct j; [reflexivity|]. reflexivity.
Qed.

Lemma clean_from_only_newlines (p : bool) (j : nat) :
  clean_from p (newlines j) = negb p.
Proof.
  revert p; induction j as [|j IH]; intros p; [reflexivity|].
  cbn [newlines clean_from]. change (Ascii.eqb LF LF) with true. cbv iota.
  rewrite IH. apply andb_true_r.
Qed.

Lemma append_empty (s : string) : s ++ EmptyString = s.
Proof. induction s as [|c r IH]; [reflexivity|]. cbn [append]. rewrite IH. reflexivity. Qed.

Lemma newlines_shift (j : nat) (s : string) :
  newlines j ++ String LF s = newlines (S j) ++ s.
Proof. induction j as [|j IH]; [reflexivity|]. cbn [newlines append] in *. rewrite IH. reflexivity. Qed.

(** Collapsing runs of line feeds neither creates nor removes a line that
    ends in whitespace. *)
Lemma clean_from_sub_newlines (s : string) :
  forall (run : nat) (p : bool),
    clean_from p (sub_newlines_from run s) = clean_from p (newlines run ++ s).
Proof.
  induction s as [|c r IH]; intros run p.
  - cbn [sub_newlines_from]. rewrite append_empty.
    destruct (Nat.leb 3 run); rewrite !clean_from_only_newlines; reflexivity.
  - cbn [sub_newlines_from]. destruct (Ascii.eqb c LF) eqn:Hc.
    + apply Ascii.eqb_eq in Hc. subst c. rewrite IH, newlines_shift. reflexivity.
    + rewrite (clean_from_newlines p run (String c r)).
      destruct (Nat.leb 3 run) eqn:E.
      * rewrite (clean_from_newlines p 2). apply Nat.leb_le in E.
        destruct run; [lia|]. cbn [clean_from]. rewrite Hc, (IH O). reflexivity.
      * rewrite (clean_from_newlines p run). cbn [clean_from]. rewrite Hc, (IH O).
        destruct run; reflexivity.
Qed.

Lemma rstrip_cons_fixed (c : ascii) (l : string) :
  rstrip (String c l) = String c l ->
  rstrip l = l /\ (l = EmptyString -> isspace c = false).
Proof.
  unfold rstrip. cbn [rstrip_with].
  destruct (rstrip_with isspace l) as [|d r'] eqn:E.
  - destruct (isspace c) eqn:Hc; [discriminate|]. intros [= <-]. split; [exact E | reflexivity].
  - intros [= <-]. split; [reflexivity | discriminate].
Qed.

Lemma rstrip_fixed_cons (c : ascii) (l : string) :
  rstrip l = l -> (l = EmptyString -> isspace c = false) ->
  rstrip (String c l) = String c l.
Proof.
  unfold rstrip. intros Hl Hc. cbn [rstrip_with]. rewrite Hl.
  destruct l as [|d r]; [rewrite (Hc eq_refl)|]; reflexivity.
Qed.

(** A line without trailing whitespace passes the scan. *)
Lemma clean_from_line (l Z : string) :
  forall p,
    has_lf l = false -> rstrip l = l -> (l = EmptyString -> p = false) ->
    clean_from false Z = true -> clean_from p (l ++ Z) = true.
Proof.
  induction l as [|c l IH]; intros p Hlf Hfix Hp HZ.
  - rewrite (Hp eq_refl). exact HZ.
  - cbn [has_lf] in Hlf. apply orb_false_iff in Hlf. destruct Hlf as [Hc Hlf].
    cbn [append clean_from]. rewrite Hc.
    destruct (rstrip_cons_fixed c l Hfix) as [Hfix' Hc'].
    apply IH; assumption.
Qed.

Lemma clean_from_concat (L : list string) :
  Forall (fun l => has_lf l = false /\ rstrip l = l) L ->
  clean_from false (String.concat nl L) = true.
Proof.
  induction 1 as [|x L [Hlf Hfix] HL IH]; [reflexivity|].
  destruct L as [|y t].
  - cbn [String.concat]. rewrite <- (append_empty x).
    apply clean_from_line; auto.
  - change (String.concat nl (x :: y :: t))
      with (x ++ String LF (String.concat nl (y :: t))).
    apply clean_from_line; auto.
Qed.

(** The scan is right: a text that passes it has no line ending in whitespace. *)
Lemma clean_from_lines (s : string) :
  forall p, clean_from p s = true ->
    exists h t, lines s = h :: t /\ (h = EmptyString -> p = false)
                /\ rstrip h = h /\ Forall (fun line => rstrip line = line) t.
Proof.
  induction s as [|c r IH]; intros p H.
  - exists EmptyString, []. cbn [clean_from] in H.
    repeat split; [intros _; destruct p; [discriminate | reflexivity] | constructor].
  - cbn [clean_from lines] in *. destruct (Ascii.eqb c LF) eqn:Hc.
    + apply andb_true_iff in H. destruct H as [Hp H].
      destruct (IH false H) as (h & t & Hl & _ & Hfix & Ht).
      exists EmptyString, (h :: t). rewrite Hl.
      repeat split; [intros _; destruct p; [discriminate | reflexivity]|].
      constructor; assumption.
    + destruct (IH (isspace c) H) as (h & t & Hl & Hp & Hfix & Ht).
      exists (String c h), t. rewrite Hl.
      repeat split; [discriminate | apply rstrip_fixed_cons; assumption | exact Ht].
Qed.

(** The normalised text has no line that ends in whitespace. *)
Lemma normalize_no_trailing_whitespace (text : string) :
  no_trailing_whitespace (normalize text).
Proof.
  assert (H : clean_from false (normalize text) = true).
  { unfold normalize, sub_newlines. rewrite clean_from_sub_newlines.
    change (newlines 0 ++ ?x) with x. apply clean_from_concat.
    apply Forall_map. eapply Forall_impl; [|apply (proj1 (split_lines_no_lf text))].
    intros l Hl. split; [apply rstrip_with_no_lf, Hl | apply rstrip_with_fixed]. }
  destruct (clean_from_lines _ false H) as (h & t & Hl & _ & Hfix & Ht).
  unfold no_trailing_whitespace. rewrite Hl. constructor; assumption.
Qed.

Lemma prefix_cons (a b : ascii) (s1 s2 : string) :
  String.prefix (String a s1) (String b s2)
  = if Ascii.eqb a b then String.prefix s1 s2 else false.
Proof.
  cbn [String.prefix]. destruct (ascii_dec a b) as [->|Hne].
  - rewrite Ascii.eqb_refl. reflexivity.
  - apply Ascii.eqb_neq in Hne. rewrite Hne. reflexivity.
Qed.

Lemma contains_cons (needle : string) (c : ascii) (r : string) :
  contains needle (String c r) = String.prefix needle (String c r) || contains needle r.
Proof. reflexivity. Qed.

(** Fewer line feeds than [m], followed by something else, do not start
    with [m] line feeds. *)
Lemma prefix_newlines (o : string) :
  starts_without_lf o ->
  forall k m, (k < m)%nat -> String.prefix (newlines m) (newlines k ++ o) = false.
Proof.
  intros Hstart. induction k as [|k IH]; intros m Hm.
  - destruct m as [|m]; [lia|]. cbn [newlines append].
    destruct o as [|c o']; [reflexivity|].
    rewrite prefix_cons. simpl in Hstart. rewrite Ascii.eqb_sym, Hstart. reflexivity.
  - destruct m as [|m]; [lia|]. cbn [newlines append].
    rewrite prefix_cons, Ascii.eqb_refl. apply IH. lia.
Qed.

Lemma prefix_three_newlines (c : ascii) (s : string) :
  Ascii.eqb c LF = false -> String.prefix (newlines 3) (String c s) = false.
Proof.
  intros Hc. change (newlines 3) with (String LF (newlines 2)).
  rewrite prefix_cons, Ascii.eqb_sym, Hc. reflexivity.
Qed.

(** At most two line feeds before a text that starts otherwise add no run
    of three. *)
Lemma contains_after_newlines (j : nat) (o : string) :
  (j <= 2)%nat -> starts_without_lf o -> contains (newlines 3) o = false ->
  contains (newlines 3) (newlines j ++ o) = false.
Proof.
  intros Hj Hstart Ho. induction j as [|j IH]; [exact Ho|].
  change (newlines (S j) ++ o) with (String LF (newlines j ++ o)).
  rewrite contains_cons.
  change (String LF (newlines j ++ o)) with (newlines (S j) ++ o).
  rewrite (prefix_newlines o Hstart (S j) 3) by lia.
  apply IH. lia.
Qed.

(** The output of the collapse is at most two line feeds followed by a
    text without a run of three that starts otherwise. *)
Lemma sub_newlines_shape (s : string) :
  forall run, exists j o,
    sub_newlines_from run s = newlines j ++ o /\ (j <= 2)%nat
    /\ starts_without_lf o /\ contains (newlines 3) o = false.
Proof.
  induction s as [|c r IH]; intros run.
  - cbn [sub_newlines_from]. destruct (Nat.leb 3 run) eqn:E.
    + exists 2%nat, EmptyString. rewrite append_empty. repeat split; auto.
    + apply Nat.leb_gt in E. exists run, EmptyString. rewrite append_empty.
      repeat split; auto. lia.
  - cbn [sub_newlines_from]. destruct (Ascii.eqb c LF) eqn:Hc; [apply IH|].
    destruct (IH O) as (j & o & Hsub & Hj & Hstart & Ho).
    assert (Hrest : contains (newlines 3) (String c (sub_newlines_from 0 r)) = false).
    { rewrite contains_cons, (prefix_three_newlines c _ Hc). cbn [orb].
      rewrite Hsub. apply contains_after_newlines; assumption. }
    destruct (Nat.leb 3 run) eqn:E.
    + exists 2%nat, (String c (sub_newlines_from 0 r)). repeat split; auto.
    + apply Nat.leb_gt in E. exists run, (String c (sub_newlines_from 0 r)).
      repeat split; auto. lia.
Qed.

(** The normalised text has no three line feeds in a row. *)
Lemma normalize_no_three_newlines (text : string) : no_three_newlines (normalize text).
Proof.
  unfold no_three_newlines, normalize, sub_newlines.
  destruct (sub_newlines_shape (String.concat nl (map rstrip (split_lines text))) O)
    as (j & o & -> & Hj & Hstart & Ho).
  apply contains_after_newlines; assumption.
Qed.

(** A result that comes out of the two loops of [_convert] is normalised. *)
Lemma loop_result_is_normalized (w : World) (converters : list DocumentConverter)
    (path : string) (kw : kwargs) (extensions : list string) (trace : string)
    (res : DocumentConverterResult) :
  try_extensions w converters path kw extensions trace = Done (inl res) ->
  no_trailing_whitespace (text_content res) /\ no_three_newlines (text_content res).
Proof.
  rewrite EngineFacts.try_extensions_spec. cbv zeta.
  destruct (first_result _) as [r|]; [|discriminate].
  intros [= <-]. split;
    [apply normalize_no_trailing_whitespace | apply normalize_no_three_newlines].
Qed.

End NormalizeFacts.

(** ** The last resort of [_convert] *)

Module LastResortFacts.
Import Py PyStr MdConverter MdProps.

(** When no pair returned a result and none raised, [_convert] calls the
    plain-text converter with the keyword arguments of the call, of which
    [file_extension] is the caller's own. *)
Lemma last_resort_call (self : MarkdownConverter) (w : World) (path : string)
    (extensions : list string) (kw : kwargs) :
  first_result (trial_outcomes w (_page_converters self) path kw extensions) = None ->
  last_trace w EmptyString (trial_outcomes w (_page_converters self) path kw extensions)
  = EmptyString ->
  _convert self w path extensions kw = PlainTextConverter_convert w path kw.
Proof.
  intros Hnone Htrace. unfold _convert. rewrite EngineFacts.try_extensions_spec.
  cbv zeta. rewrite Hnone, Htrace. reflexivity.
Qed.

(** The plain-text converter declines when the caller gave no extension or
    a blank one, whatever the file holds. *)
Lemma plain_text_declines_without_extension (w : World) (path : string) (kw : kwargs) :
  file_extension kw = Absent \/ file_extension kw = Value EmptyString ->
  PlainTextConverter_convert w path kw = Done None.
Proof.
  unfold PlainTextConverter_convert. intros [-> | ->]; reflexivity.
Qed.

(** C2. The text file [/docs/notes] has no extension and no content
    signature, so no candidate extension exists and no converter is tried;
    the last resort is the plain-text converter called without an
    extension, which declines: [convert_local] returns [None], although
    the file reads as text. *)
Example last_resort_declines_readable_file :
  read_text Demo.md_world "/docs/notes" (Some "utf-8")
  = Done ("hello  " ++ nl ++ "world")
  /\ local_extensions Demo.md_world "/docs/notes" no_kwargs = Done []
  /\ convert_local init Demo.md_world "/docs/notes" no_kwargs = Done None.
Proof. repeat split. Qed.

(** C4. The same file converted with [file_extension=None]: the last
    resort reads it and its text is returned as read, with the spaces at
    the end of the first line that normalisation removes from the result
    of a converter tried in the loops. *)
Example last_resort_text_is_not_normalized :
  convert_local init Demo.md_world "/docs/notes" (mkKwargs PyNone Absent Absent)
  = Done (Some (mkResult None ("hello  " ++ nl ++ "world")))
  /\ lines ("hello  " ++ nl ++ "world") = ["hello  "; "world"]
  /\ rstrip "hello  " = "hello"
  /\ normalize ("hello  " ++ nl ++ "world") = "hello" ++ nl ++ "world"
  /\ _convert init Demo.md_world "/docs/notes" [".txt"] no_kwargs
     = Done (Some (mkResult None ("hello" ++ nl ++ "world"))).
Proof. repeat split. Qed.

End LastResortFacts.

(** ** More about the pagination *)

Module PaginationMore.
Import Py PyStr Browser Props BrowserNotions PaginationFacts FindFacts.

Lemma set_page_content_pages (b : SimpleTextBrowser) (content : string)
    (pages : list (Z * Z)) :
  pages_after_split (set__page_content content b) pages ->
  exists b',
    _set_page_content content b = Return tt b'
    /\ _page_content b' = content /\ viewport_pages b' = pages.
Proof.
  intros H. rewrite (set_page_content_spec b content pages H).
  eexists; split; [reflexivity|].
  destruct (viewport_current_page b >=? Z.of_nat (List.length pages)); split; reflexivity.
Qed.

(** X1. The page of a search is never split: when the current address
    starts with [google:], [_set_page_content] leaves exactly one viewport,
    from 0 to the length of the text, whatever the viewport size is. *)
Theorem search_page_is_one_viewport (b : SimpleTextBrowser) (content a : string)
    (t : Z) (h : list (string * Z)) :
  history b = (h ++ [(a, t)])%list -> startswith a "google:" = true ->
  exists b',
    _set_page_content content b = Return tt b'
    /\ _page_content b' = content
    /\ viewport_pages b' = [(0, len content)].
Proof.
  intros Hh Hg. apply set_page_content_pages.
  unfold pages_after_split, _split_pages, bind.
  rewrite (address_of_history (set__page_content content b) a t h Hh).
  unfold get. rewrite Hg. reflexivity.
Qed.

Lemma search_page_is_one_viewport_witness :
  exists b',
    _set_page_content "1. [a](http://a)" (set_history [("google: a", 0)] small_browser)
    = Return tt b'
    /\ _page_content b' = "1. [a](http://a)"
    /\ viewport_pages b' = [(0, len "1. [a](http://a)")].
Proof.
  apply (search_page_is_one_viewport (set_history [("google: a", 0)] small_browser)
           "1. [a](http://a)" "google: a" 0 []); reflexivity.
Defined.

Lemma split_loop_short (fuel : nat) (b : SimpleTextBrowser) :
  0 < len (_page_content b) <= viewport_size b ->
  split_loop (S (S fuel)) 0 b
  = Return tt (set_viewport_pages
                 (viewport_pages b ++ [(0, len (_page_content b))])%list b).
Proof.
  intros H. cbn [split_loop].
  replace (0 <? len (_page_content b)) with true by (symmetry; apply Z.ltb_lt; lia).
  replace (Z.min (0 + viewport_size b) (len (_page_content b)))
    with (len (_page_content b)) by lia.
  rewrite Z.sub_diag. cbn [Z.to_nat extend_end].
  change (_page_content (set_viewport_pages _ b)) with (_page_content b).
  rewrite Z.ltb_irrefl. reflexivity.
Qed.

(** X2. A text that fits in the viewport size is one viewport: on an
    address that is not a search, a text of at most [viewport_size]
    characters gets exactly the viewport from 0 to its length. *)
Theorem short_text_is_one_viewport (b : SimpleTextBrowser) (content a : string)
    (t : Z) (h : list (string * Z)) :
  history b = (h ++ [(a, t)])%list -> startswith a "google:" = false ->
  len content <= viewport_size b ->
  exists b',
    _set_page_content content b = Return tt b'
    /\ _page_content b' = content
    /\ viewport_pages b' = [(0, len content)].
Proof.
  intros Hh Hg Hlen. apply set_page_content_pages.
  unfold pages_after_split, _split_pages, bind.
  rewrite (address_of_history (set__page_content content b) a t h Hh).
  unfold get. rewrite Hg.
  change (_page_content (set__page_content content b)) with content.
  destruct (len content =? 0) eqn:E.
  - apply Z.eqb_eq in E. rewrite E. reflexivity.
  - apply Z.eqb_neq in E. unfold modify.
    assert (Hpos : 0 < len content) by (unfold len in *; lia).
    unfold split_fuel. replace (2 * String.length content + 2)%nat
      with (S (S (2 * String.length content))) by lia.
    rewrite split_loop_short; [reflexivity|].
    change (0 < len content <= viewport_size b). lia.
Qed.

Lemma short_text_is_one_viewport_witness :
  exists b',
    _set_page_content "ab c" small_browser = Return tt b'
    /\ _page_content b' = "ab c"
    /\ viewport_pages b' = [(0, len "ab c")].
Proof.
  apply (short_text_is_one_viewport small_browser "ab c" "about:blank" 0 []);
    [reflexivity | reflexivity | vm_compute; discriminate].
Defined.

(** The inner loop passes no boundary on its way. *)
Lemma extend_end_min (content : string) (k : nat) (e e' : Z) :
  1 <= e <= len content -> k = Z.to_nat (len content - e) ->
  extend_end k content e = Done e' -> no_boundary_before content e e' = true.
Proof.
  revert e; induction k as [|k IH]; intros e He Hk Hrun.
  - cbn [extend_end] in Hrun. injection Hrun as <-.
    unfold no_boundary_before. rewrite range_nil by lia. reflexivity.
  - cbn [extend_end] in Hrun.
    destruct (e <? len content) eqn:E.
    + apply Z.ltb_lt in E.
      destruct (getitem content (e - 1)) as [c|] eqn:Hc; [|discriminate].
      destruct (is_boundary_space c) eqn:Hs.
      * injection Hrun as <-.
        unfold no_boundary_before. rewrite range_nil by lia. reflexivity.
      * destruct (extend_end_spec content k (e + 1)) as (e2 & H2 & Hr & _);
          [lia | lia |].
        rewrite H2 in Hrun. injection Hrun as <-.
        specialize (IH (e + 1) ltac:(lia) ltac:(lia) H2).
        unfold no_boundary_before in *. rewrite range_cons by lia.
        cbn [forallb]. rewrite Hc, Hs, IH. reflexivity.
    + injection Hrun as <-.
      unfold no_boundary_before. rewrite range_nil by lia. reflexivity.
Qed.

(** Every viewport that the outer loop appends holds [viewport_size]
    characters or ends the text, and is cut at the first boundary. *)
Lemma split_loop_tight (fuel : nat) :
  forall (start : Z) (b b' : SimpleTextBrowser),
    0 < viewport_size b ->
    0 <= start <= len (_page_content b) ->
    split_loop fuel start b = Return tt b' ->
    exists new,
      viewport_pages b' = (viewport_pages b ++ new)%list
      /\ forallb (wide (viewport_size b) (len (_page_content b))) new = true
      /\ forallb (cut_at_first_boundary (_page_content b) (viewport_size b)) new = true.
Proof.
  induction fuel as [|fuel IH]; intros start b b' Hvs Hstart Hrun.
  - cbn [split_loop] in Hrun.
    destruct (start <? len (_page_content b)); [discriminate|].
    injection Hrun as <-. exists []. rewrite app_nil_r. repeat split.
  - cbn [split_loop] in Hrun.
    destruct (start <? len (_page_content b)) eqn:E.
    + apply Z.ltb_lt in E.
      set (content := _page_content b) in *.
      set (e0 := Z.min (start + viewport_size b) (len content)) in *.
      destruct (extend_end_spec content (Z.to_nat (len content - e0)) e0)
        as (e & He & Hrange & _); [lia | reflexivity |].
      rewrite He in Hrun.
      pose proof (extend_end_min content _ e0 e ltac:(lia) eq_refl He) as Hmin.
      set (b1 := set_viewport_pages (viewport_pages b ++ [(start, e)]) b) in *.
      destruct (IH e b1 b') as (new & Hpages & Hw & Hc);
        [exact Hvs | change (_page_content b1) with content; lia | exact Hrun |].
      change (_page_content b1) with content in *.
      change (viewport_size b1) with (viewport_size b) in *.
      exists ((start, e) :: new). split; [|split].
      * rewrite Hpages. unfold b1. cbn [viewport_pages set_viewport_pages].
        rewrite <- app_assoc. reflexivity.
      * cbn [forallb]. rewrite Hw, andb_true_r. unfold wide. cbn [fst snd].
        apply orb_true_iff.
        destruct (Z.le_gt_cases (start + viewport_size b) (len content)).
        -- left. apply Z.leb_le. lia.
        -- right. apply Z.eqb_eq. lia.
      * cbn [forallb]. rewrite Hc, andb_true_r.
        unfold cut_at_first_boundary. cbn [fst snd].
        destruct (Z.le_gt_cases (start + viewport_size b) (len content)).
        -- replace (start + viewport_size b) with e0 by lia. exact Hmin.
        -- unfold no_boundary_before. rewrite range_nil by lia. reflexivity.
    + injection Hrun as <-. exists []. rewrite app_nil_r. repeat split.
Qed.

Lemma split_pages_tight (b : SimpleTextBrowser) (a : string) (t : Z)
    (h : list (string * Z)) :
  history b = (h ++ [(a, t)])%list -> startswith a "google:" = false ->
  0 < viewport_size b ->
  exists pages,
    pages_after_split b pages
    /\ forallb (wide (viewport_size b) (len (_page_content b))) pages = true
    /\ forallb (cut_at_first_boundary (_page_content b) (viewport_size b)) pages = true.
Proof.
  intros Hh Hg Hvs.
  destruct (split_pages_spec b a t h Hh Hg Hvs) as (pages & Hrun & _ & _ & Hempty).
  exists pages. split; [exact Hrun|].
  unfold pages_after_split, _split_pages, bind in Hrun.
  rewrite (address_of_history b a t h Hh) in Hrun. unfold get in Hrun.
  rewrite Hg in Hrun.
  destruct (len (_page_content b) =? 0) eqn:E.
  - apply Z.eqb_eq in E. rewrite (Hempty E). cbn [forallb]. rewrite !andb_true_r.
    unfold wide, cut_at_first_boundary, no_boundary_before. cbn [fst snd].
    rewrite E, range_nil by lia. rewrite orb_true_r. split; reflexivity.
  - unfold modify in Hrun.
    set (b0 := set_viewport_pages [] b) in *.
    destruct (split_loop_tight (split_fuel (_page_content b)) 0 b0
                (set_viewport_pages pages b) Hvs)
      as (new & Hpages & Hw & Hc);
      [change (_page_content b0) with (_page_content b); unfold len; lia
      | exact Hrun |].
    cbn [viewport_pages set_viewport_pages b0 app] in Hpages. subst new.
    split; [exact Hw | exact Hc].
Qed.

(** X3. No viewport is shorter than the viewport size unless it is the
    one that ends the text: on an address that is not a search and with a
    positive viewport size, every viewport of the page holds at least
    [viewport_size] characters or ends at the end of the text. *)
Theorem viewports_hold_viewport_size (b : SimpleTextBrowser) (content a : string)
    (t : Z) (h : list (string * Z)) :
  history b = (h ++ [(a, t)])%list -> startswith a "google:" = false ->
  0 < viewport_size b ->
  exists b',
    _set_page_content content b = Return tt b'
    /\ forallb (wide (viewport_size b) (len content)) (viewport_pages b') = true.
Proof.
  intros Hh Hg Hvs.
  destruct (split_pages_tight (set__page_content content b) a t h Hh Hg Hvs)
    as (pages & Hrun & Hw & _).
  destruct (set_page_content_pages b content pages Hrun) as (b' & Hb' & _ & Hp).
  exists b'. split; [exact Hb'|]. rewrite Hp. exact Hw.
Qed.

Lemma viewports_hold_viewport_size_witness :
  exists b',
    _set_page_content "ab cdefg hij" small_browser = Return tt b'
    /\ forallb (wide (viewport_size small_browser) (len "ab cdefg hij"))
         (viewport_pages b') = true.
Proof.
  apply (viewports_hold_viewport_size small_browser "ab cdefg hij" "about:blank" 0 []);
    reflexivity.
Defined.

(** X4. A viewport is extended past the viewport size only as far as the
    nearest boundary: between the nominal end of a viewport (its start plus
    [viewport_size]) and its actual end, no position comes just after a
    space, a tab, a carriage return or a line feed. *)
Theorem viewports_end_at_first_boundary (b : SimpleTextBrowser) (content a : string)
    (t : Z) (h : list (string * Z)) :
  history b = (h ++ [(a, t)])%list -> startswith a "google:" = false ->
  0 < viewport_size b ->
  exists b',
    _set_page_content content b = Return tt b'
    /\ forallb (cut_at_first_boundary content (viewport_size b)) (viewport_pages b')
       = true.
Proof.
  intros Hh Hg Hvs.
  destruct (split_pages_tight (set__page_content content b) a t h Hh Hg Hvs)
    as (pages & Hrun & _ & Hc).
  destruct (set_page_content_pages b content pages Hrun) as (b' & Hb' & _ & Hp).
  exists b'. split; [exact Hb'|]. rewrite Hp. exact Hc.
Qed.

Lemma viewports_end_at_first_boundary_witness :
  exists b',
    _set_page_content "ab cdefg hij" small_browser = Return tt b'
    /\ forallb (cut_at_first_boundary "ab cdefg hij" (viewport_size small_browser))
         (viewport_pages b') = true.
Proof.
  apply (viewports_end_at_first_boundary small_browser "ab cdefg hij" "about:blank" 0 []);
    reflexivity.
Defined.

Lemma substring_app (s : string) :
  forall a k1 k2 : nat,
    substring a k1 s ++ substring (a + k1) k2 s = substring a (k1 + k2) s.
Proof.
  induction s as [|c s IH]; intros a k1 k2.
  - destruct a, k1, k2; reflexivity.
  - destruct a as [|a].
    + destruct k1 as [|k1]; [reflexivity|].
      cbn [Nat.add substring append]. f_equal. apply (IH 0%nat).
    + cbn [Nat.add substring]. apply IH.
Qed.

Lemma substring_all (s : string) : substring 0 (String.length s) s = s.
Proof. induction s as [|c s IH]; [reflexivity|]. cbn. now rewrite IH. Qed.

Lemma slice_nonneg (s : string) (a b : Z) :
  0 <= a < b -> b <= len s ->
  slice s a b = substring (Z.to_nat a) (Z.to_nat (b - a)) s.
Proof.
  intros Ha Hb. unfold slice.
  replace (a <? 0) with false by (symmetry; apply Z.ltb_ge; lia).
  replace (b <? 0) with false by (symmetry; apply Z.ltb_ge; lia).
  rewrite (Z.min_l a), (Z.min_l b), !Z.max_r by lia.
  replace (a <? b) with true by (symmetry; apply Z.ltb_lt; lia).
  reflexivity.
Qed.

Lemma slice_empty (s : string) (a : Z) : slice s a a = EmptyString.
Proof. unfold slice. rewrite Z.ltb_irrefl. reflexivity. Qed.

Lemma slice_app (s : string) (a b c : Z) :
  0 <= a <= b -> b <= c <= len s -> slice s a b ++ slice s b c = slice s a c.
Proof.
  intros Hab Hbc.
  destruct (Z.eq_dec a b) as [->|Hne1]; [rewrite slice_empty; reflexivity|].
  destruct (Z.eq_dec b c) as [->|Hne2].
  { rewrite slice_empty. clear. induction (slice s a c); [reflexivity|].
    cbn. now f_equal. }
  rewrite !slice_nonneg by lia.
  replace (Z.to_nat b) with (Z.to_nat a + Z.to_nat (b - a))%nat by lia.
  replace (Z.to_nat (c - a)) with (Z.to_nat (b - a) + Z.to_nat (c - b))%nat by lia.
  apply substring_app.
Qed.

Lemma slice_all (s : string) : slice s 0 (len s) = s.
Proof.
  destruct s as [|c s]; [reflexivity|].
  rewrite slice_nonneg by (unfold len; cbn [String.length]; lia).
  rewrite Z.sub_0_r. unfold len. rewrite Nat2Z.id. apply substring_all.
Qed.

(** Read one after the other, contiguous viewports give the text between
    the start of the first and the end of the last. *)
Lemma contiguous_texts (content : string) (pages : list (Z * Z)) :
  forall start : Z,
    0 <= start -> pages <> [] -> contiguous start pages = true ->
    snd (last pages (0, 0)) <= len content ->
    start <= snd (last pages (0, 0))
    /\ String.concat EmptyString (viewport_texts content pages)
       = slice content start (snd (last pages (0, 0))).
Proof.
  induction pages as [|[lo hi] rest IH]; intros start Hstart Hne Hc Hlast;
    [congruence|].
  cbn [contiguous] in Hc. apply andb_true_iff in Hc. destruct Hc as [Hc Hrest].
  apply andb_true_iff in Hc. destruct Hc as [Hlo Hle].
  apply Z.eqb_eq in Hlo. apply Z.leb_le in Hle. subst lo.
  destruct rest as [|p rest'].
  - cbn. split; [exact Hle | reflexivity].
  - rewrite last_cons_nonempty in * by discriminate.
    destruct (IH hi ltac:(lia) ltac:(discriminate) Hrest Hlast) as [Hge Htexts].
    split; [lia|].
    change (viewport_texts content ((start, hi) :: p :: rest'))
      with (slice content start hi :: viewport_texts content (p :: rest')).
    change (String.concat EmptyString
              (slice content start hi :: viewport_texts content (p :: rest')))
      with (slice content start hi
            ++ String.concat EmptyString (viewport_texts content (p :: rest'))).
    rewrite Htexts. apply slice_app; lia.
Qed.

(** X5. Reading the viewports one after the other gives back the page: on
    an address that is not a search and with a positive viewport size, the
    texts of the viewports, concatenated in their order, are the text that
    was set, without loss and without repetition. *)
Theorem viewports_cover_text (b : SimpleTextBrowser) (content a : string)
    (t : Z) (h : list (string * Z)) :
  history b = (h ++ [(a, t)])%list -> startswith a "google:" = false ->
  0 < viewport_size b ->
  exists b',
    _set_page_content content b = Return tt b'
    /\ String.concat EmptyString (viewport_texts (_page_content b') (viewport_pages b'))
       = content.
Proof.
  intros Hh Hg Hvs.
  destruct (split_pages_spec (set__page_content content b) a t h Hh Hg Hvs)
    as (pages & Hrun & Hpart & _).
  change (_page_content (set__page_content content b)) with content in *.
  destruct (set_page_content_pages b content pages Hrun) as (b' & Hb' & Hc & Hp).
  exists b'. split; [exact Hb'|]. rewrite Hc, Hp.
  unfold partition_of in Hpart. destruct pages as [|p rest]; [discriminate|].
  apply andb_true_iff in Hpart. destruct Hpart as [Hcont Hlast].
  apply Z.eqb_eq in Hlast.
  destruct (contiguous_texts content (p :: rest) 0) as [_ Htexts];
    [lia | discriminate | exact Hcont | lia |].
  rewrite Htexts, Hlast. apply slice_all.
Qed.

Lemma viewports_cover_text_witness :
  exists b',
    _set_page_content "ab cdefg hij" small_browser = Return tt b'
    /\ String.concat EmptyString (viewport_texts (_page_content b') (viewport_pages b'))
       = "ab cdefg hij".
Proof.
  apply (viewports_cover_text small_browser "ab cdefg hij" "about:blank" 0 []);
    reflexivity.
Defined.

(** *** A viewport size of zero *)

Lemma getitem_get (s : string) (i : Z) :
  0 <= i < len s -> getitem s i = String.get (Z.to_nat i) s.
Proof.
  intros Hi. unfold getitem.
  replace (i <? 0) with false by (symmetry; apply Z.ltb_ge; lia).
  replace ((0 <=? i) && (i <? len s)) with true
    by (symmetry; apply andb_true_iff; split; [apply Z.leb_le | apply Z.ltb_lt]; lia).
  reflexivity.
Qed.

Lemma getitem_last_char (s : string) :
  0 < len s -> exists c, getitem s (-1) = Some c /\ getitem s (len s - 1) = Some c.
Proof.
  intros Hs. rewrite (getitem_get s (len s - 1)) by lia.
  unfold getitem. cbn [Z.ltb Z.compare].
  replace ((0 <=? -1 + len s) && (-1 + len s <? len s)) with true
    by (symmetry; apply andb_true_iff; split; [apply Z.leb_le | apply Z.ltb_lt]; lia).
  replace (-1 + len s) with (len s - 1) by lia.
  destruct (get_in_range s (Z.to_nat (len s - 1))) as [c Hc];
    [unfold len in *; lia|].
  exists c. split; exact Hc.
Qed.

Lemma has_boundary_position (s : string) :
  has_boundary s = true ->
  exists p c, 0 <= p < len s /\ getitem s p = Some c /\ is_boundary_space c = true.
Proof.
  induction s as [|a s IH]; [discriminate|].
  cbn [has_boundary]. intros H. apply orb_true_iff in H. destruct H as [H|H].
  - exists 0, a. split; [unfold len; cbn [String.length]; lia|].
    split; [reflexivity | exact H].
  - destruct (IH H) as (p & c & Hp & Hc & Hs).
    exists (p + 1), c.
    assert (Hlen : len (String a s) = len s + 1)
      by (unfold len; cbn [String.length]; lia).
    split; [lia|]. split; [|exact Hs].
    rewrite getitem_get by lia. rewrite getitem_get in Hc by lia.
    replace (Z.to_nat (p + 1)) with (S (Z.to_nat p)) by lia. exact Hc.
Qed.

(** The inner loop does not pass a boundary. *)
Lemma extend_end_stops (content : string) (p : Z) (c : ascii) (k : nat) :
  forall e e' : Z,
    1 <= e -> e - 1 <= p < len content -> k = Z.to_nat (len content - e) ->
    getitem content p = Some c -> is_boundary_space c = true ->
    extend_end k content e = Done e' -> e' <= p + 1.
Proof.
  induction k as [|k IH]; intros e e' He Hp Hk Hc Hs Hrun.
  - cbn [extend_end] in Hrun. injection Hrun as <-. lia.
  - cbn [extend_end] in Hrun.
    destruct (e <? len content) eqn:E; [|injection Hrun as <-; apply Z.ltb_ge in E; lia].
    destruct (getitem content (e - 1)) as [c0|] eqn:Hc0; [|discriminate].
    destruct (is_boundary_space c0) eqn:Hs0; [injection Hrun as <-; lia|].
    assert (e - 1 <> p) by (intros Heq; rewrite Heq in Hc0; congruence).
    apply (IH (e + 1) e'); try assumption; lia.
Qed.

(** With a viewport size of zero the outer loop stays where it is once it
    stands just after a boundary. *)
Lemma split_loop_stuck (fuel : nat) :
  forall (b : SimpleTextBrowser) (start : Z) (c : ascii),
    viewport_size b = 0 -> 0 <= start < len (_page_content b) ->
    getitem (_page_content b) (start - 1) = Some c -> is_boundary_space c = true ->
    split_loop fuel start b = Diverge.
Proof.
  induction fuel as [|fuel IH]; intros b start c Hvs Hstart Hc Hs; cbn [split_loop];
    replace (start <? len (_page_content b)) with true
      by (symmetry; apply Z.ltb_lt; lia);
    [reflexivity|].
  rewrite Hvs, Z.add_0_r, Z.min_l by lia.
  destruct (Z.to_nat (len (_page_content b) - start)) as [|k] eqn:Hk; [lia|].
  cbn [extend_end].
  replace (start <? len (_page_content b)) with true
    by (symmetry; apply Z.ltb_lt; lia).
  rewrite Hc, Hs. apply (IH _ start c); assumption.
Qed.

Lemma split_loop_zero_size (fuel : nat) (b : SimpleTextBrowser) :
  viewport_size b = 0 -> has_boundary (_page_content b) = true ->
  split_loop fuel 0 b = Diverge.
Proof.
  intros Hvs Hb.
  destruct (has_boundary_position _ Hb) as (p & c & Hp & Hc & Hs).
  destruct (getitem_last_char (_page_content b)) as (l & Hl1 & Hl2); [lia|].
  destruct (is_boundary_space l) eqn:Hsl.
  - apply (split_loop_stuck fuel b 0 l); [exact Hvs | lia | exact Hl1 | exact Hsl].
  - assert (Hp' : p < len (_page_content b) - 1).
    { destruct (Z.eq_dec p (len (_page_content b) - 1)) as [->|]; [congruence | lia]. }
    destruct fuel as [|fuel]; cbn [split_loop];
      replace (0 <? len (_page_content b)) with true
        by (symmetry; apply Z.ltb_lt; lia);
      [reflexivity|].
    rewrite Hvs, Z.add_0_r, Z.min_l by lia.
    destruct (Z.to_nat (len (_page_content b) - 0)) as [|k] eqn:Hk; [lia|].
    cbn [extend_end].
    replace (0 <? len (_page_content b)) with true
      by (symmetry; apply Z.ltb_lt; lia).
    cbn [Z.sub Z.add Z.opp Z.pos_sub]. rewrite Hl1, Hsl.
    destruct (extend_end_spec (_page_content b) k 1) as (e & He & Hr & Hsp);
      [lia | lia |].
    rewrite He.
    pose proof (extend_end_stops (_page_content b) p c k 1 e
                  ltac:(lia) ltac:(lia) ltac:(lia) Hc Hs He) as Hstop.
    unfold ends_at_space in Hsp. cbn [snd] in Hsp.
    replace (e =? len (_page_content b)) with false in Hsp
      by (symmetry; apply Z.eqb_neq; lia).
    cbn [orb] in Hsp.
    destruct (getitem (_page_content b) (e - 1)) as [ce|] eqn:Hce; [|discriminate].
    apply (split_loop_stuck fuel _ e ce); [exact Hvs | | exact Hce | exact Hsp].
    change (0 <= e < len (_page_content b)). lia.
Qed.

(** X6. A viewport size of zero is not guarded against: on an address
    that is not a search, setting a text that holds a space, a tab, a
    carriage return or a line feed makes the loop of [_split_pages] run
    without end, however many rounds it is given; it keeps appending the
    same empty viewport and never reaches the end of the text. *)
Theorem zero_viewport_size_never_paginates (b : SimpleTextBrowser)
    (content a : string) (t : Z) (h : list (string * Z)) :
  history b = (h ++ [(a, t)])%list -> startswith a "google:" = false ->
  viewport_size b = 0 -> has_boundary content = true ->
  (forall fuel : nat,
     split_loop fuel 0 (set_viewport_pages [] (set__page_content content b)) = Diverge)
  /\ _set_page_content content b = Diverge.
Proof.
  intros Hh Hg Hvs Hb.
  assert (Hloop : forall fuel : nat,
    split_loop fuel 0 (set_viewport_pages [] (set__page_content content b)) = Diverge).
  { intros fuel. apply split_loop_zero_size; [exact Hvs | exact Hb]. }
  split; [exact Hloop|].
  unfold _set_page_content, bind, modify, _split_pages, bind.
  rewrite (address_of_history (set__page_content content b) a t h Hh).
  unfold get. rewrite Hg.
  change (_page_content (set__page_content content b)) with content.
  destruct (len content =? 0) eqn:E.
  - apply Z.eqb_eq in E. destruct content; [discriminate Hb|].
    unfold len in E. cbn [String.length] in E. lia.
  - unfold modify. rewrite Hloop. reflexivity.
Qed.

Lemma zero_viewport_size_never_paginates_witness :
  (forall fuel : nat,
     split_loop fuel 0
       (set_viewport_pages []
          (set__page_content "ab cd"
             (mkBrowser "about:blank" 0 None [("about:blank", 0)] TitleNone 0 [(0, 0)]
                true "https://searx.be" MdConverter.init EmptyString None None None None)))
     = Diverge)
  /\ _set_page_content "ab cd"
       (mkBrowser "about:blank" 0 None [("about:blank", 0)] TitleNone 0 [(0, 0)]
          true "https://searx.be" MdConverter.init EmptyString None None None None)
     = Diverge.
Proof.
  apply (zero_viewport_size_never_paginates
           (mkBrowser "about:blank" 0 None [("about:blank", 0)] TitleNone 0 [(0, 0)]
              true "https://searx.be" MdConverter.init EmptyString None None None None)
           "ab cd" "about:blank" 0 []); reflexivity.
Defined.

End PaginationMore.

(** ** Scrolling *)

Module ScrollFacts.
Import Py PyStr Browser Props BrowserNotions.

Lemma set_current_page_same (b : SimpleTextBrowser) :
  set_viewport_current_page (viewport_current_page b) b = b.
Proof. destruct b; reflexivity. Qed.

(** X7. [page_down] never goes past the last viewport and never wraps
    around: from an index below the number of viewports, [k] calls in a row
    leave the index [min(index + k, last)] and change nothing else. *)
Theorem page_down_stops_at_last_viewport (k : nat) :
  forall b : SimpleTextBrowser,
    viewport_current_page b < Z.of_nat (List.length (viewport_pages b)) ->
    times k page_down b
    = Return tt
        (set_viewport_current_page
           (Z.min (viewport_current_page b + Z.of_nat k)
                  (Z.of_nat (List.length (viewport_pages b)) - 1)) b).
Proof.
  induction k as [|k IH]; intros b Hb.
  - cbn [times]. unfold ret. rewrite Z.add_0_r, Z.min_l by lia.
    now rewrite set_current_page_same.
  - cbn [times]. unfold bind, page_down, modify.
    rewrite IH by (cbn [viewport_current_page viewport_pages set_viewport_current_page]; lia).
    cbn [viewport_current_page viewport_pages set_viewport_current_page].
    unfold set_viewport_current_page; cbn. do 2 f_equal. lia.
Qed.

Lemma page_down_stops_at_last_viewport_witness :
  times 5 page_down Demo.paged
  = Return tt
      (set_viewport_current_page
         (Z.min (viewport_current_page Demo.paged + Z.of_nat 5)
                (Z.of_nat (List.length (viewport_pages Demo.paged)) - 1)) Demo.paged).
Proof.
  apply (page_down_stops_at_last_viewport 5 Demo.paged). vm_compute. reflexivity.
Defined.

(** X8. [page_up] never goes before the first viewport: from an index
    that is not negative, [k] calls in a row leave the index
    [max(index - k, 0)] and change nothing else. *)
Theorem page_up_stops_at_first_viewport (k : nat) :
  forall b : SimpleTextBrowser,
    0 <= viewport_current_page b ->
    times k page_up b
    = Return tt
        (set_viewport_current_page
           (Z.max (viewport_current_page b - Z.of_nat k) 0) b).
Proof.
  induction k as [|k IH]; intros b Hb.
  - cbn [times]. unfold ret. rewrite Z.sub_0_r, Z.max_l by lia.
    now rewrite set_current_page_same.
  - cbn [times]. unfold bind, page_up, modify.
    rewrite IH by (cbn [viewport_current_page set_viewport_current_page]; lia).
    cbn [viewport_current_page set_viewport_current_page].
    unfold set_viewport_current_page; cbn. do 2 f_equal. lia.
Qed.

Lemma page_up_stops_at_first_viewport_witness :
  times 5 page_up Demo.paged
  = Return tt
      (set_viewport_current_page
         (Z.max (viewport_current_page Demo.paged - Z.of_nat 5) 0) Demo.paged).
Proof.
  apply (page_up_stops_at_first_viewport 5 Demo.paged). vm_compute. discriminate.
Defined.

(** X9. Below the last viewport [page_up] undoes [page_down]: from an
    index that designates a viewport other than the last one, [page_down]
    followed by [page_up] gives back the same object. *)
Theorem page_up_undoes_page_down (b : SimpleTextBrowser) :
  0 <= viewport_current_page b < Z.of_nat (List.length (viewport_pages b)) - 1 ->
  (page_down ;;; page_up) b = Return tt b.
Proof.
  intros Hb. unfold bind, page_down, page_up, modify.
  cbn [viewport_current_page viewport_pages set_viewport_current_page].
  rewrite Z.min_l by lia.
  replace (Z.max (viewport_current_page b + 1 - 1) 0) with (viewport_current_page b)
    by lia.
  destruct b; reflexivity.
Qed.

Lemma page_up_undoes_page_down_witness :
  (page_down ;;; page_up) Demo.paged = Return tt Demo.paged.
Proof.
  apply (page_up_undoes_page_down Demo.paged). vm_compute.
  split; [discriminate | reflexivity].
Defined.

End ScrollFacts.

(** ** Searches that find nothing *)

Module FindMore.
Import Py PyStr Browser Props BrowserNotions FindFacts.

(** [find_on_page] is one search from [find_start], on the object that
    holds the query. *)
Lemma find_on_page_as_search (w : World) (q : string) (b : SimpleTextBrowser) :
  find_on_page w q b
  = bind (call (_find_next_viewport w (set__find_on_page_query (Some q) b) (Some q)
                  (find_start b q)))
      goto_match (set__find_on_page_query (Some q) b).
Proof.
  unfold find_on_page, find_start. unfold bind at 1. unfold get at 1.
  destruct (option_eqb String.eqb q (_find_on_page_query b)
            && option_eqb Z.eqb (viewport_current_page b) (_find_on_page_last_result b))
    eqn:E.
  - apply andb_true_iff in E. destruct E as [Eq Er].
    apply option_eqb_string in Eq. apply option_eqb_Z in Er.
    rewrite (set_query_same q b Eq).
    unfold find_next. unfold bind at 1. unfold get at 1. rewrite Eq, Er.
    reflexivity.
  - reflexivity.
Qed.

Lemma replace_star_wordless (q : string) :
  wordless q = true -> replace "*" "__STAR__" q = q.
Proof.
  unfold replace. induction q as [|c r IH]; [reflexivity|].
  cbn [wordless]. intros H. apply andb_true_iff in H. destruct H as [H Hr].
  apply andb_true_iff in H. destruct H as [_ Hc]. apply negb_true_iff in Hc.
  cbn [replace_from]. rewrite NormalizeFacts.prefix_cons.
  rewrite Ascii.eqb_sym, Hc. f_equal. apply IH, Hr.
Qed.

Lemma split_nonword_in_sep_wordless (q : string) :
  wordless q = true -> split_nonword_from true q = [EmptyString].
Proof.
  induction q as [|c r IH]; [reflexivity|].
  cbn [wordless]. intros H. apply andb_true_iff in H. destruct H as [H Hr].
  apply andb_true_iff in H. destruct H as [Hc _]. apply negb_true_iff in Hc.
  cbn [split_nonword_from]. rewrite Hc. apply IH, Hr.
Qed.

Lemma join_words_wordless (q : string) : wordless q = true -> join_words q = EmptyString.
Proof.
  intros H. unfold join_words, split_nonword. destruct q as [|c r]; [reflexivity|].
  cbn [wordless] in H. apply andb_true_iff in H. destruct H as [H Hr].
  apply andb_true_iff in H. destruct H as [Hc _]. apply negb_true_iff in Hc.
  cbn [split_nonword_from]. rewrite Hc, (split_nonword_in_sep_wordless r Hr).
  reflexivity.
Qed.

(** A query without word characters and stars is blank once normalised. *)
Lemma normalize_query_wordless (q : string) :
  wordless q = true -> strip (normalize_query q) = EmptyString.
Proof.
  intros H. unfold normalize_query.
  rewrite (replace_star_wordless q H), (join_words_wordless q H). reflexivity.
Qed.

(** X10. A query without any word character or star finds nothing: for
    such a query (the empty one, spaces, punctuation) [find_on_page] returns
    [None] whatever the page holds; it records the query, clears the last
    result and leaves the viewport where it is. *)
Theorem wordless_query_finds_nothing (w : World) (q : string) (b : SimpleTextBrowser) :
  wordless q = true ->
  find_on_page w q b = Return None (after_failed_search q b).
Proof.
  intros H. rewrite find_on_page_as_search. unfold _find_next_viewport.
  rewrite (normalize_query_wordless q H). reflexivity.
Qed.

Lemma wordless_query_finds_nothing_witness :
  find_on_page Demo.world "?! -" Demo.on_page_a
  = Return None (after_failed_search "?! -" Demo.on_page_a).
Proof.
  apply (wordless_query_finds_nothing Demo.world "?! -" Demo.on_page_a). reflexivity.
Defined.

Lemma filter_none {A : Type} (f : A -> bool) (l : list A) :
  (forall x, In x l -> f x = false) -> filter f l = [].
Proof.
  induction l as [|x l IH]; intros H; [reflexivity|].
  cbn [filter]. rewrite (H x (or_introl eq_refl)). apply IH.
  intros y Hy. apply H. right. exact Hy.
Qed.

(** X11. A search without a match moves nothing: when the current index
    designates a viewport and no viewport of the page matches the query,
    [find_on_page] returns [None], leaves the current viewport, the page
    and its viewports as they are, records the query and clears the last
    result. *)
Theorem find_on_page_without_match (w : World) (q : string) (b : SimpleTextBrowser) :
  viewport_in_range b ->
  (forall i, 0 <= i < Z.of_nat (List.length (viewport_pages b)) ->
             viewport_matches w b q i = false) ->
  find_on_page w q b = Return None (after_failed_search q b).
Proof.
  intros Hr Hno. rewrite find_on_page_as_search.
  destruct (String.eqb (strip (normalize_query q)) EmptyString) eqn:E.
  - unfold _find_next_viewport. rewrite E. reflexivity.
  - pose proof (find_start_range q b Hr) as Hs.
    rewrite (find_next_viewport_spec w _ q (find_start b q) E)
      by (cbn [viewport_pages set__find_on_page_query]; lia).
    unfold matching_from. rewrite filter_none; [reflexivity|].
    intros i Hi. apply search_order_in in Hi;
      [|cbn [viewport_pages set__find_on_page_query]; lia].
    apply (Hno i Hi).
Qed.

Lemma find_on_page_without_match_witness :
  find_on_page Demo.world "zz" Demo.paged
  = Return None (after_failed_search "zz" Demo.paged).
Proof.
  apply (find_on_page_without_match Demo.world "zz" Demo.paged).
  - split; [discriminate | vm_compute; split; [discriminate | reflexivity]].
  - intros i Hi. change (Z.of_nat (List.length (viewport_pages Demo.paged))) with 3 in Hi.
    assert (Hcases : i = 0 \/ i = 1 \/ i = 2) by lia.
    destruct Hcases as [->|[->| ->]]; vm_compute; reflexivity.
Defined.

End FindMore.

(** ** More about the trials of [_convert] *)

Module TrialFacts.
Import Py PyStr MdConverter MdProps EngineNotions EngineFacts.

Lemma rstrip_keeps_head (c : ascii) (r : string) :
  isspace c = false -> exists r', rstrip_with isspace (String c r) = String c r'.
Proof.
  intros Hc. cbn [rstrip_with].
  destruct (rstrip_with isspace r); rewrite ?Hc; eauto.
Qed.

Lemma rstrip_cons_nonempty (c d : ascii) (r r' : string) :
  rstrip_with isspace r = String d r' ->
  rstrip_with isspace (String c r) = String c (String d r').
Proof. cbn [rstrip_with]. intros ->. reflexivity. Qed.

(** The trace recorded for an exception is not blank. *)
Lemma trace_not_blank (w : World) (e : exn) :
  (0 <? len (strip (nl ++ nl ++ format_exc w e))) = true.
Proof.
  unfold format_exc.
  change (nl ++ nl ++ "Traceback (most recent call last):" ++ nl ++ traceback_body w e)
    with (String LF (String LF (String "T"
            ("raceback (most recent call last):" ++ nl ++ traceback_body w e)))).
  destruct (rstrip_keeps_head "T" ("raceback (most recent call last):" ++ nl
                                   ++ traceback_body w e) eq_refl) as [r' Hr].
  unfold strip, strip_with.
  rewrite (rstrip_cons_nonempty LF LF _ (String "T" r'))
    by (apply rstrip_cons_nonempty; exact Hr).
  cbn [lstrip_with]. change (isspace LF) with true. change (isspace "T") with false.
  cbv iota. unfold len. cbn [String.length]. apply Z.ltb_lt. lia.
Qed.

Lemma last_trace_not_blank (w : World)
    (outcomes : list (comp (option DocumentConverterResult))) :
  forall trace : string,
    some_raised outcomes = true \/ (0 <? len trace) = true ->
    (0 <? len (last_trace w trace outcomes)) = true.
Proof.
  induction outcomes as [|[o|e] rest IH]; intros trace H.
  - destruct H as [H|H]; [discriminate | exact H].
  - cbn [last_trace]. apply IH. exact H.
  - cbn [last_trace]. apply IH. right. apply trace_not_blank.
Qed.

(** X12. An exception of a converter is never lost: when no
    converter/extension pair returns a result and at least one raises,
    [_convert] raises FileConversionException with the list of extensions
    and the trace of the last exception, for every registry; the last
    resort is not called. *)
Theorem raised_trial_is_reported (self : MarkdownConverter) (w : World) (path : string)
    (extensions : list string) (kw : kwargs) :
  first_result (trial_outcomes w (_page_converters self) path kw extensions) = None ->
  some_raised (trial_outcomes w (_page_converters self) path kw extensions) = true ->
  _convert self w path extensions kw
  = Throw (FileConversionException
             (conversion_error_message w path extensions
                (last_trace w EmptyString
                   (trial_outcomes w (_page_converters self) path kw extensions)))).
Proof.
  intros Hnone Hraised. unfold _convert.
  pose proof (try_extensions_spec w (_page_converters self) path kw extensions
                EmptyString) as Hloop.
  cbv zeta in Hloop. rewrite Hloop, Hnone. cbn [bind].
  rewrite last_trace_not_blank by (left; exact Hraised). reflexivity.
Qed.

Lemma raised_trial_is_reported_witness :
  _convert init Demo.md_world "/docs/none.pdf" [".pdf"] no_kwargs
  = Throw (FileConversionException
             (conversion_error_message Demo.md_world "/docs/none.pdf" [".pdf"]
                (last_trace Demo.md_world EmptyString
                   (trial_outcomes Demo.md_world (_page_converters init) "/docs/none.pdf"
                      no_kwargs [".pdf"])))).
Proof.
  apply (raised_trial_is_reported init Demo.md_world "/docs/none.pdf" [".pdf"] no_kwargs);
    reflexivity.
Defined.

(** A converter declines, without a look at the file, every extension
    that is not one of its own; letter case does not matter. *)
Lemma accepts_or_declines (w : World) (path : string) (kw : kwargs)
    (c : DocumentConverter) (ext : string) :
  accepts c ext = false ->
  converter_convert c w path (with_file_extension kw ext) = Done None.
Proof.
  destruct c; cbn [accepts accepted_extensions]; intros H;
    cbn [converter_convert];
    unfold XmlConverter_convert, YouTubeConverter_convert, DocxConverter_convert,
      XlsxConverter_convert, PptxConverter_convert, PdfConverter_convert,
      AudioConverter_convert, HtmlConverter_convert, PlainTextConverter_convert,
      extension_in;
    cbn [kwargs_get file_extension with_file_extension bind];
    try (rewrite H; reflexivity).
  apply negb_false_iff in H. rewrite H. reflexivity.
Qed.

Lemma result_means_accepted (w : World) (path : string) (kw : kwargs)
    (c : DocumentConverter) (ext : string) (res : DocumentConverterResult) :
  converter_convert c w path (with_file_extension kw ext) = Done (Some res) ->
  accepts c ext = true.
Proof.
  intros H. destruct (accepts c ext) eqn:E; [reflexivity|].
  rewrite (accepts_or_declines w path kw c ext E) in H. discriminate.
Qed.

Ltac decline d HL :=
  rewrite (accepts_or_declines _ _ _ d _)
    by (cbn [accepts accepted_extensions existsb]; rewrite HL; reflexivity).

Ltac decline_others HL :=
  try decline XmlConverter HL; try decline YouTubeConverter HL;
  try decline DocxConverter HL; try decline XlsxConverter HL;
  try decline PptxConverter HL; try decline PdfConverter HL;
  try decline AudioConverter HL.

(** The result of a specialised converter is the first one of the
    standard registry for its extension. *)
Lemma specialised_first_result (w : World) (path : string) (kw : kwargs)
    (c : DocumentConverter) (ext : string) (res : DocumentConverterResult) :
  specialised c = true ->
  converter_convert c w path (with_file_extension kw ext) = Done (Some res) ->
  first_result
    (map (fun d => converter_convert d w path (with_file_extension kw ext))
       (_page_converters init))
  = Some res.
Proof.
  intros Hs Hres. pose proof (result_means_accepted w path kw c ext res Hres) as Hacc.
  change (_page_converters init)
    with [XmlConverter; YouTubeConverter; DocxConverter; XlsxConverter; PptxConverter;
          PdfConverter; AudioConverter; HtmlConverter; PlainTextConverter].
  cbn [map].
  destruct c; try discriminate Hs; cbn [accepts accepted_extensions existsb] in Hacc;
    repeat (apply orb_true_iff in Hacc; destruct Hacc as [Hacc|Hacc]);
    try discriminate Hacc;
    apply String.eqb_eq in Hacc; decline_others Hacc;
    cbn [first_result]; rewrite Hres; reflexivity.
Qed.

(** X13. A specialised converter is not overtaken: when the converter of
    a format (XML, YouTube, DOCX, XLSX, PPTX, PDF, audio) returns a result
    for the first candidate extension, [_convert] with the registry of
    [__init__] returns that result, normalised; the HTML and plain-text
    converters and the later extensions are not consulted.  The extension
    is compared without regard to letter case. *)
Theorem specialised_converter_wins (w : World) (path : string) (kw : kwargs)
    (c : DocumentConverter) (ext : string) (rest : list string)
    (res : DocumentConverterResult) :
  specialised c = true ->
  converter_convert c w path (with_file_extension kw ext) = Done (Some res) ->
  _convert init w path (ext :: rest) kw = Done (Some (normalized res)).
Proof.
  intros Hs Hres. unfold _convert.
  pose proof (try_extensions_spec w (_page_converters init) path kw (ext :: rest)
                EmptyString) as Hloop.
  cbv zeta in Hloop. rewrite Hloop. cbn [trial_outcomes flat_map].
  rewrite first_result_app, (specialised_first_result w path kw c ext res Hs Hres).
  reflexivity.
Qed.

Lemma specialised_converter_wins_witness :
  _convert init pdf_world "/docs/a.txt" [".PDF"; ".txt"] no_kwargs
  = Done (Some (normalized (mkResult None ("PDF  " ++ nl ++ "alpha beta")))).
Proof.
  apply (specialised_converter_wins pdf_world "/docs/a.txt" no_kwargs PdfConverter
           ".PDF" [".txt"] (mkResult None ("PDF  " ++ nl ++ "alpha beta")));
    reflexivity.
Defined.

(** X14. What the two loops of [_convert] find is normalised: when some
    converter/extension pair returns a result, [_convert] returns the first
    such result with its title unchanged and its text normalised, so that
    no line of it ends in whitespace and it holds no three line feeds in a
    row; this holds for every registry. *)
Theorem loop_results_are_normalised (self : MarkdownConverter) (w : World)
    (path : string) (extensions : list string) (kw : kwargs)
    (r : DocumentConverterResult) :
  first_result (trial_outcomes w (_page_converters self) path kw extensions) = Some r ->
  exists res,
    _convert self w path extensions kw = Done (Some res)
    /\ title res = title r
    /\ text_content res = normalize (text_content r)
    /\ no_trailing_whitespace (text_content res)
    /\ no_three_newlines (text_content res).
Proof.
  intros Hfirst. unfold _convert.
  pose proof (try_extensions_spec w (_page_converters self) path kw extensions
                EmptyString) as Hloop.
  cbv zeta in Hloop. rewrite Hloop, Hfirst. cbn [bind].
  exists (normalized r). repeat split.
  - apply NormalizeFacts.normalize_no_trailing_whitespace.
  - apply NormalizeFacts.normalize_no_three_newlines.
Qed.

Lemma loop_results_are_normalised_witness :
  exists res,
    _convert init Demo.md_world "/docs/notes" [".txt"] no_kwargs = Done (Some res)
    /\ title res = title (mkResult None ("hello  " ++ nl ++ "world"))
    /\ text_content res
       = normalize (text_content (mkResult None ("hello  " ++ nl ++ "world")))
    /\ no_trailing_whitespace (text_content res)
    /\ no_three_newlines (text_content res).
Proof.
  apply (loop_results_are_normalised init Demo.md_world "/docs/notes" [".txt"] no_kwargs
           (mkResult None ("hello  " ++ nl ++ "world"))).
  reflexivity.
Defined.

End TrialFacts.

(** ** The outcome of [_convert] *)

Module ConvertFacts.
Import Py PyStr MdConverter MdProps EngineNotions EngineFacts TrialFacts.

Lemma last_trace_kept (w : World)
    (outcomes : list (comp (option DocumentConverterResult))) :
  forall trace : string,
    some_raised outcomes = false -> last_trace w trace outcomes = trace.
Proof.
  induction outcomes as [|[o|e] rest IH]; intros trace H.
  - reflexivity.
  - cbn [last_trace]. apply IH. exact H.
  - discriminate H.
Qed.

(** The test [len(error_trace) > 0] after the loops tells whether a pair
    raised. *)
Lemma trace_test (w : World) (outcomes : list (comp (option DocumentConverterResult))) :
  (0 <? len (last_trace w EmptyString outcomes)) = some_raised outcomes.
Proof.
  destruct (some_raised outcomes) eqn:E.
  - apply (last_trace_not_blank w). left. exact E.
  - rewrite (last_trace_kept w outcomes EmptyString E). reflexivity.
Qed.

Lemma convert_scan (self : MarkdownConverter) (w : World) (path : string)
    (extensions : list string) (kw : kwargs) :
  _convert self w path extensions kw
  = scan_outcome w (_page_converters self) path extensions kw.
Proof.
  unfold _convert, scan_outcome.
  pose proof (try_extensions_spec w (_page_converters self) path kw extensions
                EmptyString) as Hloop.
  cbv zeta in Hloop. rewrite Hloop. cbn [bind]. cbv zeta.
  destruct (first_result _); [reflexivity|].
  rewrite trace_test. reflexivity.
Qed.

(** With the registry of [__init__] no pair raises on a file that can be
    read as text, when no pair gives a result. *)
Lemma readable_scan (w : World) (path : string) (kw : kwargs)
    (extensions : list string) :
  readable w path kw ->
  first_result (trial_outcomes w (_page_converters init) path kw extensions) = None ->
  some_raised (trial_outcomes w (_page_converters init) path kw extensions) = false.
Proof.
  intros Hr Hnone. rewrite <- (trace_test w).
  rewrite (readable_trials w path kw extensions EmptyString Hr Hnone). reflexivity.
Qed.

(** C3, as the code has it. For every registry [_convert] is a scan of
    the answers of the converter/extension pairs in the order of its two
    loops: the first result ends the call and is returned normalised; a
    pair that raises only replaces the recorded trace and the next pair is
    tried; without a result the call raises FileConversionException with
    the list of extensions and the trace of the last error when a pair
    raised, and else ends as one more plain-text conversion under the
    keyword arguments of the call does, whose read error gets out as it
    is.  With the registry of [__init__] the call raises only when no pair
    gave a result and the file cannot be read as text; when the file can
    be read as text the call raises nothing. *)
Theorem convert_is_scan_of_trials (w : World) (path : string)
    (extensions : list string) (kw : kwargs) :
  let outcomes := trial_outcomes w (_page_converters init) path kw extensions in
  (forall self : MarkdownConverter,
      _convert self w path extensions kw
      = scan_outcome w (_page_converters self) path extensions kw)
  /\ (forall e,
        _convert init w path extensions kw = Throw e ->
        first_result outcomes = None
        /\ ~ readable w path kw
        /\ (if some_raised outcomes
            then e = FileConversionException
                       (conversion_error_message w path extensions
                          (last_trace w EmptyString outcomes))
            else PlainTextConverter_convert w path kw = Throw e))
  /\ (readable w path kw -> exists res, _convert init w path extensions kw = Done res).
Proof.
  intros outcomes.
  assert (Hread : readable w path kw ->
                  exists res, _convert init w path extensions kw = Done res).
  { intros Hr. rewrite convert_scan. unfold scan_outcome. cbv zeta. fold outcomes.
    destruct (first_result outcomes) as [res|] eqn:Hfirst; [eauto|].
    unfold outcomes in *. rewrite (readable_scan w path kw extensions Hr Hfirst).
    destruct Hr as [text Htext]. unfold PlainTextConverter_convert.
    destruct (match kwargs_get (file_extension kw) EmptyString with
              | Some e => String.eqb e EmptyString
              | None => false
              end); [eauto|].
    rewrite Htext. cbn [bind]. eauto. }
  split; [intros self; apply convert_scan|]. split; [|exact Hread].
  intros e He.
  assert (Hnot : ~ readable w path kw).
  { intros Hr. destruct (Hread Hr) as [res Hres]. rewrite Hres in He. discriminate. }
  rewrite convert_scan in He. unfold scan_outcome in He. cbv zeta in He.
  fold outcomes in He.
  destruct (first_result outcomes) as [res|]; [discriminate|].
  split; [reflexivity|]. split; [exact Hnot|].
  destruct (some_raised outcomes); [congruence | exact He].
Qed.

(** The theorem at the text file [/docs/a.txt] tried as a PDF. *)
Lemma convert_is_scan_of_trials_witness :
  exists res, _convert init Demo.md_world "/docs/a.txt" [".pdf"] no_kwargs = Done res.
Proof.
  apply (proj2 (proj2 (convert_is_scan_of_trials Demo.md_world
                         "/docs/a.txt" [".pdf"] no_kwargs))).
  exists "alpha beta". reflexivity.
Defined.

(** A path without a file, no candidate extension and
    [file_extension=None]: no pair is tried, the last plain-text conversion
    opens the path, and its FileNotFoundError gets out as it is. *)
Example read_error_gets_out :
  _convert init Demo.md_world "/docs/none" [] (mkKwargs PyNone Absent Absent)
  = Throw (FileNotFoundError "/docs/none").
Proof. reflexivity. Qed.

(** C3 as the specification words it does not hold: not every error of
    [_convert] carries the list of extensions and a trace. *)
Lemma failure_without_trace : ~ failure_carries_trace.
Proof.
  intros H.
  destruct (H Demo.md_world "/docs/none" [] (mkKwargs PyNone Absent Absent)
              (FileNotFoundError "/docs/none") read_error_gets_out) as (_ & _ & E).
  discriminate E.
Qed.

End ConvertFacts.

(** ** The texts that normalisation leaves alone *)

Module NormalizeMore.
Import Py PyStr MdConverter MdProps NormalizeFacts.

Lemma lines_cons (s : string) : exists h t, lines s = h :: t.
Proof.
  induction s as [|c r (h & t & IH)]; [repeat eexists|].
  cbn [lines]. rewrite IH. destruct (Ascii.eqb c LF); repeat eexists.
Qed.

(** Joining the lines of a text with line feeds gives the text back. *)
Lemma lines_join (s : string) : String.concat nl (lines s) = s.
Proof.
  induction s as [|c r IH]; [reflexivity|].
  cbn [lines]. destruct (lines_cons r) as (h & t & Hl). rewrite Hl in *.
  destruct (Ascii.eqb c LF) eqn:Hc.
  - apply Ascii.eqb_eq in Hc. subst c.
    change (String.concat nl (EmptyString :: h :: t))
      with (String LF (String.concat nl (h :: t))).
    rewrite IH. reflexivity.
  - destruct t as [|y t'].
    + cbn [String.concat] in *. rewrite IH. reflexivity.
    + change (String.concat nl (String c h :: y :: t'))
        with (String c (h ++ nl ++ String.concat nl (y :: t'))).
      change (String.concat nl (h :: y :: t'))
        with (h ++ nl ++ String.concat nl (y :: t')) in IH.
      rewrite IH. reflexivity.
Qed.

(** Without a line that ends in whitespace, no line feed follows a
    carriage return, and the two ways of splitting agree. *)
Lemma fixed_lines_split (s : string) :
  Forall (fun l => rstrip l = l) (lines s) -> split_lines s = lines s.
Proof.
  induction s as [|c r IH]; [reflexivity|].
  cbn [lines]. destruct (lines_cons r) as (h & t & Hl). rewrite Hl in *.
  destruct (Ascii.eqb c LF) eqn:Hc.
  - intros H. inversion H as [|x l Hx Hrest]; subst.
    cbn [split_lines]. rewrite Hc, (IH Hrest). reflexivity.
  - intros H. inversion H as [|x l Hx Hrest]; subst.
    destruct (rstrip_cons_fixed c h Hx) as [Hh Hspace].
    specialize (IH (Forall_cons h Hh Hrest)).
    destruct r as [|c2 r2].
    + cbn [lines] in Hl. injection Hl as <- <-. cbn [split_lines]. rewrite Hc. reflexivity.
    + change (split_lines (String c (String c2 r2)))
        with (if Ascii.eqb c LF then EmptyString :: split_lines (String c2 r2)
              else if Ascii.eqb c CR && Ascii.eqb c2 LF
                   then EmptyString :: split_lines r2
                   else match split_lines (String c2 r2) with
                        | h :: t => String c h :: t
                        | [] => [String c EmptyString]
                        end).
      rewrite Hc. destruct (Ascii.eqb c CR && Ascii.eqb c2 LF) eqn:Hcr.
      * exfalso. apply andb_true_iff in Hcr. destruct Hcr as [Hcr Hlf].
        apply Ascii.eqb_eq in Hcr. subst c.
        cbn [lines] in Hl. rewrite Hlf in Hl. injection Hl as <- _.
        specialize (Hspace eq_refl). discriminate Hspace.
      * rewrite IH. reflexivity.
Qed.

Lemma map_fixed {A : Type} (f : A -> A) (l : list A) :
  Forall (fun x => f x = x) l -> map f l = l.
Proof. induction 1 as [|x l Hx _ IH]; [reflexivity|]. cbn [map]. now rewrite Hx, IH. Qed.

Lemma prefix_empty (s : string) : String.prefix EmptyString s = true.
Proof. destruct s; reflexivity. Qed.

Lemma prefix_newlines_ge (m : nat) :
  forall (k : nat) (s : string),
    (m <= k)%nat -> String.prefix (newlines m) (newlines k ++ s) = true.
Proof.
  induction m as [|m IH]; intros k s Hk; [apply prefix_empty|].
  destruct k as [|k]; [lia|]. cbn [newlines append].
  rewrite prefix_cons, Ascii.eqb_refl. apply IH. lia.
Qed.

Lemma contains_prefix (needle s : string) :
  String.prefix needle s = true -> contains needle s = true.
Proof. intros H. destruct s; cbn [contains]; rewrite H; reflexivity. Qed.

Lemma contains_suffix (needle x y : string) :
  contains needle (x ++ y) = false -> contains needle y = false.
Proof.
  induction x as [|a x IH]; [exact (fun H => H)|].
  cbn [append]. rewrite contains_cons. intros H.
  apply orb_false_iff in H. apply IH, H.
Qed.

Lemma short_run (run : nat) (s : string) :
  contains (newlines 3) (newlines run ++ s) = false -> Nat.leb 3 run = false.
Proof.
  intros H. destruct (Nat.leb 3 run) eqn:E; [|reflexivity].
  apply Nat.leb_le in E.
  rewrite (contains_prefix _ _ (prefix_newlines_ge 3 run s E)) in H. discriminate.
Qed.

(** A text without three line feeds in a row is not changed by the
    substitution. *)
Lemma sub_newlines_fixed (s : string) :
  forall run : nat,
    contains (newlines 3) (newlines run ++ s) = false ->
    sub_newlines_from run s = newlines run ++ s.
Proof.
  induction s as [|c r IH]; intros run H.
  - cbn [sub_newlines_from]. rewrite (short_run run _ H), append_empty. reflexivity.
  - cbn [sub_newlines_from]. destruct (Ascii.eqb c LF) eqn:Hc.
    + apply Ascii.eqb_eq in Hc. subst c. rewrite newlines_shift in *. apply IH, H.
    + rewrite (short_run run _ H). f_equal. f_equal.
      apply (IH O). apply contains_suffix in H. rewrite contains_cons in H.
      apply orb_false_iff in H. apply H.
Qed.

Lemma normalize_fixed (text : string) :
  no_trailing_whitespace text -> no_three_newlines text -> normalize text = text.
Proof.
  intros Hw Hn. unfold normalize, sub_newlines.
  rewrite (fixed_lines_split text Hw), (map_fixed rstrip _ Hw), lines_join.
  apply (sub_newlines_fixed text O). exact Hn.
Qed.

(** X15. The texts that normalisation leaves as they are: [normalize]
    returns its argument unchanged exactly when no line of it ends in
    whitespace (a carriage return before a line feed included) and it
    holds no three line feeds in a row. *)
Theorem normalize_fixed_points (text : string) :
  normalize text = text <-> no_trailing_whitespace text /\ no_three_newlines text.
Proof.
  split.
  - intros H. rewrite <- H. split;
      [apply normalize_no_trailing_whitespace | apply normalize_no_three_newlines].
  - intros [Hw Hn]. apply normalize_fixed; assumption.
Qed.

(** X16. Normalising twice is normalising once: [normalize] is idempotent,
    so a result that went through the loops of [_convert] is not changed
    by a second conversion of its text. *)
Theorem normalize_idempotent (text : string) :
  normalize (normalize text) = normalize text.
Proof.
  apply normalize_fixed;
    [apply normalize_no_trailing_whitespace | apply normalize_no_three_newlines].
Qed.

End NormalizeMore.

(** ** The content sniffing and the failures of [convert_local] *)

Module SniffFacts.
Import Py PyStr MdConverter MdProps EngineNotions EngineFacts.





Lemma guess_never_swallowed (w : World) (path : string) (e : exn) :
  _guess_ext_magic w path = Throw e -> magic_file w path = Throw e /\ swallowed e = false.
Proof.
  unfold _guess_ext_magic. destruct (magic_file w path) as [[|g rest]|e0].
  - discriminate.
  - destruct (0 <? len (strip g)); discriminate.
  - destruct e0; try discriminate; intros [= <-]; split; reflexivity.
Qed.

(** X18. Without keyword arguments [convert_local] lets out nothing but
    the failure of the conversion: every exception that leaves it is a
    FileConversionException, or an exception of the content sniffing other
    than the three that [_guess_ext_magic] catches; in particular a missing
    file is never reported by FileNotFoundError.  This holds for every
    registry. *)
Theorem convert_local_failures (self : MarkdownConverter) (w : World) (path : string) :
  match convert_local self w path no_kwargs with
  | Done _ => True
  | Throw e => local_failure w path e /\ forall msg, e <> FileNotFoundError msg
  end.
Proof.
  assert (H : match convert_local self w path no_kwargs with
              | Done _ => True
              | Throw e => local_failure w path e
              end).
  { unfold convert_local, local_extensions, bind.
    destruct (_guess_ext_magic w path) as [guess|e] eqn:G.
    - unfold _convert.
      pose proof (try_extensions_spec w (_page_converters self) path no_kwargs
                    (_append_ext
                       (_append_ext
                          match kwargs_get_none (file_extension no_kwargs) with
                          | Some ext => [ext]
                          | None => []
                          end (Some (snd (splitext w path)))) guess)
                    EmptyString) as Hloop.
      cbv zeta in Hloop. rewrite Hloop. cbn [bind].
      destruct (first_result _); [exact I|].
      destruct (0 <? len _); [left; eauto | exact I].
    - right. apply guess_never_swallowed, G. }
  destruct (convert_local self w path no_kwargs) as [r|e]; [exact I|].
  split; [exact H|]. intros msg ->.
  destruct H as [[m Hm]|[_ Hs]]; discriminate.
Qed.

End SniffFacts.

(** ** The branches of [set_address] *)

Module NavigationSteps.
Import Py PyStr Browser Props BrowserNotions PaginationFacts InvariantFacts.

Lemma set_address_blank (d : nat) (w : World) (filter_year : option Z)
    (b : SimpleTextBrowser) :
  set_address_n (S d) w "about:blank" filter_year b
  = (_set_page_content EmptyString ;;; finish) (enter w "about:blank" b).
Proof. reflexivity. Qed.

Lemma search_uri_not_blank (uri : string) :
  startswith uri "google:" = true -> String.eqb uri "about:blank" = false.
Proof.
  unfold startswith. destruct uri as [|c u]; [discriminate|].
  cbn [String.prefix].
  destruct (ascii_dec "g" c) as [<-|]; [|intros H; discriminate H]. reflexivity.
Qed.

Lemma history_set_history (h : list (string * Z)) (b : SimpleTextBrowser) :
  history (set_history h b) = h.
Proof. reflexivity. Qed.

Lemma set_address_search (d : nat) (w : World) (uri : string) (filter_year : option Z)
    (b : SimpleTextBrowser) :
  startswith uri "google:" = true ->
  set_address_n (S d) w uri filter_year b
  = (_searxng_search w (strip (slice_from uri 7)) filter_year false ;;; finish)
      (enter w uri b).
Proof.
  intros Hg. cbn [set_address_n]. unfold bind, get, modify, enter, finish.
  rewrite (search_uri_not_blank uri Hg), Hg. reflexivity.
Qed.

Lemma length_one_more {A : Type} (l : list A) (x : A) :
  (1 <? Z.of_nat (List.length (l ++ [x]))) = negb (Nat.eqb (List.length l) 0).
Proof.
  rewrite length_app. cbn [List.length]. destruct l as [|y l]; cbn [List.length Nat.eqb negb].
  - reflexivity.
  - apply Z.ltb_lt. lia.
Qed.

Lemma set_address_page (d : nat) (w : World) (uri : string) (filter_year : option Z)
    (b : SimpleTextBrowser) :
  String.eqb uri "about:blank" = false -> startswith uri "google:" = false ->
  has_scheme uri = true \/ history b = [] ->
  set_address_n (S d) w uri filter_year b
  = (_fetch_page (fun w' u => set_address_n d w' u None) w uri ;;; finish)
      (enter w uri b).
Proof.
  intros Hb Hg Hs. cbn [set_address_n]. unfold bind, get, modify, enter, finish.
  rewrite Hb, Hg. cbv beta. rewrite !history_set_history, length_one_more.
  destruct Hs as [Hs|Hs]; [rewrite Hs | rewrite Hs, andb_false_r]; reflexivity.
Qed.

Lemma list_getitem_before_last {A : Type} (l : list A) (x y : A) :
  list_getitem ((l ++ [x]) ++ [y]) (-2) = Some x.
Proof.
  rewrite list_getitem_negative by (rewrite !length_app; cbn [List.length]; lia).
  rewrite !length_app. cbn [List.length].
  replace (Z.to_nat (-2 + Z.of_nat (List.length l + 1 + 1))) with (List.length l) by lia.
  rewrite nth_error_app1 by (rewrite length_app; cbn [List.length]; lia).
  rewrite nth_error_app2 by lia. rewrite Nat.sub_diag. reflexivity.
Qed.

Lemma set_address_relative (d : nat) (w : World) (uri : string) (filter_year : option Z)
    (b : SimpleTextBrowser) (h : list (string * Z)) (prior : string) (tp : Z) :
  String.eqb uri "about:blank" = false -> startswith uri "google:" = false ->
  has_scheme uri = false -> history b = (h ++ [(prior, tp)])%list ->
  set_address_n (S d) w uri filter_year b
  = (_fetch_page (fun w' u => set_address_n d w' u None) w (urljoin w prior uri)
       ;;; finish)
      (set_history (history b ++ [(urljoin w prior uri, time_time w (history b))]) b).
Proof.
  intros Hb Hg Hs Hh. cbn [set_address_n]. unfold bind, get, modify, ret, finish.
  rewrite Hb, Hg, Hs. cbv beta. rewrite !history_set_history, length_one_more, Hh.
  rewrite length_app. cbn [List.length].
  replace (Nat.eqb (List.length h + 1) 0) with false
    by (symmetry; apply Nat.eqb_neq; lia).
  cbn [negb andb]. rewrite list_getitem_before_last, list_getitem_last.
  rewrite removelast_last. reflexivity.
Qed.

Lemma finish_returns (b : SimpleTextBrowser) :
  finish b
  = Return tt (set_find_on_page_viewport None
                 (set_find_on_page_query None (set_viewport_current_page 0 b))).
Proof. reflexivity. Qed.

Lemma then_finish {A : Type} (m : M A) (b : SimpleTextBrowser) :
  (m ;;; finish) b
  = match m b with
    | Return _ b' => finish b'
    | Raise e b' => Raise e b'
    | Diverge => Diverge
    end.
Proof. reflexivity. Qed.

End NavigationSteps.

(** ** The constructor *)

Module ConstructorFacts.
Import Py PyStr Browser Props BrowserNotions PaginationFacts NavigationSteps.

(** Before [__init__] has assigned [searxng_url], a search ends in its
    handler for unexpected errors. *)
Lemma searxng_search_unconstructed (w : World) (query : string) (filter_year : option Z)
    (retry : bool) (b : SimpleTextBrowser) :
  constructed b = false ->
  _searxng_search w query filter_year retry b
  = search_error_handler
      (AttributeError "'SimpleTextBrowser' object has no attribute 'searxng_url'") b.
Proof.
  intros H. unfold _searxng_search. cbn [_searxng_search_n].
  unfold try_except, bind, get. rewrite H. reflexivity.
Qed.

(** Before [__init__] has assigned [_mdconvert] and [request_kwargs], a
    fetch raises AttributeError, which no handler of [_fetch_page] catches. *)
Lemma fetch_page_unconstructed (rec : World -> string -> M unit) (w : World)
    (u : string) (b : SimpleTextBrowser) :
  constructed b = false ->
  exists msg, _fetch_page rec w u b = Raise (AttributeError msg) b.
Proof.
  intros H. unfold _fetch_page. destruct (startswith u "file://").
  - unfold try_except, bind, get. rewrite H. eexists. reflexivity.
  - unfold guard, bind, get. rewrite H. eexists. reflexivity.
Qed.

(** X19. What [__init__] does with its start page.  Without a start
    page, or with [about:blank], it returns the browser on the blank page
    with the single empty viewport, whatever the viewport size is.  With a
    [google:] start page it returns without having searched: the title is
    "Search Error", the page content is empty and the current viewport
    reads as the empty text.  With any other start page it raises
    AttributeError, because the page is fetched before [_mdconvert] and
    [request_kwargs] are assigned.  In no case is the network consulted. *)
Theorem constructor_outcomes (w : World) (start : option string) (size : Z)
    (folder url : option string) :
  match kind_of_start start with
  | StartBlank => init w start size folder url = Return tt (blank_browser w size folder url)
  | StartSearch =>
      exists b,
        init w start size folder url = Return tt b
        /\ page_title b = TitleStr "Search Error"
        /\ _page_content b = EmptyString
        /\ viewport b = Return EmptyString b
  | StartPage => exists msg b, init w start size folder url = Raise (AttributeError msg) b
  end.
Proof.
  unfold kind_of_start.
  destruct (truthy start) eqn:Ht; cbn [negb];
    [|unfold init; rewrite Ht; reflexivity].
  destruct start as [s|]; [|discriminate]. cbn [or_default].
  destruct (String.eqb s "about:blank") eqn:Hb;
    [apply String.eqb_eq in Hb; subst s; reflexivity|].
  unfold init. rewrite Ht. cbn [or_default]. unfold set_address.
  set (b0 := mkBrowser s size folder [] TitleNone 0 [] false EmptyString
               MdConverter.init EmptyString None None None None).
  destruct (startswith s "google:") eqn:Hg.
  - unfold bind at 1. rewrite (set_address_search 1 w s None b0 Hg), then_finish.
    rewrite searxng_search_unconstructed by reflexivity.
    unfold search_error_handler. unfold bind at 1. unfold modify at 1.
    rewrite (set_page_content_spec _ _
               [(0, len ("## Search Error" ++ nl ++ nl
                         ++ "Unexpected error during search: "
                         ++ "'SimpleTextBrowser' object has no attribute 'searxng_url'"))]).
    + eexists. split; [reflexivity|]. repeat split.
    + unfold pages_after_split, _split_pages, bind.
      rewrite (address_of_history _ s (time_time w []) []) by reflexivity.
      unfold get. rewrite Hg. reflexivity.
  - unfold bind at 1.
    rewrite (set_address_page 1 w s None b0 Hb Hg (or_intror eq_refl)), then_finish.
    destruct (fetch_page_unconstructed (fun w' u => set_address_n 1 w' u None) w s
                (enter w s b0) eq_refl) as [msg Hmsg].
    rewrite Hmsg. exists msg. eexists. reflexivity.
Qed.

End ConstructorFacts.

(** ** The name of a download *)

Module DownloadFacts.
Import Py PyStr Browser Props BrowserNotions.

Lemma numbered_path_next (w : World) (folder fname : string) (k : Z) :
  0 <= k ->
  (let '(base, ext) := MdConverter.splitext (md w) fname in
   abs_join w folder (base ++ "__" ++ str_of_int (k + 1) ++ ext))
  = numbered_path w folder fname (k + 1).
Proof.
  intros Hk. unfold numbered_path.
  replace (k + 1 =? 0) with false by (symmetry; apply Z.eqb_neq; lia). reflexivity.
Qed.

(** The loop started at the [s]-th path stops at the first path from
    there on that does not exist, or at the thousandth. *)
Lemma next_free_path_from (w : World) (folder fname : string) (j : Z) (rounds : nat) :
  forall s : Z,
    0 <= s <= j -> j <= 1000 -> j - s <= Z.of_nat rounds ->
    (forall i, s <= i < j -> path_exists w (numbered_path w folder fname i) = true) ->
    j = 1000 \/ path_exists w (numbered_path w folder fname j) = false ->
    next_free_path rounds w folder fname s (numbered_path w folder fname s)
    = numbered_path w folder fname j.
Proof.
  induction rounds as [|rounds IH]; intros s Hs Hj Hrounds Hex Hend.
  - assert (s = j) by lia. subst s. reflexivity.
  - cbn [next_free_path].
    destruct (Z.eq_dec s j) as [->|Hne].
    + destruct Hend as [->|Hfree].
      * rewrite Z.ltb_irrefl, andb_false_r. reflexivity.
      * rewrite Hfree. reflexivity.
    + rewrite (Hex s) by lia.
      replace (s <? 1000) with true by (symmetry; apply Z.ltb_lt; lia).
      cbn [andb].
      pose proof (numbered_path_next w folder fname s ltac:(lia)) as Hnext.
      destruct (MdConverter.splitext (md w) fname) as [base ext].
      rewrite Hnext. apply IH; try lia; [|exact Hend].
      intros i Hi. apply Hex. lia.
Qed.

(** X20. A download never overwrites a file unless a thousand numbered
    names are taken: the path chosen for a file name is the first one, in
    the order [name], [base__1.ext], [base__2.ext], ..., that does not exist
    yet; if all of these up to [base__999.ext] exist, it is [base__1000.ext]
    whether that one exists or not. *)
Theorem download_path_is_first_free (w : World) (folder fname : string) (j : Z) :
  0 <= j <= 1000 ->
  (forall i, 0 <= i < j -> path_exists w (numbered_path w folder fname i) = true) ->
  j = 1000 \/ path_exists w (numbered_path w folder fname j) = false ->
  next_free_path 1000 w folder fname 0 (abs_join w folder fname)
  = numbered_path w folder fname j.
Proof.
  intros Hj Hex Hend.
  apply (next_free_path_from w folder fname j 1000 0); try lia; assumption.
Qed.

(** The theorem for a second download of [a.txt] into [/docs]. *)
Lemma download_path_is_first_free_witness :
  next_free_path 1000 Demo.world "/docs" "a.txt" 0 (abs_join Demo.world "/docs" "a.txt")
  = numbered_path Demo.world "/docs" "a.txt" 1.
Proof.
  apply (download_path_is_first_free Demo.world "/docs" "a.txt" 1).
  - lia.
  - intros i Hi. assert (i = 0) as -> by lia. reflexivity.
  - right. reflexivity.
Defined.

End DownloadFacts.

(** ** The page of a search *)

Module SearchPageFacts.
Import Py PyStr Browser Props BrowserNotions Triples PaginationFacts NavigationSteps.

Section SearchPage.
Variables (w : World) (query a : string) (t : Z) (h : list (string * Z)).
Hypothesis a_is_search : startswith a "google:" = true.
Let H : list (string * Z) := (h ++ [(a, t)])%list.

Lemma search_content_triple (content : string) (E : SimpleTextBrowser -> Prop) :
  triple (fun b => searching H b /\ search_title query (page_title b))
    (_set_page_content content) (fun _ => on_search_page H query) E.
Proof.
  intros b [[Hh Hc] Ht].
  rewrite (set_page_content_spec b content [(0, len content)]).
  - destruct (viewport_current_page b >=? _); repeat split; assumption.
  - unfold pages_after_split, _split_pages, bind.
    rewrite (address_of_history (set__page_content content b) a t h Hh).
    unfold get. rewrite a_is_search. reflexivity.
Qed.

Lemma search_handler_triple (e : exn) (E : SimpleTextBrowser -> Prop) :
  triple (searching H) (search_error_handler e) (fun _ => on_search_page H query) E.
Proof.
  unfold search_error_handler.
  eapply triple_bind
    with (R := fun _ b => searching H b /\ search_title query (page_title b)).
  { apply triple_modify. intros b [Hh Hc]. repeat split; try assumption.
    right. reflexivity. }
  intros _.
  destruct e; try apply search_content_triple.
  apply triple_get_inv. intros b1 [[_ Hc] _]. rewrite Hc. cbn [negb].
  apply search_content_triple.
Qed.

Lemma search_retry_triple (depth : nat) (filter_year : option Z)
    (E : SimpleTextBrowser -> Prop) :
  triple (searching H) (_searxng_search_n (S depth) w query filter_year true)
    (fun _ => on_search_page H query) E.
Proof.
  cbn [_searxng_search_n].
  eapply triple_try with (E1 := searching H); [|intros e; apply search_handler_triple].
  apply triple_get_inv. intros b1 [_ Hc]. rewrite Hc. cbn [negb].
  eapply triple_bind with (R := fun _ => searching H); [apply triple_call|].
  intros results.
  eapply triple_bind
    with (R := fun _ b => searching H b /\ search_title query (page_title b)).
  { apply triple_modify. intros b [Hh Hb]. repeat split; try assumption.
    left. reflexivity. }
  intros _.
  destruct results as [[|r rs]|]; try (destruct filter_year);
    try apply search_content_triple;
    (apply triple_get_inv; intros b2 _; apply search_content_triple).
Qed.

(** A search on a constructed browser returns; it leaves a page of one
    viewport under one of the two titles. *)
Lemma search_triple (filter_year : option Z) (retry : bool) :
  triple (searching H) (_searxng_search w query filter_year retry)
    (fun _ => on_search_page H query) nothing.
Proof.
  destruct retry; [apply search_retry_triple|].
  unfold _searxng_search. cbn [_searxng_search_n].
  eapply triple_try with (E1 := searching H); [|intros e; apply search_handler_triple].
  apply triple_get_inv. intros b1 [_ Hc]. rewrite Hc. cbn [negb].
  eapply triple_bind with (R := fun _ => searching H); [apply triple_call|].
  intros results.
  eapply triple_bind
    with (R := fun _ b => searching H b /\ search_title query (page_title b)).
  { apply triple_modify. intros b [Hh Hb]. repeat split; try assumption.
    left. reflexivity. }
  intros _.
  assert (Hretry : triple (fun b => searching H b /\ search_title query (page_title b))
                     (_searxng_search_n 1 w query filter_year true)
                     (fun _ => on_search_page H query) (searching H)).
  { intros b [Hb _]. apply search_retry_triple, Hb. }
  destruct results as [[|r rs]|]; try (destruct filter_year);
    try exact Hretry; try apply search_content_triple;
    (apply triple_get_inv; intros b2 _; apply search_content_triple).
Qed.

End SearchPage.

(** X21. A search is shown whole and never fails: on a constructed
    browser, for every world and every viewport size, [visit_page] on an
    address that starts with [google:] returns, and what it returns is the
    entire content of the new page, which has the single viewport from 0 to
    its length; the address is recorded in the history, the current index
    is 0 and the title is the query followed by " - Search" or, when the
    request failed, "Search Error". *)
Theorem search_page_is_shown_whole (w : World) (uri : string) (filter_year : option Z)
    (b : SimpleTextBrowser) :
  constructed b = true -> startswith uri "google:" = true ->
  exists b',
    visit_page w uri filter_year b = Return (_page_content b') b'
    /\ history b' = (history b ++ [(uri, time_time w (history b))])%list
    /\ viewport_pages b' = [(0, len (_page_content b'))]
    /\ viewport_current_page b' = 0
    /\ search_title (strip (slice_from uri 7)) (page_title b').
Proof.
  intros Hc Hg. unfold visit_page, set_address. unfold bind at 1.
  rewrite (set_address_search 1 w uri filter_year b Hg), then_finish.
  pose proof (search_triple w (strip (slice_from uri 7)) uri
                (time_time w (history b)) (history b) Hg filter_year false
                (enter w uri b) (conj eq_refl Hc)) as Hs.
  destruct (_searxng_search w (strip (slice_from uri 7)) filter_year false
              (enter w uri b)) as [[] b1|e b1|]; [|destruct Hs|destruct Hs].
  destruct Hs as ((Hh & _) & Hp & Ht).
  rewrite finish_returns.
  exists (set_find_on_page_viewport None
            (set_find_on_page_query None (set_viewport_current_page 0 b1))).
  split; [|repeat split; [exact Hh | exact Hp | exact Ht]].
  unfold viewport.
  cbn [viewport_pages viewport_current_page _page_content set_find_on_page_viewport
       set_find_on_page_query set_viewport_current_page].
  rewrite Hp. change (list_getitem [(0, len (_page_content b1))] 0)
    with (Some (0, len (_page_content b1))).
  cbv iota. rewrite PaginationMore.slice_all. reflexivity.
Qed.

Lemma search_page_is_shown_whole_witness :
  exists b',
    visit_page Demo.world "google: rocq" None Demo.browser = Return (_page_content b') b'
    /\ history b'
       = (history Demo.browser
          ++ [("google: rocq", time_time Demo.world (history Demo.browser))])%list
    /\ viewport_pages b' = [(0, len (_page_content b'))]
    /\ viewport_current_page b' = 0
    /\ search_title (strip (slice_from "google: rocq" 7)) (page_title b').
Proof.
  apply (search_page_is_shown_whole Demo.world "google: rocq" None Demo.browser);
    reflexivity.
Defined.

End SearchPageFacts.

(** ** The history *)

Module HistoryFacts.
Import Py PyStr Browser Props BrowserNotions PaginationFacts InvariantFacts
  NavigationSteps.

Section PartialRules.
Context {A B : Type}.
Implicit Types (P E : SimpleTextBrowser -> Prop).

Lemma partial_ret P (Q : A -> SimpleTextBrowser -> Prop) E (a : A) :
  (forall b, P b -> Q a b) -> partial P (ret a) Q E.
Proof. intros H b Hb. apply H, Hb. Qed.

Lemma partial_raise P (Q : A -> SimpleTextBrowser -> Prop) E (e : exn) :
  (forall b, P b -> E b) -> partial P (raise e) Q E.
Proof. intros H b Hb. apply H, Hb. Qed.

Lemma partial_call P (c : comp A) : partial P (call c) (fun _ => P) P.
Proof. intros b Hb. destruct c; exact Hb. Qed.

Lemma partial_bind P (R : A -> SimpleTextBrowser -> Prop)
    (Q : B -> SimpleTextBrowser -> Prop) E (m : M A) (k : A -> M B) :
  partial P m R E -> (forall a, partial (R a) (k a) Q E) -> partial P (bind m k) Q E.
Proof.
  intros Hm Hk b Hb. unfold bind. specialize (Hm b Hb).
  destruct (m b) as [a b'|e b'|]; [apply Hk, Hm | exact Hm | exact I].
Qed.

Lemma partial_get P (Q : B -> SimpleTextBrowser -> Prop) E
    (k : SimpleTextBrowser -> M B) :
  (forall b1, P b1 -> partial P (k b1) Q E) -> partial P (bind get k) Q E.
Proof. intros H b Hb. unfold bind, get. apply (H b Hb b Hb). Qed.

Lemma partial_try P (Q : A -> SimpleTextBrowser -> Prop) E1 E (m : M A)
    (h : exn -> M A) :
  partial P m Q E1 -> (forall e, partial E1 (h e) Q E) -> partial P (try_except m h) Q E.
Proof.
  intros Hm Hh b Hb. unfold try_except. specialize (Hm b Hb).
  destruct (m b) as [a b'|e b'|]; [exact Hm | apply Hh, Hm | exact I].
Qed.

End PartialRules.

Lemma partial_modify (P : SimpleTextBrowser -> Prop)
    (Q : unit -> SimpleTextBrowser -> Prop) (E : SimpleTextBrowser -> Prop)
    (f : SimpleTextBrowser -> SimpleTextBrowser) :
  (forall b, P b -> Q tt (f b)) -> partial P (modify f) Q E.
Proof. intros H b Hb. apply H, Hb. Qed.

Lemma partial_guard {A : Type} (P : SimpleTextBrowser -> Prop)
    (R : A -> SimpleTextBrowser -> Prop) (Q : unit -> SimpleTextBrowser -> Prop)
    (E1 E : SimpleTextBrowser -> Prop) (h : exn -> M unit) (m : M A)
    (k : A -> M unit) :
  partial P m R E1 -> (forall e, partial E1 (h e) Q E) ->
  (forall a, partial (R a) (k a) Q E) -> partial P (guard h m k) Q E.
Proof.
  intros Hm Hh Hk b Hb. unfold guard. specialize (Hm b Hb).
  destruct (m b) as [a b'|e b'|]; [apply Hk, Hm | apply Hh, Hm | exact I].
Qed.

(** *** What depends on the history only *)

Section Keeps.
Variable J : SimpleTextBrowser -> Prop.
Hypothesis J_history : forall b b', history b' = history b -> J b -> J b'.

Lemma keeps_modify (f : SimpleTextBrowser -> SimpleTextBrowser) :
  (forall b, history (f b) = history b) -> keeps J (modify f).
Proof. intros Hf. apply partial_modify. intros b Hb. apply (J_history b); auto. Qed.

Lemma keeps_split_loop (fuel : nat) : forall start, keeps J (split_loop fuel start).
Proof.
  induction fuel as [|fuel IH]; intros start b Hb; cbn [split_loop];
    destruct (start <? len (_page_content b)); try exact Hb; try exact I.
  destruct (extend_end _ _ _) as [e|e]; [|exact Hb].
  apply IH. apply (J_history b); [reflexivity | exact Hb].
Qed.

Lemma keeps_split_pages : keeps J _split_pages.
Proof.
  unfold _split_pages. eapply partial_bind with (R := fun _ => J).
  { intros b Hb. unfold address. destruct (list_getitem _ _) as [[a t]|]; exact Hb. }
  intros a. apply partial_get. intros b1 _.
  destruct (startswith a "google:"); [apply keeps_modify; reflexivity|].
  destruct (len (_page_content b1) =? 0); [apply keeps_modify; reflexivity|].
  eapply partial_bind with (R := fun _ => J); [apply keeps_modify; reflexivity|].
  intros _. apply keeps_split_loop.
Qed.

Lemma keeps_set_page_content (content : string) : keeps J (_set_page_content content).
Proof.
  unfold _set_page_content.
  eapply partial_bind with (R := fun _ => J); [apply keeps_modify; reflexivity|].
  intros _. eapply partial_bind with (R := fun _ => J); [apply keeps_split_pages|].
  intros _. apply partial_get. intros b1 _.
  destruct (_ >=? _); [apply keeps_modify; reflexivity | apply partial_ret; auto].
Qed.

Lemma keeps_title_content (t : title_value) (content : string) :
  keeps J (modify (set_page_title t) ;;; _set_page_content content).
Proof.
  eapply partial_bind with (R := fun _ => J); [apply keeps_modify; reflexivity|].
  intros _. apply keeps_set_page_content.
Qed.

Lemma keeps_search_handler (e : exn) : keeps J (search_error_handler e).
Proof.
  unfold search_error_handler.
  eapply partial_bind with (R := fun _ => J); [apply keeps_modify; reflexivity|].
  intros _. destruct e; try apply keeps_set_page_content.
  apply partial_get. intros b1 _.
  destruct (negb (constructed b1));
    [apply partial_raise; auto | apply keeps_set_page_content].
Qed.

Lemma keeps_search (w : World) (query : string) (filter_year : option Z) (depth : nat) :
  forall retry, keeps J (_searxng_search_n depth w query filter_year retry).
Proof.
  induction depth as [|depth IH]; intros retry; [intros b _; exact I|].
  cbn [_searxng_search_n].
  eapply partial_try with (E1 := J); [|intros e; apply keeps_search_handler].
  apply partial_get. intros b1 _.
  destruct (negb (constructed b1)); [apply partial_raise; auto|].
  eapply partial_bind with (R := fun _ => J); [apply partial_call|].
  intros results.
  eapply partial_bind with (R := fun _ => J); [apply keeps_modify; reflexivity|].
  intros _.
  destruct results as [[|r rs]|]; try (destruct filter_year); try (destruct retry);
    try apply IH; try apply keeps_set_page_content;
    (apply partial_get; intros b2 _; apply keeps_set_page_content).
Qed.

Lemma keeps_show_result (res : option MdConverter.DocumentConverterResult) :
  keeps J (show_result res).
Proof.
  destruct res as [r|]; cbn [show_result];
    [apply keeps_title_content | apply partial_raise; auto].
Qed.

Lemma keeps_download_complete (download_path : option string) (e : exn) :
  keeps J (download_complete download_path e).
Proof.
  unfold download_complete. destruct (truthy download_path); apply keeps_title_content.
Qed.

Lemma keeps_fetch_handler (w : World) (download_path : option string)
    (response : option MdConverter.Response) (e : exn) :
  keeps J (fetch_handler w download_path response e).
Proof.
  destruct e; cbn [fetch_handler]; try (apply partial_raise; auto; fail);
    try apply keeps_download_complete; try apply keeps_title_content.
  destruct response as [r|]; [|apply keeps_title_content].
  eapply partial_try with (E1 := J).
  - eapply partial_bind with (R := fun _ => J); [apply keeps_modify; reflexivity|].
    intros _. destruct (contains "text/html" _).
    + apply partial_get. intros b1 _.
      eapply partial_bind with (R := fun _ => J); [apply partial_call|].
      intros [res|]; [apply keeps_title_content | apply partial_raise; auto].
    + eapply partial_bind with (R := fun _ => J); [apply partial_call|].
      intros text. apply keeps_title_content.
  - intros e'. destruct e'; try (apply partial_raise; auto; fail).
    apply keeps_title_content.
Qed.

Lemma keeps_fetch_page_file (rec : World -> string -> M unit) (w : World) (u : string) :
  startswith u "file://" = true -> keeps J (_fetch_page rec w u).
Proof.
  intros Hu. unfold _fetch_page. rewrite Hu.
  eapply partial_try with (E1 := J); [|intros e; apply keeps_fetch_handler].
  apply partial_get. intros b1 _.
  destruct (negb (constructed b1)); [apply partial_raise; auto|].
  eapply partial_bind with (R := fun _ => J); [apply partial_call|].
  intros res. apply keeps_show_result.
Qed.

End Keeps.

Lemma partial_conseq {A : Type} (P P' : SimpleTextBrowser -> Prop)
    (Q Q' : A -> SimpleTextBrowser -> Prop) (E E' : SimpleTextBrowser -> Prop)
    (m : M A) :
  partial P' m Q' E' -> (forall b, P b -> P' b) -> (forall a b, Q' a b -> Q a b) ->
  (forall b, E' b -> E b) -> partial P m Q E.
Proof.
  intros Hm HP HQ HE b Hb. specialize (Hm b (HP b Hb)).
  destruct (m b); [apply HQ, Hm | apply HE, Hm | exact I].
Qed.

Lemma history_determined (P : list (string * Z) -> Prop) :
  forall b b' : SimpleTextBrowser,
    history b' = history b -> P (history b) -> P (history b').
Proof. intros b b' ->. exact (fun H => H). Qed.

(** [_fetch_page] leaves the history alone, but for the entry of the file
    that its nested call of [set_address] visits. *)
Lemma fetch_page_history (rec : World -> string -> M unit) (w : World) (u : string)
    (h : list (string * Z)) :
  (forall w' p,
     partial (fun b => history b = h) (rec w' ("file://" ++ p))
       (fun _ b => with_download h (history b))
       (fun b => with_download h (history b))) ->
  partial (fun b => history b = h) (_fetch_page rec w u)
    (fun _ b => with_download h (history b)) (fun b => with_download h (history b)).
Proof.
  intros Hrec.
  set (J0 := fun b : SimpleTextBrowser => history b = h).
  set (J2 := fun b : SimpleTextBrowser => with_download h (history b)).
  assert (H0 : forall b b', history b' = history b -> J0 b -> J0 b')
    by (intros b b'; apply (history_determined (fun l => l = h))).
  assert (H2 : forall b b', history b' = history b -> J2 b -> J2 b')
    by (intros b b'; apply (history_determined (with_download h))).
  assert (H02 : forall b, J0 b -> J2 b) by (intros b Hb; left; exact Hb).
  destruct (startswith u "file://") eqn:Hu.
  { eapply partial_conseq with (P' := J0) (Q' := fun _ => J0) (E' := J0);
      [apply (keeps_fetch_page_file J0 H0 rec w u Hu) | auto | auto | auto]. }
  unfold _fetch_page. rewrite Hu.
  eapply partial_guard with (R := fun _ => J0) (E1 := J2);
    [|intros e; apply (keeps_fetch_handler J2 H2)|].
  { apply partial_get. intros b1 _.
    destruct (negb (constructed b1)); [apply partial_raise; auto|].
    eapply partial_conseq with (P' := J0) (Q' := fun _ => J0) (E' := J0);
      [apply partial_call | auto | auto | auto]. }
  intros response.
  eapply partial_guard with (R := fun _ => J0) (E1 := J2);
    [|intros e; apply (keeps_fetch_handler J2 H2)|].
  { eapply partial_conseq with (P' := J0) (Q' := fun _ => J0) (E' := J0);
      [apply partial_call | auto | auto | auto]. }
  intros _. destruct (contains "text/" _).
  - eapply partial_try with (E1 := J2); [|intros e; apply (keeps_fetch_handler J2 H2)].
    eapply partial_conseq with (P' := J2) (Q' := fun _ => J2) (E' := J2);
      [|auto|auto|auto].
    apply partial_get. intros b1 _.
    eapply partial_bind with (R := fun _ => J2); [apply partial_call|].
    intros res. apply (keeps_show_result J2 H2).
  - eapply partial_guard with (R := fun _ => J0) (E1 := J2);
      [|intros e; apply (keeps_fetch_handler J2 H2)|].
    { apply partial_get. intros b1 _.
      destruct (downloads_folder b1); [apply partial_ret | apply partial_raise]; auto. }
    intros folder.
    eapply partial_try with (E1 := J2); [|intros e; apply (keeps_fetch_handler J2 H2)].
    eapply partial_bind with (R := fun _ => J0).
    { eapply partial_conseq with (P' := J0) (Q' := fun _ => J0) (E' := J0);
      [apply partial_call | auto | auto | auto]. }
    intros _.
    eapply partial_bind with (R := fun _ => J0).
    { eapply partial_conseq with (P' := J0) (Q' := fun _ => J0) (E' := J0);
      [apply partial_call | auto | auto | auto]. }
    intros body. apply Hrec.
Qed.

(** The three assignments that end [set_address] come after whatever the
    branch did to the history. *)
Lemma then_finish_history {A : Type} (m : M A) (b : SimpleTextBrowser)
    (P : list (string * Z) -> Prop) :
  match m b with
  | Return _ b' => P (history b')
  | Raise _ b' => P (history b')
  | Diverge => True
  end ->
  match (m ;;; finish) b with
  | Return _ b' => P (history b')
  | Raise _ b' => P (history b')
  | Diverge => True
  end.
Proof. rewrite then_finish. destruct (m b); auto. Qed.

(** On a [file://] address [set_address] adds its entry and nothing else. *)
Lemma set_address_file_history (d : nat) (w : World) (uri : string)
    (filter_year : option Z) (b : SimpleTextBrowser) :
  startswith uri "file://" = true ->
  match set_address_n (S d) w uri filter_year b with
  | Return _ b' => history b' = (history b ++ [(uri, time_time w (history b))])%list
  | Raise _ b' => history b' = (history b ++ [(uri, time_time w (history b))])%list
  | Diverge => True
  end.
Proof.
  intros Hu. destruct (file_uri_not_special uri Hu) as [Hb Hg].
  rewrite (set_address_page d w uri filter_year b Hb Hg
             (or_introl (file_uri_has_scheme uri Hu))).
  apply (then_finish_history _ _
           (fun l => l = (history b ++ [(uri, time_time w (history b))])%list)).
  apply (keeps_fetch_page_file
           (fun b' => history b' = (history b ++ [(uri, time_time w (history b))])%list)
           (history_determined
              (fun l => l = (history b ++ [(uri, time_time w (history b))])%list))
           _ w uri Hu (enter w uri b)).
  reflexivity.
Qed.

Lemma set_address_history (w : World) (uri : string) (filter_year : option Z)
    (b : SimpleTextBrowser) :
  match set_address w uri filter_year b with
  | Return _ b' => history_grown w uri b b'
  | Raise _ b' => history_grown w uri b b'
  | Diverge => True
  end.
Proof.
  unfold set_address, history_grown, recorded_address.
  set (t := time_time w (history b)).
  assert (Hrec : forall (h : list (string * Z)) w' p,
            partial (fun b1 => history b1 = h) (set_address_n 1 w' ("file://" ++ p) None)
              (fun _ b1 => with_download h (history b1))
              (fun b1 => with_download h (history b1))).
  { intros h w' p b1 Hb1.
    pose proof (set_address_file_history 0 w' ("file://" ++ p) None b1
                  (prefix_append "file://" p)) as Hfile.
    destruct (set_address_n 1 w' ("file://" ++ p) None b1); try exact I;
      right; exists p, (time_time w' (history b1)); rewrite Hfile, Hb1; reflexivity. }
  destruct (String.eqb uri "about:blank") eqn:Hb.
  { apply String.eqb_eq in Hb. subst uri. rewrite set_address_blank.
    apply (then_finish_history _ _
             (with_download (history b ++ [("about:blank", t)]))).
    apply (keeps_set_page_content
             (fun b' => with_download (history b ++ [("about:blank", t)]) (history b'))
             (history_determined (with_download (history b ++ [("about:blank", t)])))
             EmptyString (enter w "about:blank" b)).
    left. reflexivity. }
  destruct (startswith uri "google:") eqn:Hg.
  { rewrite (set_address_search 1 w uri filter_year b Hg). cbn [orb].
    apply (then_finish_history _ _ (with_download (history b ++ [(uri, t)]))).
    apply (keeps_search
             (fun b' => with_download (history b ++ [(uri, t)]) (history b'))
             (history_determined (with_download (history b ++ [(uri, t)])))
             w _ filter_year 2 false (enter w uri b)).
    left. reflexivity. }
  cbn [orb].
  destruct (has_scheme uri) eqn:Hs.
  { rewrite (set_address_page 1 w uri filter_year b Hb Hg (or_introl Hs)).
    apply (then_finish_history _ _ (with_download (history b ++ [(uri, t)]))).
    apply (fetch_page_history _ w uri (history b ++ [(uri, t)]) (Hrec _)
             (enter w uri b)).
    reflexivity. }
  assert (Hcases : history b = []
                   \/ exists h prior tp, history b = (h ++ [(prior, tp)])%list).
  { destruct (history b) as [|x l]; [left; reflexivity|]. right.
    destruct (exists_last (l := x :: l) ltac:(discriminate)) as (h & [prior tp] & Hlast).
    exists h, prior, tp. exact Hlast. }
  destruct Hcases as [Hh|(h & prior & tp & Hh)].
  { rewrite (set_address_page 1 w uri filter_year b Hb Hg (or_intror Hh)).
    assert (Hget : list_getitem (history b) (-1) = None) by (rewrite Hh; reflexivity).
    rewrite Hget.
    apply (then_finish_history _ _ (with_download (history b ++ [(uri, t)]))).
    apply (fetch_page_history _ w uri (history b ++ [(uri, t)]) (Hrec _) (enter w uri b)).
    reflexivity. }
  rewrite (set_address_relative 1 w uri filter_year b h prior tp Hb Hg Hs Hh).
  assert (Hget : list_getitem (history b) (-1) = Some (prior, tp))
    by (rewrite Hh; apply list_getitem_last).
  rewrite Hget.
  apply (then_finish_history _ _
           (with_download (history b ++ [(urljoin w prior uri, t)]))).
  apply (fetch_page_history _ w (urljoin w prior uri)
           (history b ++ [(urljoin w prior uri, t)]) (Hrec _)).
  reflexivity.
Qed.

(** X22. The history only grows, and by what the call visits: from a
    state with a positive viewport size and the current index in range,
    [set_address(uri)] ends, by a return or by an exception, with the
    history it found followed by one entry for the call, stamped with the
    time of the call, and, only after a download, by one more entry for
    the saved file.  The entry of the call holds [uri] itself when it is
    [about:blank], a search, an address with a scheme or the first address
    visited, and else [uri] joined to the address that was current. *)
Theorem set_address_appends_to_history (w : World) (uri : string)
    (filter_year : option Z) (b : SimpleTextBrowser) :
  0 < viewport_size b -> viewport_in_range b ->
  match set_address w uri filter_year b with
  | Return _ b' => history_grown w uri b b'
  | Raise _ b' => history_grown w uri b b'
  | Diverge => False
  end.
Proof.
  intros Hvs [Hne Hr].
  pose proof (set_address_history w uri filter_year b) as Hhist.
  assert (Hinv : Inv b false b).
  { split; [apply frame_refl|]. split; [exact Hvs|].
    split; [lia|]. split; [intros _; lia | discriminate]. }
  pose proof (set_address_triple b false w uri filter_year b Hinv) as Hend.
  destruct (set_address w uri filter_year b); [exact Hhist | exact Hhist | exact Hend].
Qed.

Lemma set_address_appends_to_history_witness :
  match set_address Demo.world "file:///docs/a.txt" None Demo.browser with
  | Return _ b' => history_grown Demo.world "file:///docs/a.txt" Demo.browser b'
  | Raise _ b' => history_grown Demo.world "file:///docs/a.txt" Demo.browser b'
  | Diverge => False
  end.
Proof.
  apply (set_address_appends_to_history Demo.world "file:///docs/a.txt" None
           Demo.browser).
  - reflexivity.
  - split; [discriminate | split; [discriminate | reflexivity]].
Defined.

End HistoryFacts.

(** ** A local file that does not exist *)

Module MissingFileFacts.
Import Py PyStr Browser Props BrowserNotions PaginationFacts InvariantFacts
  NavigationSteps.

(** No converter returns a result for a file that does not exist. *)
Lemma missing_file_outcome (w : MdConverter.World) (path : string)
    (kw : MdConverter.kwargs) (ext : string) (c : MdConverter.DocumentConverter) :
  MdConverter.files w path = None ->
  match MdConverter.converter_convert c w path (MdConverter.with_file_extension kw ext) with
  | Done (Some _) => False
  | _ => True
  end.
Proof.
  intros Hf.
  destruct c; cbn [MdConverter.converter_convert];
    unfold MdConverter.XmlConverter_convert, MdConverter.YouTubeConverter_convert,
      MdConverter.DocxConverter_convert, MdConverter.XlsxConverter_convert,
      MdConverter.PptxConverter_convert, MdConverter.PdfConverter_convert,
      MdConverter.AudioConverter_convert, MdConverter.HtmlConverter_convert,
      MdConverter.PlainTextConverter_convert, MdConverter.extension_in,
      MdConverter.read_text, MdConverter.read_bytes;
    cbn [MdConverter.kwargs_get MdConverter.file_extension
         MdConverter.with_file_extension MdConverter.bind];
    rewrite ?Hf;
    repeat match goal with
           | |- context [if ?c then _ else _] => destruct c
           | |- context [match MdConverter.kwargs_get ?k ?d with _ => _ end] =>
               destruct (MdConverter.kwargs_get k d)
           end;
    cbn [MdConverter.bind]; exact I.
Qed.

Lemma first_result_of_failures
    (outcomes : list (comp (option MdConverter.DocumentConverterResult))) :
  Forall (fun o => match o with Done (Some _) => False | _ => True end) outcomes ->
  MdProps.first_result outcomes = None.
Proof.
  induction 1 as [|o rest Ho _ IH]; [reflexivity|].
  destruct o as [[r|]|e]; [destruct Ho | exact IH | exact IH].
Qed.

Lemma some_raised_app
    (os1 os2 : list (comp (option MdConverter.DocumentConverterResult))) :
  EngineNotions.some_raised (os1 ++ os2)
  = EngineNotions.some_raised os1 || EngineNotions.some_raised os2.
Proof. apply existsb_app. Qed.

(** With the registry of [__init__] the conversion of a missing file whose
    path has an extension fails with FileConversionException, when the
    content sniffing lets no exception out. *)
Lemma convert_local_missing (w : MdConverter.World) (path : string)
    (guess : option string) :
  MdConverter.files w path = None ->
  String.eqb (strip (snd (MdConverter.splitext w path))) EmptyString = false ->
  MdConverter._guess_ext_magic w path = Done guess ->
  exists msg,
    MdConverter.convert_local MdConverter.init w path MdConverter.no_kwargs
    = Throw (FileConversionException msg).
Proof.
  intros Hf Hext Hguess.
  unfold MdConverter.convert_local, MdConverter.local_extensions.
  rewrite Hguess.
  cbn [MdConverter.bind MdConverter.kwargs_get_none
       MdConverter.file_extension MdConverter.no_kwargs].
  unfold MdConverter._append_ext at 2. rewrite Hext.
  cbn [app].
  set (ext := strip (snd (MdConverter.splitext w path))) in *.
  assert (Hlist : exists rest, MdConverter._append_ext [ext] guess = ext :: rest).
  { destruct guess as [g|]; cbn [MdConverter._append_ext]; [|eauto].
    destruct (String.eqb (strip g) EmptyString); cbn [app]; eauto. }
  destruct Hlist as [rest ->].
  unfold MdConverter._convert.
  pose proof (EngineFacts.try_extensions_spec w
                (MdConverter._page_converters MdConverter.init) path
                MdConverter.no_kwargs (ext :: rest) EmptyString) as Hloop.
  cbv zeta in Hloop. rewrite Hloop. clear Hloop.
  rewrite first_result_of_failures.
  2:{ unfold MdProps.trial_outcomes. apply Forall_flat_map, Forall_forall.
      intros e _. apply Forall_map, Forall_forall. intros c _.
      apply missing_file_outcome, Hf. }
  cbn [MdConverter.bind]. rewrite TrialFacts.last_trace_not_blank; [eauto|].
  left. cbn [MdProps.trial_outcomes flat_map]. rewrite some_raised_app.
  apply orb_true_intro. left.
  change (MdConverter._page_converters MdConverter.init)
    with ([MdConverter.XmlConverter; MdConverter.YouTubeConverter;
           MdConverter.DocxConverter; MdConverter.XlsxConverter;
           MdConverter.PptxConverter; MdConverter.PdfConverter;
           MdConverter.AudioConverter; MdConverter.HtmlConverter]
          ++ [MdConverter.PlainTextConverter])%list.
  rewrite map_app. unfold EngineNotions.some_raised. rewrite existsb_app.
  cbn [map existsb MdConverter.converter_convert].
  rewrite (EngineFacts.plain_text_accepts w path MdConverter.no_kwargs ext Hext).
  unfold MdConverter.read_text, MdConverter.read_bytes. rewrite Hf.
  cbn [MdConverter.bind]. apply orb_true_r.
Qed.

(** [_fetch_page] on a [file://] address, for a constructed browser. *)
Lemma fetch_page_file_eq (rec : World -> string -> M unit) (w : World) (u : string)
    (b : SimpleTextBrowser) :
  startswith u "file://" = true -> constructed b = true ->
  _fetch_page rec w u b
  = match MdConverter.convert_local (_mdconvert b) (md w)
            (local_path_of w (slice_from u 7)) MdConverter.no_kwargs with
    | Done res =>
        match show_result res b with
        | Return a b' => Return a b'
        | Raise e b' =>
            fetch_handler w (Some (local_path_of w (slice_from u 7))) None e b'
        | Diverge => Diverge
        end
    | Throw e => fetch_handler w (Some (local_path_of w (slice_from u 7))) None e b
    end.
Proof.
  intros Hu Hc. unfold _fetch_page. rewrite Hu.
  unfold try_except, bind, get. rewrite Hc. cbn [negb].
  destruct (MdConverter.convert_local _ _ _ _); reflexivity.
Qed.

(** An exception of a class that no [except] clause names leaves the
    handlers as it came. *)
Lemma fetch_handler_uncaught (w : World) (download_path : option string)
    (response : option MdConverter.Response) (e : exn) (b : SimpleTextBrowser) :
  caught e = false -> fetch_handler w download_path response e b = Raise e b.
Proof. destruct e; try discriminate; reflexivity. Qed.

(** X23. A local file that does not exist is announced as a download, or
    the error of the content sniffing gets out.  On a constructed browser
    with the registry of [__init__] and a positive viewport size, for a
    [file://] address whose path has an extension and names no file: when
    the content sniffing of the path lets no exception out (an older
    puremagic raises FileNotFoundError there, which [_guess_ext_magic]
    catches), [set_address] returns with the title
    [("Download complete.",)] and the page
    "# Download complete\n\nSaved file to '<path>'", and the page
    "Error 404" of the handler for FileNotFoundError is not shown, since
    the converters' FileNotFoundError leaves [_convert] as
    FileConversionException; when the sniffing lets out an exception of a
    class that [_fetch_page] does not name (the PureError of puremagic
    1.30), [set_address] raises it. *)
Theorem missing_file_is_shown_as_download (w : World) (uri : string)
    (filter_year : option Z) (b : SimpleTextBrowser) :
  constructed b = true -> _mdconvert b = MdConverter.init -> 0 < viewport_size b ->
  startswith uri "file://" = true ->
  MdConverter.files (md w) (local_path_of w (slice_from uri 7)) = None ->
  String.eqb (local_path_of w (slice_from uri 7)) EmptyString = false ->
  String.eqb
    (strip (snd (MdConverter.splitext (md w) (local_path_of w (slice_from uri 7)))))
    EmptyString = false ->
  match MdConverter._guess_ext_magic (md w) (local_path_of w (slice_from uri 7)) with
  | Done _ =>
      exists b',
        set_address w uri filter_year b = Return tt b'
        /\ page_title b' = TitleTuple "Download complete."
        /\ _page_content b'
           = "# Download complete" ++ nl ++ nl ++ "Saved file to '"
             ++ local_path_of w (slice_from uri 7) ++ "'"
  | Throw e =>
      caught e = false -> exists b', set_address w uri filter_year b = Raise e b'
  end.
Proof.
  intros Hc Hmd Hvs Hu Hf Hp Hext.
  set (path := local_path_of w (slice_from uri 7)) in *.
  destruct (file_uri_not_special uri Hu) as [Hb Hg].
  unfold set_address.
  rewrite (set_address_page 1 w uri filter_year b Hb Hg
             (or_introl (file_uri_has_scheme uri Hu))), then_finish.
  rewrite (fetch_page_file_eq _ w uri (enter w uri b) Hu Hc).
  fold path. change (_mdconvert (enter w uri b)) with (_mdconvert b). rewrite Hmd.
  destruct (MdConverter._guess_ext_magic (md w) path) as [guess|e] eqn:Hguess.
  - destruct (convert_local_missing (md w) path guess Hf Hext Hguess) as [msg Hmsg].
    rewrite Hmsg. cbn [fetch_handler]. unfold download_complete.
    cbn [truthy]. rewrite Hp. cbn [negb str_of_path or_default].
    unfold bind at 1. unfold modify at 1.
    set (text := "# Download complete" ++ nl ++ nl ++ "Saved file to '" ++ path ++ "'").
    set (b1 := set_page_title (TitleTuple "Download complete.") (enter w uri b)).
    destruct (split_pages_spec (set__page_content text b1) uri
                (time_time w (history b)) (history b) eq_refl Hg Hvs)
      as (pages & Hpages & _).
    rewrite (set_page_content_spec b1 text pages Hpages). cbv zeta.
    rewrite finish_returns. eexists. split; [reflexivity|].
    destruct (viewport_current_page b1 >=? Z.of_nat (List.length pages)); split; reflexivity.
  - intros He.
    unfold MdConverter.convert_local, MdConverter.local_extensions.
    rewrite Hguess. cbn [MdConverter.bind].
    rewrite (fetch_handler_uncaught w _ _ e _ He). eauto.
Qed.

(** The theorem in a world with the older puremagic. *)
Lemma missing_file_is_shown_as_download_witness :
  exists b',
    set_address legacy_world "file:///docs/none.txt" None Demo.browser = Return tt b'
    /\ page_title b' = TitleTuple "Download complete."
    /\ _page_content b'
       = "# Download complete" ++ nl ++ nl ++ "Saved file to '"
         ++ local_path_of legacy_world (slice_from "file:///docs/none.txt" 7) ++ "'".
Proof.
  apply (missing_file_is_shown_as_download legacy_world "file:///docs/none.txt" None
           Demo.browser); reflexivity.
Defined.

Example missing_file_lets_pure_error_out :
  exists b',
    set_address Demo.world "file:///docs/none.txt" None Demo.browser
    = Raise (OtherException "PureError" "Not a regular file") b'.
Proof. eexists. vm_compute. reflexivity. Qed.

End MissingFileFacts.

(** ** The JSON helpers *)

Module YouTubeFacts.
Import YouTube.

Lemma json_induction (P : json -> Prop) :
  P JNull -> (forall b, P (JBool b)) -> (forall n, P (JNumber n)) ->
  (forall s, P (JString s)) ->
  (forall items, Forall P items -> P (JList items)) ->
  (forall entries, Forall (fun e => P (snd e)) entries -> P (JDict entries)) ->
  forall j, P j.
Proof.
  intros Hnull Hbool Hnum Hstr Hlist Hdict.
  refine (fix IH (j : json) : P j :=
            match j with
            | JNull => Hnull
            | JBool b => Hbool b
            | JNumber n => Hnum n
            | JString s => Hstr s
            | JList items =>
                Hlist items
                  ((fix all (l : list json) : Forall P l :=
                      match l with
                      | [] => Forall_nil P
                      | x :: r => Forall_cons x (IH x) (all r)
                      end) items)
            | JDict entries =>
                Hdict entries
                  ((fix all (l : list (string * json))
                      : Forall (fun e => P (snd e)) l :=
                      match l with
                      | [] => Forall_nil _
                      | e :: r => Forall_cons e (IH (snd e)) (all r)
                      end) entries)
            end).
Qed.

(** X24. What [_findKey] finds is in the document: a result other than
    [None] is a value that some dict inside the searched value holds under
    the key. *)
Theorem findKey_result_is_stored (key : string) (j : json) :
  _findKey j key <> JNull -> stored key (_findKey j key) j.
Proof.
  induction j as [| | | |items IH|entries IH] using json_induction;
    try (intros H; exfalso; apply H; reflexivity).
  - cbn [_findKey]. induction IH as [|x l Hx _ IHl].
    + intros H; exfalso; apply H; reflexivity.
    + intros H.
      destruct (_findKey x key) eqn:E;
        try (rewrite <- E in *; apply (stored_in_list key _ (x :: l) x);
             [left; reflexivity | apply Hx; rewrite E; discriminate]).
      specialize (IHl H). inversion IHl as [| |items' j' Hin Hst]; subst.
      apply (stored_in_list key _ (x :: l) j'); [right; exact Hin | exact Hst].
  - cbn [_findKey]. induction IH as [|[k v] l Hv _ IHl].
    + intros H; exfalso; apply H; reflexivity.
    + cbn [snd] in Hv. destruct (String.eqb k key) eqn:Ek.
      * intros _. apply String.eqb_eq in Ek. subst k.
        apply stored_here. left. reflexivity.
      * intros H.
        destruct (_findKey v key) eqn:E;
          try (rewrite <- E in *; apply (stored_in_dict key _ ((k, v) :: l) k v);
               [left; reflexivity | apply Hv; rewrite E; discriminate]).
        specialize (IHl H).
        inversion IHl as [entries' Hin|entries' k' j' Hin Hst|]; subst.
        -- apply stored_here. right. exact Hin.
        -- apply (stored_in_dict key _ ((k, v) :: l) k' j'); [right; exact Hin | exact Hst].
Qed.

Lemma findKey_result_is_stored_witness :
  stored "attributedDescriptionBodyText"
    (_findKey player_data "attributedDescriptionBodyText") player_data.
Proof.
  apply (findKey_result_is_stored "attributedDescriptionBodyText" player_data).
  discriminate.
Defined.

Lemma stored_in_head_list (key : string) (v x : json) (l : list json) :
  stored key v x -> stored key v (JList (x :: l)).
Proof. intros H. apply (stored_in_list key v (x :: l) x); [left; reflexivity | exact H]. Qed.

Lemma stored_in_tail_list (key : string) (v x : json) (l : list json) :
  stored key v (JList l) -> stored key v (JList (x :: l)).
Proof.
  intros H. inversion H as [| |items j Hin Hst]; subst.
  apply (stored_in_list key v (x :: l) j); [right; exact Hin | exact Hst].
Qed.

Lemma stored_in_tail_dict (key : string) (v : json) (e : string * json)
    (l : list (string * json)) :
  stored key v (JDict l) -> stored key v (JDict (e :: l)).
Proof.
  intros H. inversion H as [entries Hin|entries k j Hin Hst|]; subst.
  - apply stored_here. right. exact Hin.
  - apply (stored_in_dict key v (e :: l) k j); [right; exact Hin | exact Hst].
Qed.

(** X25. [_findKey] finds a key that holds no [None]: when the key
    occurs inside the searched value and none of the values held under it
    is [None], the result is not [None]. *)
Theorem findKey_finds_stored (key : string) (j : json) :
  (forall v, stored key v j -> v <> JNull) -> (exists v, stored key v j) ->
  _findKey j key <> JNull.
Proof.
  induction j as [| | | |items IH|entries IH] using json_induction;
    try (intros _ [v Hv]; inversion Hv; fail).
  - cbn [_findKey]. induction IH as [|x l Hx _ IHl]; intros Hnn [v Hv].
    + inversion Hv as [| |items j Hin Hst]; subst. destruct Hin.
    + destruct (_findKey x key) eqn:E; try discriminate.
      apply IHl.
      * intros v' Hv'. apply Hnn, stored_in_tail_list, Hv'.
      * inversion Hv as [| |items j Hin Hst]; subst. destruct Hin as [<-|Hin].
        -- exfalso. apply Hx; [|exists v; exact Hst|reflexivity].
           intros v' Hv'. apply Hnn, stored_in_head_list, Hv'.
        -- exists v. apply (stored_in_list key v l j); assumption.
  - cbn [_findKey]. induction IH as [|[k x] l Hx _ IHl]; intros Hnn [v Hv].
    + inversion Hv as [entries Hin|entries k j Hin Hst|]; subst; destruct Hin.
    + cbn [snd] in Hx. destruct (String.eqb k key) eqn:Ek.
      * apply String.eqb_eq in Ek. subst k. apply Hnn, stored_here. left. reflexivity.
      * destruct (_findKey x key) eqn:E; try discriminate.
        apply IHl.
        -- intros v' Hv'. apply Hnn, stored_in_tail_dict, Hv'.
        -- inversion Hv as [entries Hin|entries k' j Hin Hst|]; subst.
           ++ destruct Hin as [Heq|Hin].
              ** injection Heq as -> _. rewrite String.eqb_refl in Ek. discriminate.
              ** exists v. apply stored_here. exact Hin.
           ++ destruct Hin as [Heq|Hin].
              ** injection Heq as <- <-. exfalso.
                 apply Hx; [|exists v; exact Hst|reflexivity].
                 intros v' Hv'.
                 apply Hnn, (stored_in_dict key v' ((k, x) :: l) k x);
                   [left; reflexivity | exact Hv'].
              ** exists v. apply (stored_in_dict key v l k' j); assumption.
Qed.

Lemma findKey_finds_stored_witness :
  _findKey (JList [JNull; JDict [("videoId", JString "a1")]]) "videoId" <> JNull.
Proof.
  apply (findKey_finds_stored "videoId" (JList [JNull; JDict [("videoId", JString "a1")]])).
  - intros v Hv.
    inversion Hv as [| |items j Hin Hst]; subst.
    destruct Hin as [<-|[<-|[]]]; [inversion Hst|].
    inversion Hst as [entries Hin|entries k j Hin Hst'|]; subst.
    + destruct Hin as [Heq|[]]. injection Heq as <-. discriminate.
    + destruct Hin as [Heq|[]]. injection Heq as <- <-. inversion Hst'.
  - exists (JString "a1").
    apply (stored_in_list "videoId" _ _ (JDict [("videoId", JString "a1")]));
      [right; left; reflexivity | apply stored_here; left; reflexivity].
Defined.

(** X26. [_get] tries the keys in the order given: the result is the
    value that the dict holds under the first of the keys that it has,
    whatever keys come after it, and the default when it has none of them. *)
Theorem get_first_present_key {V : Type} (json : list (string * V))
    (before after : list string) (k : string) (v default : V) :
  (forall k', In k' before -> lookup json k' = None) ->
  lookup json k = Some v ->
  _get json (before ++ k :: after) default = v
  /\ _get json before default = default.
Proof.
  intros Hbefore Hk. induction before as [|k0 rest IH].
  - cbn [app _get]. rewrite Hk. split; reflexivity.
  - cbn [app _get]. rewrite (Hbefore k0 (or_introl eq_refl)).
    apply IH. intros k' Hk'. apply Hbefore. right. exact Hk'.
Qed.

Lemma get_first_present_key_witness :
  _get [("og:title", "A talk"); ("name", "talk.mp4")] (["title"] ++ "og:title" :: ["name"])
    "none"
  = "A talk"
  /\ _get [("og:title", "A talk"); ("name", "talk.mp4")] ["title"] "none" = "none".
Proof.
  apply (get_first_present_key [("og:title", "A talk"); ("name", "talk.mp4")]
           ["title"] ["name"] "og:title" "A talk" "none").
  - intros k' [<-|[]]. reflexivity.
  - reflexivity.
Defined.

End YouTubeFacts.

(** ** Tabs in the retrieved documents *)

Module RagFacts.
Import PyStr RagUtils.

Lemma replace_tab (s : string) : replace (String TAB EmptyString) " " s = untabbed s.
Proof.
  unfold replace. induction s as [|c r IH]; [reflexivity|].
  cbn [replace_from untabbed]. rewrite NormalizeFacts.prefix_cons, Ascii.eqb_sym.
  destruct (Ascii.eqb c TAB).
  - rewrite NormalizeMore.prefix_empty. cbn [String.length Nat.sub append].
    rewrite IH. reflexivity.
  - rewrite IH. reflexivity.
Qed.

Lemma untabbed_has_no_tab (s : string) : has_tab (untabbed s) = false.
Proof.
  induction s as [|c r IH]; [reflexivity|]. cbn [untabbed has_tab]. rewrite IH.
  destruct (Ascii.eqb c TAB) eqn:E; [reflexivity|]. rewrite E. reflexivity.
Qed.

Lemma untabbed_length (s : string) : String.length (untabbed s) = String.length s.
Proof. induction s as [|c r IH]; [reflexivity|]. cbn [untabbed String.length]. now rewrite IH. Qed.

(** X27. [replace_t_with_space] turns every tab of every document into
    one space and touches nothing else: the contents it leaves are those
    it found with each tab replaced by a space, character by character, so
    that no content holds a tab any more and every content keeps its
    length; the documents are as many as before and in the same order. *)
Theorem tabs_become_spaces (list_of_documents : list string) :
  replace_t_with_space list_of_documents = map untabbed list_of_documents
  /\ Forall (fun content => has_tab content = false)
       (replace_t_with_space list_of_documents)
  /\ map String.length (replace_t_with_space list_of_documents)
     = map String.length list_of_documents.
Proof.
  assert (H : replace_t_with_space list_of_documents = map untabbed list_of_documents).
  { unfold replace_t_with_space. apply map_ext. intros s. apply replace_tab. }
  split; [exact H|]. rewrite H. split.
  - apply Forall_map, Forall_forall. intros s _. apply untabbed_has_no_tab.
  - rewrite map_map. apply map_ext. intros s. apply untabbed_length.
Qed.

End RagFacts.

(** ** What a visit shows after a failure of the network *)

Module ErrorPageFacts.
Import Py PyStr Browser Props BrowserNotions PaginationFacts NavigationSteps.

Lemma scheme_not_special (uri : string) :
  has_scheme uri = true ->
  String.eqb uri "about:blank" = false /\ startswith uri "google:" = false.
Proof.
  unfold has_scheme, startswith. destruct uri as [|c u]; [discriminate|].
  rewrite !NormalizeFacts.prefix_cons. cbn [String.eqb].
  destruct (Ascii.eqb "h" c) eqn:Eh.
  - apply Ascii.eqb_eq in Eh. subst c. intros _. split; reflexivity.
  - destruct (Ascii.eqb "f" c) eqn:Ef; [|discriminate].
    apply Ascii.eqb_eq in Ef. subst c. intros _. split; reflexivity.
Qed.

(** A title and a page set one after the other, then the end of
    [set_address]. *)
Lemma title_content_shown (b : SimpleTextBrowser) (title : title_value)
    (content a : string) (t : Z) (h : list (string * Z)) :
  history b = (h ++ [(a, t)])%list ->
  startswith a "google:" = true \/ 0 < viewport_size b ->
  exists b',
    (modify (set_page_title title) ;;; _set_page_content content) b = Return tt b'
    /\ page_title b' = title /\ _page_content b' = content
    /\ (startswith a "google:" = true -> viewport_pages b' = [(0, len content)]).
Proof.
  intros Hh Hcase. unfold bind at 1. unfold modify at 1.
  set (b1 := set_page_title title b).
  assert (Hpages : exists pages,
            pages_after_split (set__page_content content b1) pages
            /\ (startswith a "google:" = true -> pages = [(0, len content)])).
  { destruct (startswith a "google:") eqn:Hg.
    - exists [(0, len content)]. split; [|reflexivity].
      unfold pages_after_split, _split_pages, bind.
      rewrite (address_of_history (set__page_content content b1) a t h Hh).
      unfold get. rewrite Hg. reflexivity.
    - destruct Hcase as [Hcase|Hvs]; [discriminate|].
      destruct (split_pages_spec (set__page_content content b1) a t h Hh Hg Hvs)
        as (pages & Hrun & _).
      exists pages. split; [exact Hrun | discriminate]. }
  destruct Hpages as (pages & Hrun & Hone).
  rewrite (set_page_content_spec b1 content pages Hrun). cbv zeta.
  eexists. split; [reflexivity|].
  destruct (viewport_current_page b1 >=? Z.of_nat (List.length pages));
    (repeat split; try reflexivity; exact Hone).
Qed.

(** X28. A request that fails before any response is shown as a page: on
    a constructed browser with a positive viewport size, when the GET of an
    address with a scheme other than [file://] raises a RequestException,
    [set_address] returns with the title "Error" and the page
    "## Error\n\n" followed by the text of the exception. *)
Theorem connection_failure_is_shown (w : World) (uri msg : string)
    (filter_year : option Z) (b : SimpleTextBrowser) :
  constructed b = true -> 0 < viewport_size b ->
  has_scheme uri = true -> startswith uri "file://" = false ->
  requests_get w uri = Throw (RequestException msg) ->
  exists b',
    set_address w uri filter_year b = Return tt b'
    /\ page_title b' = TitleStr "Error"
    /\ _page_content b' = "## Error" ++ nl ++ nl ++ msg.
Proof.
  intros Hc Hvs Hs Hfile Hreq.
  destruct (scheme_not_special uri Hs) as [Hb Hg].
  unfold set_address.
  rewrite (set_address_page 1 w uri filter_year b Hb Hg (or_introl Hs)), then_finish.
  unfold _fetch_page. rewrite Hfile. unfold guard at 1.
  unfold bind at 1. unfold get at 1.
  change (constructed (enter w uri b)) with (constructed b). rewrite Hc. cbn [negb].
  rewrite Hreq. cbn [call]. unfold raise at 1. cbn [fetch_handler exn_str].
  destruct (title_content_shown (enter w uri b) (TitleStr "Error")
              ("## Error" ++ nl ++ nl ++ msg) uri (time_time w (history b)) (history b)
              eq_refl (or_intror Hvs))
    as (b1 & Hrun & Ht & Hcontent & _).
  rewrite Hrun, finish_returns. eexists. split; [reflexivity|].
  split; [exact Ht | exact Hcontent].
Qed.

Lemma connection_failure_is_shown_witness :
  exists b',
    set_address Demo.world "http://example.org/" None Demo.browser = Return tt b'
    /\ page_title b' = TitleStr "Error"
    /\ _page_content b' = "## Error" ++ nl ++ nl ++ "connection refused".
Proof.
  apply (connection_failure_is_shown Demo.world "http://example.org/"
           "connection refused" None Demo.browser); reflexivity.
Defined.

(** X29. An HTTP error status is shown with the body of the answer: on a
    constructed browser with a positive viewport size, when the answer to
    the GET makes [raise_for_status] raise and its content type is not
    HTML, [set_address] returns with the title "Error <status>" and the
    page "## Error <status>\n\n" followed by the text of the body. *)
Theorem http_error_is_shown (w : World) (uri errmsg text : string)
    (r : MdConverter.Response) (filter_year : option Z) (b : SimpleTextBrowser) :
  constructed b = true -> 0 < viewport_size b ->
  has_scheme uri = true -> startswith uri "file://" = false ->
  requests_get w uri = Done r ->
  MdConverter.http_error r = Some errmsg ->
  contains "text/html" (lower (MdConverter.header (MdConverter.content_type r))) = false ->
  MdConverter.iter_content_text r = Done text ->
  exists b',
    set_address w uri filter_year b = Return tt b'
    /\ page_title b' = TitleStr ("Error " ++ str_of_int (MdConverter.status_code r))
    /\ _page_content b'
       = "## Error " ++ str_of_int (MdConverter.status_code r) ++ nl ++ nl ++ text.
Proof.
  intros Hc Hvs Hs Hfile Hreq Herr Hhtml Htext.
  destruct (scheme_not_special uri Hs) as [Hb Hg].
  unfold set_address.
  rewrite (set_address_page 1 w uri filter_year b Hb Hg (or_introl Hs)), then_finish.
  unfold _fetch_page. rewrite Hfile. unfold guard at 1.
  unfold bind at 1. unfold get at 1.
  change (constructed (enter w uri b)) with (constructed b). rewrite Hc. cbn [negb].
  rewrite Hreq. cbn [call]. unfold ret at 1.
  unfold guard at 1. unfold MdConverter.raise_for_status. rewrite Herr.
  cbn [call]. unfold raise at 1. cbn [fetch_handler].
  unfold try_except. unfold bind at 1. unfold modify at 1. rewrite Hhtml.
  unfold bind at 1. rewrite Htext. cbn [call]. unfold ret at 1.
  destruct (title_content_shown
              (set_page_title (TitleStr ("Error " ++ str_of_int (MdConverter.status_code r)))
                 (enter w uri b))
              (TitleStr ("Error " ++ str_of_int (MdConverter.status_code r)))
              ("## Error " ++ str_of_int (MdConverter.status_code r) ++ nl ++ nl ++ text)
              uri (time_time w (history b)) (history b) eq_refl (or_intror Hvs))
    as (b1 & Hrun & Ht & Hcontent & _).
  rewrite Hrun, finish_returns. eexists. split; [reflexivity|].
  split; [exact Ht | exact Hcontent].
Qed.

Lemma http_error_is_shown_witness :
  exists b',
    set_address error_world "http://example.org/gone" None Demo.browser = Return tt b'
    /\ page_title b'
       = TitleStr ("Error " ++ str_of_int (MdConverter.status_code not_found))
    /\ _page_content b'
       = "## Error " ++ str_of_int (MdConverter.status_code not_found) ++ nl ++ nl
         ++ "gone".
Proof.
  apply (http_error_is_shown error_world "http://example.org/gone"
           "404 Client Error: Not Found for url: http://example.org/gone" "gone"
           not_found None Demo.browser); reflexivity.
Defined.

End ErrorPageFacts.

(** ** The year filter of a search *)

Module SearchRetryFacts.
Import Py PyStr Browser Props BrowserNotions PaginationFacts NavigationSteps.

Lemma search_page_content (b : SimpleTextBrowser) (content a : string) (t : Z)
    (h : list (string * Z)) :
  history b = (h ++ [(a, t)])%list -> startswith a "google:" = true ->
  _set_page_content content b
  = Return tt
      (let b1 := set_viewport_pages [(0, len content)] (set__page_content content b) in
       if viewport_current_page b >=? 1 then set_viewport_current_page 0 b1 else b1).
Proof.
  intros Hh Hg. apply (set_page_content_spec b content [(0, len content)]).
  unfold pages_after_split, _split_pages, bind.
  rewrite (address_of_history (set__page_content content b) a t h Hh).
  unfold get. rewrite Hg. reflexivity.
Qed.

Section Retry.
Variables (w : World) (query a : string) (t year : Z) (h : list (string * Z)).
Hypothesis a_is_search : startswith a "google:" = true.

Let message : string :=
  "No results found for '" ++ query ++ "'" ++ " with filter year=" ++ str_of_int year
  ++ ". Already searched removing year limitation, but No result found. Try with a more general query.".

Lemma retry_without_results (b : SimpleTextBrowser) :
  constructed b = true -> history b = (h ++ [(a, t)])%list ->
  no_results (searxng_request w (searxng_url b ++ "/search") query None) ->
  _searxng_search_n 1 w query (Some year) true b
  = _set_page_content message (set_page_title (TitleStr (query ++ " - Search")) b).
Proof.
  intros Hc Hh Hnone. cbn [_searxng_search_n].
  unfold try_except, bind, get. rewrite Hc. cbn [negb].
  assert (Hset : forall content,
            _set_page_content content (set_page_title (TitleStr (query ++ " - Search")) b)
            = Return tt
                (let b1 := set_viewport_pages [(0, len content)]
                             (set__page_content content
                                (set_page_title (TitleStr (query ++ " - Search")) b)) in
                 if viewport_current_page b >=? 1
                 then set_viewport_current_page 0 b1 else b1)).
  { intros content.
    apply (search_page_content (set_page_title (TitleStr (query ++ " - Search")) b)
             content a t h Hh a_is_search). }
  destruct Hnone as [Hn|Hn]; rewrite Hn; cbn [call]; unfold ret, modify;
    change (_set_page_content
              ("No results found for '" ++ query ++ "'"
               ++ (" with filter year=" ++ str_of_int year)
               ++ ". Already searched removing year limitation, but No result found. Try with a more general query."))
      with (_set_page_content message);
    rewrite Hset; reflexivity.
Qed.

(** The first search: an empty answer to the request with the time range
    leads to the retry. *)
Lemma search_without_results (b : SimpleTextBrowser) :
  constructed b = true -> history b = (h ++ [(a, t)])%list ->
  no_results (searxng_request w (searxng_url b ++ "/search") query
                (Some (str_of_int year ++ "-" ++ str_of_int year))) ->
  no_results (searxng_request w (searxng_url b ++ "/search") query None) ->
  _searxng_search w query (Some year) false b
  = _set_page_content message
      (set_page_title (TitleStr (query ++ " - Search"))
         (set_page_title (TitleStr (query ++ " - Search")) b)).
Proof.
  intros Hc Hh Hfirst Hsecond.
  pose proof (retry_without_results
                (set_page_title (TitleStr (query ++ " - Search")) b) Hc Hh Hsecond)
    as Hretry.
  pose proof (search_page_content
                (set_page_title (TitleStr (query ++ " - Search"))
                   (set_page_title (TitleStr (query ++ " - Search")) b))
                message a t h Hh a_is_search) as Hset.
  unfold _searxng_search. cbn [_searxng_search_n] in *.
  unfold try_except at 1. unfold bind at 1. unfold get at 1. rewrite Hc. cbn [negb].
  unfold bind at 1.
  destruct Hfirst as [Hn|Hn]; rewrite Hn; cbn [call]; unfold ret at 1;
    unfold bind at 1; unfold modify at 1; rewrite Hretry, Hset; reflexivity.
Qed.

End Retry.

(** X30. A search with a year filter that finds nothing is repeated
    once, without the filter, and not again: on a constructed browser,
    when the search service has no result for the query with the time
    range of the year and none without a time range, [visit_page] on the
    [google:] address returns, as the whole page, the message that the
    search was already repeated without the year, under the title
    "<query> - Search". *)
Theorem empty_search_is_retried_once (w : World) (uri : string) (year : Z)
    (b : SimpleTextBrowser) :
  constructed b = true -> startswith uri "google:" = true ->
  no_results (searxng_request w (searxng_url b ++ "/search") (strip (slice_from uri 7))
                (Some (str_of_int year ++ "-" ++ str_of_int year))) ->
  no_results (searxng_request w (searxng_url b ++ "/search") (strip (slice_from uri 7))
                None) ->
  exists b',
    visit_page w uri (Some year) b
    = Return ("No results found for '" ++ strip (slice_from uri 7) ++ "'"
              ++ " with filter year=" ++ str_of_int year
              ++ ". Already searched removing year limitation, but No result found. Try with a more general query.")
        b'
    /\ page_title b' = TitleStr (strip (slice_from uri 7) ++ " - Search").
Proof.
  intros Hc Hg Hfirst Hsecond.
  unfold visit_page, set_address. unfold bind at 1.
  rewrite (set_address_search 1 w uri (Some year) b Hg), then_finish.
  rewrite (search_without_results w (strip (slice_from uri 7)) uri
             (time_time w (history b)) year (history b) Hg (enter w uri b) Hc eq_refl
             Hfirst Hsecond).
  rewrite (search_page_content
             (set_page_title (TitleStr (strip (slice_from uri 7) ++ " - Search"))
                (set_page_title (TitleStr (strip (slice_from uri 7) ++ " - Search"))
                   (enter w uri b)))
             _ uri (time_time w (history b)) (history b) eq_refl Hg).
  cbv zeta.
  destruct (viewport_current_page _ >=? 1); rewrite finish_returns;
    (eexists; split;
     [unfold viewport;
      cbn [viewport_pages viewport_current_page _page_content set_find_on_page_viewport
           set_find_on_page_query set_viewport_current_page set_viewport_pages
           set__page_content];
      match goal with
      | |- context [list_getitem [(0, ?n)] 0] =>
          change (list_getitem [(0, n)] 0) with (Some (0, n))
      end;
      cbv iota; rewrite PaginationMore.slice_all; reflexivity
     | reflexivity]).
Qed.

Lemma empty_search_is_retried_once_witness :
  exists b',
    visit_page Demo.world "google: rocq" (Some 2020) Demo.browser
    = Return ("No results found for '" ++ strip (slice_from "google: rocq" 7) ++ "'"
              ++ " with filter year=" ++ str_of_int 2020
              ++ ". Already searched removing year limitation, but No result found. Try with a more general query.")
        b'
    /\ page_title b' = TitleStr (strip (slice_from "google: rocq" 7) ++ " - Search").
Proof.
  apply (empty_search_is_retried_once Demo.world "google: rocq" 2020 Demo.browser);
    try reflexivity; left; reflexivity.
Defined.

End SearchRetryFacts.

(** ** A viewport size that is not positive *)

Module NarrowViewportFacts.
Import Py PyStr Browser Props BrowserNotions.

(** A browser built with [viewport_size=-1] visits a file of one
    character: the pagination raises IndexError after it has emptied the
    list of viewports, no handler of [_fetch_page] names that class, and
    the object is left without a viewport to read. *)
Example visit_with_narrow_viewport :
  exists b',
    visit_page tiny_world "file:///docs/x.txt" None narrow_browser
    = Raise (IndexError "string index out of range") b'
    /\ viewport_pages b' = []
    /\ viewport b' = Raise (IndexError "list index out of range") b'.
Proof. eexists. split; [vm_compute; reflexivity|]. split; reflexivity. Qed.

(** C9 as the specification words it, for every browser that [__init__]
    builds, does not hold. *)
Lemma viewport_index_leaves_range : ~ viewport_always_in_range.
Proof.
  intros H. destruct visit_with_narrow_viewport as (b' & Hrun & Hpages & _).
  assert (Hb : built_with (-1) b').
  { apply (built_step (-1) tiny_world (VisitPage "file:///docs/x.txt" None)
             narrow_browser).
    - apply (built_init (-1) tiny_world None None None). reflexivity.
    - cbn [perform]. unfold bind. rewrite Hrun. reflexivity. }
  destruct (H (-1) b' Hb) as [Hne _]. exact (Hne Hpages).
Qed.

End NarrowViewportFacts.

(** ** How a visit ends *)

Module VisitOutcomeFacts.
Import Py PyStr Browser Props BrowserNotions Triples PaginationFacts InvariantFacts
  NavigationSteps.
















End VisitOutcomeFacts.
